(** * techclinc-api: inventory-consistent billing

    A shallow embedding of the route handlers that move stock and write
    financial records, and of the request router, with the properties of the
    specification proved or refuted on it.  The handlers embedded are those
    of the accessories router (src/routes/customers.js, from line 217), of
    the bills router (src/routes/auth.js, lines 205-626) and of the repairs
    router (src/routes/auth.js, from line 626), with their flattened copies
    in src/index.js, the update and the deletion of a part (src/index.js)
    and the deletion of a customer (src/routes/customers.js); the router is
    src/utils/router.js, with the role guards of src/middleware/auth.js and
    the registrations of src/index.js.  The handlers that insert a part, an
    accessory, a customer or a repair are not embedded.

    Conventions of the embedding
    - a D1 table is the list of its rows in rowid order; AUTOINCREMENT is a
      per-table counter;
    - a row has the columns the embedded handlers compute with; a column
      they only store or return is left out;
    - INTEGER columns are [Z]; DECIMAL columns and the JavaScript numbers that
      feed them are exact rationals [Q], compared with [==];
    - a JavaScript value that may be [undefined] is an [option];
    - SQL is SQLite's, the dialect schema.sql is written in and the one D1
      runs: [BEGIN TRANSACTION], [COMMIT] and [ROLLBACK] delimit an atomic
      unit, and a statement that calls a function SQLite does not have
      ([GREATEST]) fails when it is run; whether the deployed engine enforces
      the FOREIGN KEY clauses is outside the repository;
    - CURRENT_TIMESTAMP is a number [now] given with the request;
    - an [async] handler is a state-passing function over the database; what
      the source throws is a [Thrown] completion with the message of the
      error, caught where the source catches it. *)

From Stdlib Require Import ZArith QArith Lia Ascii.
From Corelib Require Import PrimFloat.
From stdpp Require Import base option list gmap strings pretty.

Open Scope Z_scope.

(** ** Rows of the schema (schema.sql) *)

Record Part := {
  part_id : Z;
  part_quantity : Z;
  part_repair_price : Q;
  part_sealing_price : Q
}.

Record Accessory := {
  accessory_id : Z;
  accessory_name : string;
  accessory_quantity : Z;
  accessory_price : Q
}.

Record Repair := {
  repair_id : Z;
  repair_customer_id : Z;
  repair_status : string
}.

Record RepairPart := {
  rp_id : Z;
  rp_repair_id : Z;
  rp_part_id : Z;
  rp_quantity_used : Z;
  rp_pricing_mode : string;
  rp_unit_price : Q;
  rp_total_price : Q;
  rp_created_at : Z
}.

Record AccessorySale := {
  sale_id : Z;
  sale_accessory_id : Z;
  sale_quantity_sold : Z;
  sale_unit_price : Q;
  sale_total_price : Q;
  sale_sold_by : Z
}.

Record Bill := {
  bill_id : Z;
  bill_repair_id : option Z;
  bill_customer_id : Z;
  bill_number : string;
  bill_subtotal : Q;
  bill_tax_amount : Q;
  bill_total_amount : Q;
  bill_payment_status : string;
  bill_payment_method : option string;
  bill_created_by : Z
}.

Record BillItem := {
  bi_id : Z;
  bi_bill_id : Z;
  bi_item_type : string;
  bi_item_id : Z;
  bi_quantity : Z;
  bi_unit_price : Q;
  bi_total_price : Q;
  bi_pricing_mode : option string
}.

(** [env.DB]: the tables and the AUTOINCREMENT counters of the tables the
    handlers insert into.  Of a customer and of a storage box the handlers
    use the id only. *)
Record Database := {
  storage_boxes : list Z;
  parts : list Part;
  accessories : list Accessory;
  customers : list Z;
  repairs : list Repair;
  repair_parts : list RepairPart;
  accessory_sales : list AccessorySale;
  bills : list Bill;
  bill_items : list BillItem;
  seq_repair_parts : Z;
  seq_accessory_sales : Z;
  seq_bills : Z;
  seq_bill_items : Z
}.

(** ** Requests and responses *)

(** [request.user], the claims [authMiddleware] stores on the request. *)
Record User := { user_id : Z; user_role : string }.

(** A request as a handler sees it: its method and [new URL(url).pathname],
    [request.params] (undefined unless some layer binds it), [request.user]
    and the parsed JSON body. *)
Record Request (B : Type) := {
  method : string;
  pathname : string;
  params : option (gmap string Z);
  user : option User;
  json : B
}.
Arguments method {B} _.
Arguments pathname {B} _.
Arguments params {B} _.
Arguments user {B} _.
Arguments json {B} _.

(** middleware/error.js: [createError] and [createSuccess] build a JSON
    response; the embedding keeps its HTTP status and its message. *)
Record Response := { status : Z; message : string }.

Definition createError (message : string) (status : Z) : Response :=
  {| status := status; message := message |}.

Definition createSuccess (message : string) : Response :=
  {| status := 200; message := message |}.

(** ** Completions: a statement returns or throws *)

(** What is thrown is an [Error]; the embedding keeps its [message].  The
    texts are those of the JavaScript engine, of SQLite and of the D1
    driver; the [catch] of a handler does not look at them, the [catch] of
    the router sends them. *)
Inductive Completion (A : Type) :=
| Normal (a : A) (db : Database)
| Thrown (error : string) (db : Database).
Arguments Normal {A} _ _.
Arguments Thrown {A} _ _.

Definition M (A : Type) := Database -> Completion A.

Definition ret {A} (a : A) : M A := fun db => Normal a db.
Definition throw {A} (error : string) : M A := fun db => Thrown error db.
Definition mbind {A B} (m : M A) (k : A -> M B) : M B :=
  fun db => match m db with
            | Normal a db' => k a db'
            | Thrown error db' => Thrown error db'
            end.
Definition gets {A} (f : Database -> A) : M A := fun db => Normal (f db) db.
Definition modify (f : Database -> Database) : M unit :=
  fun db => Normal tt (f db).

Notation "x <- m ;; k" := (mbind m (fun x => k))
  (at level 100, m at next level, right associativity).
Notation "m ;;; k" := (mbind m (fun _ => k))
  (at level 100, right associativity).

(** [BEGIN TRANSACTION; try { body; COMMIT } catch { ROLLBACK; throw }]. *)
Definition transaction {A} (body : M A) : M A :=
  fun db => match body db with
            | Normal a db' => Normal a db'
            | Thrown error _ => Thrown error db
            end.

(** The outer [try { ... } catch (error) { return createError(failure, 500) }]
    of every handler. *)
Definition try_catch (body : M Response) (failure : string)
  : Database -> Response * Database :=
  fun db => match body db with
            | Normal r db' => (r, db')
            | Thrown _ db' => (createError failure 500, db')
            end.

(** The [try { ... } catch (error) { ... }] of the router: what is thrown is
    answered with status 500 and the message of the error. *)
Definition try_catch_error (body : M Response)
  : Database -> Response * Database :=
  fun db => match body db with
            | Normal r db' => (r, db')
            | Thrown error db' => (createError error 500, db')
            end.

(** The message of the error the D1 driver throws for [.bind(undefined)]. *)
Definition D1_TYPE_ERROR : string :=
  "D1_TYPE_ERROR: Type 'undefined' not supported for value 'undefined'".

(** The message of the TypeError of [value.key] where [value] is [undefined]
    or [null]. *)
Definition cannot_read (value key : string) : string :=
  "Cannot read properties of " +:+ value +:+ " (reading '" +:+ key +:+ "')".

(** JavaScript truthiness of the values a body carries. *)
Definition truthyZ (v : option Z) : bool :=
  match v with Some n => negb (n =? 0) | None => false end.
Definition truthyQ (v : option Q) : bool :=
  match v with Some q => negb (Qeq_bool q 0) | None => false end.
Definition truthyS (v : option string) : bool :=
  match v with Some s => negb (String.eqb s "") | None => false end.

(** [a === b] on an optional string and a literal. *)
Definition is_str (v : option string) (s : string) : bool :=
  match v with Some t => String.eqb t s | None => false end.

(** [column = ?] with a bound value that may be [undefined]. *)
Definition sql_eq (column : Z) (bound : option Z) : bool :=
  match bound with Some k => column =? k | None => false end.

Section Handlers.

(** What [.bind(undefined)] does is the D1 driver's business, not this
    repository's: it either rejects the value (the statement throws) or binds
    NULL, which no [=] comparison matches.  The handlers are modelled for
    both. *)
Variable d1_rejects_undefined : bool.

(** [request.params.<key>]: a TypeError when [request.params] is undefined,
    [undefined] when the key is absent. *)
Definition param {B} (request : Request B) (key : string) : M (option Z) :=
  match params request with
  | None => throw (cannot_read "undefined" key)
  | Some m => ret (m !! key)
  end.

(** [request.user.id]. *)
Definition user_id_of {B} (request : Request B) : M Z :=
  match user request with
  | None => throw (cannot_read "undefined" "id")
  | Some u => ret (user_id u)
  end.

(** [.bind(v)] of one value. *)
Definition bind_value (v : option Z) : M (option Z) :=
  match v with
  | None =>
      if d1_rejects_undefined
      then throw D1_TYPE_ERROR
      else ret None
  | Some k => ret (Some k)
  end.

(** *** Inventory ledger: quantity adjustments *)

Record QuantityBody := {
  qb_quantity : option Z;
  qb_operation : option string
}.

Definition set_accessory_quantity (f : Z -> Z) (key : option Z)
    (l : list Accessory) : list Accessory :=
  map (fun a => if sql_eq (accessory_id a) key
                then {| accessory_id := accessory_id a;
                        accessory_name := accessory_name a;
                        accessory_quantity := f (accessory_quantity a);
                        accessory_price := accessory_price a |}
                else a) l.

Definition set_part_quantity (f : Z -> Z) (key : option Z)
    (l : list Part) : list Part :=
  map (fun p => if sql_eq (part_id p) key
                then {| part_id := part_id p;
                        part_quantity := f (part_quantity p);
                        part_repair_price := part_repair_price p;
                        part_sealing_price := part_sealing_price p |}
                else p) l.

Definition with_accessories (f : list Accessory -> list Accessory)
    (db : Database) : Database :=
  {| storage_boxes := storage_boxes db;
     parts := parts db; accessories := f (accessories db);
     customers := customers db; repairs := repairs db;
     repair_parts := repair_parts db; accessory_sales := accessory_sales db;
     bills := bills db; bill_items := bill_items db;
     seq_repair_parts := seq_repair_parts db;
     seq_accessory_sales := seq_accessory_sales db;
     seq_bills := seq_bills db; seq_bill_items := seq_bill_items db |}.

Definition with_parts (f : list Part -> list Part)
    (db : Database) : Database :=
  {| storage_boxes := storage_boxes db;
     parts := f (parts db); accessories := accessories db;
     customers := customers db; repairs := repairs db;
     repair_parts := repair_parts db; accessory_sales := accessory_sales db;
     bills := bills db; bill_items := bill_items db;
     seq_repair_parts := seq_repair_parts db;
     seq_accessory_sales := seq_accessory_sales db;
     seq_bills := seq_bills db; seq_bill_items := seq_bill_items db |}.

(** [UPDATE accessories SET quantity = f(quantity) WHERE id = ?]. *)
Definition update_accessory_quantity (f : Z -> Z) (key : option Z) : M unit :=
  k <- bind_value key ;;
  modify (with_accessories (set_accessory_quantity f k)).

(** [UPDATE parts SET quantity = f(quantity) WHERE id = ?]. *)
Definition update_part_quantity (f : Z -> Z) (key : option Z) : M unit :=
  k <- bind_value key ;;
  modify (with_parts (set_part_quantity f k)).

(** [SELECT * FROM accessories WHERE id = ?] [.first()]. *)
Definition first_accessory (key : option Z) : M (option Accessory) :=
  k <- bind_value key ;;
  gets (fun db => List.find (fun a => sql_eq (accessory_id a) k) (accessories db)).

(** [SELECT * FROM parts WHERE id = ?] [.first()]. *)
Definition first_part (key : option Z) : M (option Part) :=
  k <- bind_value key ;;
  gets (fun db => List.find (fun p => sql_eq (part_id p) k) (parts db)).

(** The scalar functions of two numbers that the engine has, by name.  The
    engine is SQLite, the dialect schema.sql is written in and the one D1
    runs: it has [MAX] and [MIN] and no [GREATEST]. *)
Definition sql_function (name : string) : option (Z -> Z -> Z) :=
  if String.eqb name "MAX" then Some Z.max
  else if String.eqb name "MIN" then Some Z.min
  else None.

(** A call of [name] in a statement: running a statement that calls a
    function the engine does not have fails ("no such function"). *)
Definition sql_call (name : string) : M (Z -> Z -> Z) :=
  match sql_function name with
  | Some f => ret f
  | None => throw ("no such function: " +:+ name)
  end.

(** The three UPDATE statements of the quantity routes, by [operation]: what
    running [SET quantity = ...] computes from the old quantity.  The
    statement of [subtract] is [SET quantity = GREATEST(0, quantity - ?)]. *)
Definition quantity_update (operation : option string) (n : Z)
  : option (M (Z -> Z)) :=
  if is_str operation "add" then Some (ret (fun q => q + n))
  else if is_str operation "subtract"
  then Some (greatest <- sql_call "GREATEST" ;;
             ret (fun q => greatest 0 (q - n)))
  else if is_str operation "set" then Some (ret (fun _ => n))
  else None.

(** PATCH /accessories/:id/quantity: src/routes/customers.js, lines 369-404,
    and its copy in src/index.js, lines 558-587. *)
Definition adjustAccessoryQuantity (request : Request QuantityBody)
  : Database -> Response * Database :=
  try_catch (
    accessoryId <- param request "id" ;;
    let quantity := qb_quantity (json request) in
    let operation := qb_operation (json request) in
    if negb (truthyZ quantity) || negb (truthyS operation)
    then ret (createError "Quantity and operation are required" 400)
    else
      match quantity_update operation (default 0 quantity) with
      | None => ret (createError "Invalid operation. Use: add, subtract, or set" 400)
      | Some updateQuery =>
          f <- updateQuery ;;
          update_accessory_quantity f accessoryId ;;;
          updatedAccessory <- first_accessory accessoryId ;;
          match updatedAccessory with
          | None => ret (createError "Accessory not found" 404)
          | Some _ => ret (createSuccess "Accessory quantity updated successfully")
          end
      end)
    "Failed to update accessory quantity".

(** PATCH /parts/:id/quantity: src/index.js, lines 405-437, and the parts
    router. *)
Definition adjustPartQuantity (request : Request QuantityBody)
  : Database -> Response * Database :=
  try_catch (
    partId <- param request "id" ;;
    let quantity := qb_quantity (json request) in
    let operation := qb_operation (json request) in
    if negb (truthyZ quantity) || negb (truthyS operation)
    then ret (createError "Quantity and operation are required" 400)
    else
      match quantity_update operation (default 0 quantity) with
      | None => ret (createError "Invalid operation. Use: add, subtract, or set" 400)
      | Some updateQuery =>
          f <- updateQuery ;;
          update_part_quantity f partId ;;;
          updatedPart <- first_part partId ;;
          match updatedPart with
          | None => ret (createError "Part not found" 404)
          | Some _ => ret (createSuccess "Part quantity updated successfully")
          end
      end)
    "Failed to update part quantity".

(** *** Accessory sale recorder *)

Record SellBody := {
  sb_quantity : option Z;
  sb_unit_price : option Q
}.

Definition add_accessory_sale (row : AccessorySale) (db : Database) : Database :=
  {| storage_boxes := storage_boxes db;
     parts := parts db; accessories := accessories db;
     customers := customers db; repairs := repairs db;
     repair_parts := repair_parts db;
     accessory_sales := accessory_sales db ++ [row];
     bills := bills db; bill_items := bill_items db;
     seq_repair_parts := seq_repair_parts db;
     seq_accessory_sales := sale_id row;
     seq_bills := seq_bills db; seq_bill_items := seq_bill_items db |}.

(** [INSERT INTO accessory_sales (accessory_id, quantity_sold, unit_price,
    total_price, sold_by)]; [accessory_id] is NOT NULL.  Returns
    [meta.last_row_id]. *)
Definition insert_accessory_sale (accessoryId : option Z) (quantity : Z)
    (unit_price total_price : Q) (sold_by : Z) : M Z :=
  k <- bind_value accessoryId ;;
  match k with
  | None => throw "NOT NULL constraint failed: accessory_sales.accessory_id"
  | Some a =>
      fun db =>
        let id := seq_accessory_sales db + 1 in
        Normal id (add_accessory_sale
          {| sale_id := id; sale_accessory_id := a;
             sale_quantity_sold := quantity; sale_unit_price := unit_price;
             sale_total_price := total_price; sale_sold_by := sold_by |} db)
  end.

(** POST /accessories/:id/sell: src/routes/customers.js, lines 407-470, and
    its copy in src/index.js, lines 589-638. *)
Definition sellAccessory (request : Request SellBody)
  : Database -> Response * Database :=
  try_catch (
    accessoryId <- param request "id" ;;
    let quantity := sb_quantity (json request) in
    let unit_price := sb_unit_price (json request) in
    if negb (truthyZ quantity) || negb (truthyQ unit_price)
       || (default 0 quantity <=? 0)
    then ret (createError "Valid quantity and unit price are required" 400)
    else
      let quantity := default 0 quantity in
      let unit_price := default 0%Q unit_price in
      accessory <- first_accessory accessoryId ;;
      match accessory with
      | None => ret (createError "Accessory not found" 404)
      | Some accessory =>
          if accessory_quantity accessory <? quantity
          then ret (createError "Insufficient stock" 400)
          else
            transaction (
              sold_by <- user_id_of request ;;
              insert_accessory_sale accessoryId quantity unit_price
                (inject_Z quantity * unit_price)%Q sold_by ;;;
              update_accessory_quantity (fun q => q - quantity) accessoryId ;;;
              ret (createSuccess "Accessory sold successfully"))
      end)
    "Failed to sell accessory".

(** *** Repair parts tracker *)

Record AddPartBody := {
  ap_part_id : option Z;
  ap_quantity_used : option Z;
  ap_pricing_mode : option string
}.

Definition with_repair_parts (f : list RepairPart -> list RepairPart)
    (seq : Z -> Z) (db : Database) : Database :=
  {| storage_boxes := storage_boxes db;
     parts := parts db; accessories := accessories db;
     customers := customers db; repairs := repairs db;
     repair_parts := f (repair_parts db);
     accessory_sales := accessory_sales db;
     bills := bills db; bill_items := bill_items db;
     seq_repair_parts := seq (seq_repair_parts db);
     seq_accessory_sales := seq_accessory_sales db;
     seq_bills := seq_bills db; seq_bill_items := seq_bill_items db |}.

Definition with_repairs (f : list Repair -> list Repair)
    (db : Database) : Database :=
  {| storage_boxes := storage_boxes db;
     parts := parts db; accessories := accessories db;
     customers := customers db; repairs := f (repairs db);
     repair_parts := repair_parts db; accessory_sales := accessory_sales db;
     bills := bills db; bill_items := bill_items db;
     seq_repair_parts := seq_repair_parts db;
     seq_accessory_sales := seq_accessory_sales db;
     seq_bills := seq_bills db; seq_bill_items := seq_bill_items db |}.

(** [SELECT * FROM repairs WHERE id = ?] [.first()]. *)
Definition first_repair (key : option Z) : M (option Repair) :=
  k <- bind_value key ;;
  gets (fun db => List.find (fun r => sql_eq (repair_id r) k) (repairs db)).

(** [INSERT INTO repair_parts (repair_id, part_id, quantity_used,
    pricing_mode, unit_price, total_price)]; [created_at] defaults to
    CURRENT_TIMESTAMP, here [now]; [repair_id] and [part_id] are NOT NULL. *)
Definition insert_repair_part (now : Z) (repairId partId : option Z)
    (quantity_used : Z) (pricing_mode : string) (unitPrice totalPrice : Q)
  : M unit :=
  r <- bind_value repairId ;;
  p <- bind_value partId ;;
  match r, p with
  | Some r, Some p =>
      fun db =>
        let id := seq_repair_parts db + 1 in
        Normal tt (with_repair_parts
          (fun l => l ++ [{| rp_id := id; rp_repair_id := r; rp_part_id := p;
                             rp_quantity_used := quantity_used;
                             rp_pricing_mode := pricing_mode;
                             rp_unit_price := unitPrice;
                             rp_total_price := totalPrice;
                             rp_created_at := now |}])
          (fun _ => id) db)
  | None, _ => throw "NOT NULL constraint failed: repair_parts.repair_id"
  | _, None => throw "NOT NULL constraint failed: repair_parts.part_id"
  end.

(** POST /repairs/:id/parts: src/routes/auth.js, lines 905-981.  [now] is
    the value of CURRENT_TIMESTAMP when the usage row is inserted. *)
Definition addPart (now : Z) (request : Request AddPartBody)
  : Database -> Response * Database :=
  try_catch (
    repairId <- param request "id" ;;
    let part_id := ap_part_id (json request) in
    let quantity_used := ap_quantity_used (json request) in
    let pricing_mode := ap_pricing_mode (json request) in
    if negb (truthyZ part_id) || negb (truthyZ quantity_used)
       || negb (truthyS pricing_mode)
    then ret (createError "Part ID, quantity used, and pricing mode are required" 400)
    else if negb (is_str pricing_mode "repair" || is_str pricing_mode "seal")
    then ret (createError "Invalid pricing mode. Use: repair or seal" 400)
    else
      let quantity_used := default 0 quantity_used in
      repair <- first_repair repairId ;;
      match repair with
      | None => ret (createError "Repair not found" 404)
      | Some _ =>
          part <- first_part part_id ;;
          match part with
          | None => ret (createError "Part not found" 404)
          | Some part =>
              if part_quantity part <? quantity_used
              then ret (createError "Insufficient part stock" 400)
              else
                let unitPrice := if is_str pricing_mode "repair"
                                 then part_repair_price part
                                 else part_sealing_price part in
                let totalPrice := (inject_Z quantity_used * unitPrice)%Q in
                transaction (
                  insert_repair_part now repairId part_id quantity_used
                    (default "" pricing_mode) unitPrice totalPrice ;;;
                  update_part_quantity (fun q => q - quantity_used) part_id ;;;
                  ret (createSuccess "Part added to repair successfully"))
          end
      end)
    "Failed to add part to repair".

(** [ORDER BY created_at DESC LIMIT 1]: a row with the greatest
    [created_at]; among rows with equal timestamps the one met first in rowid
    order is kept (SQL leaves the choice open). *)
Definition most_recent (l : list RepairPart) : option RepairPart :=
  fold_left (fun best r =>
               match best with
               | None => Some r
               | Some b => if rp_created_at b <? rp_created_at r
                           then Some r else Some b
               end) l None.

Definition usage_matches (repairId partId : option Z) (r : RepairPart) : bool :=
  sql_eq (rp_repair_id r) repairId && sql_eq (rp_part_id r) partId.

(** [SELECT * FROM repair_parts WHERE repair_id = ? AND part_id = ?
    ORDER BY created_at DESC LIMIT 1] [.first()]. *)
Definition latest_repair_part (repairId partId : option Z)
  : M (option RepairPart) :=
  r <- bind_value repairId ;;
  p <- bind_value partId ;;
  gets (fun db =>
    most_recent (List.filter (usage_matches r p) (repair_parts db))).

(** [DELETE FROM repair_parts WHERE repair_id = ? AND part_id = ? AND id = ?]. *)
Definition delete_repair_part (repairId partId : option Z) (id : Z) : M unit :=
  r <- bind_value repairId ;;
  p <- bind_value partId ;;
  modify (with_repair_parts
    (List.filter (fun u => negb (usage_matches r p u && (rp_id u =? id))))
    (fun s => s)).

(** DELETE /repairs/:id/parts/:part_id: src/routes/auth.js, lines 984-1029. *)
Definition removePart (request : Request unit)
  : Database -> Response * Database :=
  try_catch (
    repairId <- param request "id" ;;
    partId <- param request "part_id" ;;
    repairPart <- latest_repair_part repairId partId ;;
    match repairPart with
    | None => ret (createError "Part not found in repair" 404)
    | Some repairPart =>
        transaction (
          delete_repair_part repairId partId (rp_id repairPart) ;;;
          update_part_quantity (fun q => q + rp_quantity_used repairPart) partId ;;;
          ret (createSuccess "Part removed from repair successfully"))
    end)
    "Failed to remove part from repair".

(** [for (const x of l) { await body(x) }]. *)
Fixpoint for_each {A} (l : list A) (body : A -> M unit) : M unit :=
  match l with
  | [] => ret tt
  | x :: l' => body x ;;; for_each l' body
  end.

(** DELETE /repairs/:id: src/routes/auth.js, lines 1032-1083. *)
Definition deleteRepair (request : Request unit)
  : Database -> Response * Database :=
  try_catch (
    repairId <- param request "id" ;;
    k <- bind_value repairId ;;
    billsCount <- gets (fun db => length (List.filter
                     (fun b => match bill_repair_id b with
                               | Some r => sql_eq r k
                               | None => false
                               end) (bills db))) ;;
    if (0 <? Z.of_nat billsCount)
    then ret (createError "Cannot delete repair with associated bills" 400)
    else
      transaction (
        repairParts <- gets (fun db => List.filter
                         (fun u => sql_eq (rp_repair_id u) k) (repair_parts db)) ;;
        for_each repairParts (fun part =>
          update_part_quantity (fun q => q + rp_quantity_used part)
            (Some (rp_part_id part))) ;;;
        modify (with_repair_parts
          (List.filter (fun u => negb (sql_eq (rp_repair_id u) k))) (fun s => s)) ;;;
        modify (with_repairs
          (List.filter (fun r => negb (sql_eq (repair_id r) k)))) ;;;
        ret (createSuccess "Repair deleted successfully")))
    "Failed to delete repair".

(** *** Bill composer *)

Record BillBody := {
  bb_tax_rate : option Q;
  bb_payment_method : option string
}.

Record CartItem := {
  ci_accessory_id : Z;
  ci_quantity : Z
}.

Record CartBody := {
  cb_customer_id : option Z;
  cb_items : option (list CartItem);
  cb_tax_rate : option Q;
  cb_payment_method : option string
}.

Definition add_bill (row : Bill) (db : Database) : Database :=
  {| storage_boxes := storage_boxes db;
     parts := parts db; accessories := accessories db;
     customers := customers db; repairs := repairs db;
     repair_parts := repair_parts db; accessory_sales := accessory_sales db;
     bills := bills db ++ [row]; bill_items := bill_items db;
     seq_repair_parts := seq_repair_parts db;
     seq_accessory_sales := seq_accessory_sales db;
     seq_bills := bill_id row; seq_bill_items := seq_bill_items db |}.

Definition add_bill_item (row : BillItem) (db : Database) : Database :=
  {| storage_boxes := storage_boxes db;
     parts := parts db; accessories := accessories db;
     customers := customers db; repairs := repairs db;
     repair_parts := repair_parts db; accessory_sales := accessory_sales db;
     bills := bills db; bill_items := bill_items db ++ [row];
     seq_repair_parts := seq_repair_parts db;
     seq_accessory_sales := seq_accessory_sales db;
     seq_bills := seq_bills db; seq_bill_items := bi_id row |}.

(** [x || null] on an optional string. *)
Definition or_null (v : option string) : option string :=
  if truthyS v then v else None.

(** [INSERT INTO bills (repair_id, customer_id, bill_number, subtotal,
    tax_amount, total_amount, payment_status, payment_method, created_by)
    VALUES (..., 'pending', ...)]; [bill_number] is UNIQUE.  Returns
    [meta.last_row_id]. *)
Definition insert_bill (repairId : option Z) (customer_id : Z)
    (billNumber : string) (subtotal taxAmount totalAmount : Q)
    (payment_method : option string) (created_by : Z) : M Z :=
  fun db =>
    if existsb (fun b => String.eqb (bill_number b) billNumber) (bills db)
    then Thrown "UNIQUE constraint failed: bills.bill_number" db
    else
      let id := seq_bills db + 1 in
      Normal id (add_bill
        {| bill_id := id; bill_repair_id := repairId;
           bill_customer_id := customer_id; bill_number := billNumber;
           bill_subtotal := subtotal; bill_tax_amount := taxAmount;
           bill_total_amount := totalAmount;
           bill_payment_status := "pending";
           bill_payment_method := payment_method;
           bill_created_by := created_by |} db).

(** [INSERT INTO bill_items (bill_id, item_type, item_id, quantity,
    unit_price, total_price, pricing_mode)]. *)
Definition insert_bill_item (billId : Z) (item_type : string) (item_id : Z)
    (quantity : Z) (unit_price total_price : Q)
    (pricing_mode : option string) : M unit :=
  fun db =>
    let id := seq_bill_items db + 1 in
    Normal tt (add_bill_item
      {| bi_id := id; bi_bill_id := billId; bi_item_type := item_type;
         bi_item_id := item_id; bi_quantity := quantity;
         bi_unit_price := unit_price; bi_total_price := total_price;
         bi_pricing_mode := pricing_mode |} db).

(** [SELECT r.*, c.name FROM repairs r JOIN customers c ON r.customer_id =
    c.id WHERE r.id = ?] [.first()]. *)
Definition first_repair_with_customer (key : option Z) : M (option Repair) :=
  k <- bind_value key ;;
  gets (fun db =>
    List.find (fun r => sql_eq (repair_id r) k
                        && existsb (Z.eqb (repair_customer_id r)) (customers db))
              (repairs db)).

Definition bill_of_repair (k : option Z) (b : Bill) : bool :=
  match bill_repair_id b with
  | Some r => sql_eq r k
  | None => false
  end.

(** [SELECT id FROM bills WHERE repair_id = ?] [.first()]. *)
Definition first_bill_of_repair (key : option Z) : M (option Bill) :=
  k <- bind_value key ;;
  gets (fun db => List.find (bill_of_repair k) (bills db)).

(** [SELECT rp.*, p.name FROM repair_parts rp JOIN parts p ON rp.part_id =
    p.id WHERE rp.repair_id = ?] [.all()]. *)
Definition repair_parts_of (key : option Z) : M (list RepairPart) :=
  k <- bind_value key ;;
  gets (fun db =>
    List.filter (fun u => sql_eq (rp_repair_id u) k
                          && existsb (fun p => part_id p =? rp_part_id u) (parts db))
                (repair_parts db)).

(** [subtotal * (tax_rate / 100)]. *)
Definition tax_of (subtotal tax_rate : Q) : Q :=
  (subtotal * (tax_rate / 100))%Q.

(** POST /bills/from-repair/:repair_id: src/routes/auth.js, lines 305-410.
    [billNumber] is the [BILL-<Date.now()>-<random>] token the handler
    draws. *)
Definition generateBillFromRepair (billNumber : string)
    (request : Request BillBody) : Database -> Response * Database :=
  try_catch (
    repairId <- param request "id" ;;
    let tax_rate := default 0%Q (bb_tax_rate (json request)) in
    let payment_method := bb_payment_method (json request) in
    repair <- first_repair_with_customer repairId ;;
    match repair with
    | None => ret (createError "Repair not found" 404)
    | Some repair =>
        if negb (String.eqb (repair_status repair) "completed")
        then ret (createError "Cannot generate bill for incomplete repair" 400)
        else
          existingBill <- first_bill_of_repair repairId ;;
          match existingBill with
          | Some _ => ret (createError "Bill already exists for this repair" 400)
          | None =>
              repairParts <- repair_parts_of repairId ;;
              if (length repairParts =? 0)%nat
              then ret (createError "No parts found for this repair" 400)
              else
                let subtotal :=
                  fold_left (fun sum part => (sum + rp_total_price part)%Q)
                            repairParts 0%Q in
                let taxAmount := tax_of subtotal tax_rate in
                let totalAmount := (subtotal + taxAmount)%Q in
                transaction (
                  created_by <- user_id_of request ;;
                  billId <- insert_bill repairId (repair_customer_id repair)
                              billNumber subtotal taxAmount totalAmount
                              (or_null payment_method) created_by ;;
                  for_each repairParts (fun part =>
                    insert_bill_item billId "part" (rp_part_id part)
                      (rp_quantity_used part) (rp_unit_price part)
                      (rp_total_price part) (Some (rp_pricing_mode part))) ;;;
                  ret (createSuccess "Bill generated successfully"))
          end
    end)
    "Failed to generate bill".

(** The first loop of POST /bills/accessories: every accessory exists and
    has the line's quantity in stock; the first line that fails returns its
    error. *)
Fixpoint verify_cart (items : list CartItem) : M (option Response) :=
  match items with
  | [] => ret None
  | item :: rest =>
      accessory <- first_accessory (Some (ci_accessory_id item)) ;;
      match accessory with
      | None =>
          ret (Some (createError
            ("Accessory with ID " +:+ pretty (ci_accessory_id item) +:+ " not found") 400))
      | Some accessory =>
          if accessory_quantity accessory <? ci_quantity item
          then ret (Some (createError
                 ("Insufficient stock for " +:+ accessory_name accessory) 400))
          else verify_cart rest
      end
  end.

(** The second loop: [subtotal += accessory.price * item.quantity]; reading
    [.price] of a missing row throws. *)
Fixpoint cart_subtotal (items : list CartItem) (subtotal : Q) : M Q :=
  match items with
  | [] => ret subtotal
  | item :: rest =>
      accessory <- first_accessory (Some (ci_accessory_id item)) ;;
      match accessory with
      | None => throw (cannot_read "null" "price")
      | Some accessory =>
          cart_subtotal rest
            (subtotal + accessory_price accessory * inject_Z (ci_quantity item))%Q
      end
  end.

(** The body of the third loop: bill item, stock debit, sale record. *)
Definition bill_cart_line (billId sold_by : Z) (item : CartItem) : M unit :=
  accessory <- first_accessory (Some (ci_accessory_id item)) ;;
  match accessory with
  | None => throw (cannot_read "null" "price")
  | Some accessory =>
      let total := (accessory_price accessory * inject_Z (ci_quantity item))%Q in
      insert_bill_item billId "accessory" (ci_accessory_id item)
        (ci_quantity item) (accessory_price accessory) total None ;;;
      update_accessory_quantity (fun q => q - ci_quantity item)
        (Some (ci_accessory_id item)) ;;;
      insert_accessory_sale (Some (ci_accessory_id item)) (ci_quantity item)
        (accessory_price accessory) total sold_by ;;;
      ret tt
  end.

(** [SELECT id FROM customers WHERE id = ?] [.first()]. *)
Definition first_customer (key : option Z) : M (option Z) :=
  k <- bind_value key ;;
  gets (fun db => List.find (fun c => sql_eq c k) (customers db)).

(** POST /bills/accessories: src/routes/auth.js, lines 413-537. *)
Definition generateAccessoryBill (billNumber : string)
    (request : Request CartBody) : Database -> Response * Database :=
  try_catch (
    let customer_id := cb_customer_id (json request) in
    let tax_rate := default 0%Q (cb_tax_rate (json request)) in
    let payment_method := cb_payment_method (json request) in
    match cb_items (json request) with
    | None => ret (createError "Customer ID and items array are required" 400)
    | Some items =>
        if negb (truthyZ customer_id) || (length items =? 0)%nat
        then ret (createError "Customer ID and items array are required" 400)
        else
          customer <- first_customer customer_id ;;
          match customer with
          | None => ret (createError "Customer not found" 404)
          | Some _ =>
              failed <- verify_cart items ;;
              match failed with
              | Some response => ret response
              | None =>
                  subtotal <- cart_subtotal items 0%Q ;;
                  let taxAmount := tax_of subtotal tax_rate in
                  let totalAmount := (subtotal + taxAmount)%Q in
                  transaction (
                    created_by <- user_id_of request ;;
                    billId <- insert_bill None (default 0 customer_id)
                                billNumber subtotal taxAmount totalAmount
                                (or_null payment_method) created_by ;;
                    for_each items (bill_cart_line billId created_by) ;;;
                    ret (createSuccess "Accessory bill created successfully"))
              end
          end
    end)
    "Failed to create accessory bill".

(** *** Bills: payment status and deletion *)

Record PaymentBody := {
  pb_payment_status : option string;
  pb_payment_method : option string
}.

Definition with_bills (f : list Bill -> list Bill) (db : Database) : Database :=
  {| storage_boxes := storage_boxes db;
     parts := parts db; accessories := accessories db;
     customers := customers db; repairs := repairs db;
     repair_parts := repair_parts db; accessory_sales := accessory_sales db;
     bills := f (bills db); bill_items := bill_items db;
     seq_repair_parts := seq_repair_parts db;
     seq_accessory_sales := seq_accessory_sales db;
     seq_bills := seq_bills db; seq_bill_items := seq_bill_items db |}.

Definition with_bill_items (f : list BillItem -> list BillItem)
    (db : Database) : Database :=
  {| storage_boxes := storage_boxes db;
     parts := parts db; accessories := accessories db;
     customers := customers db; repairs := repairs db;
     repair_parts := repair_parts db; accessory_sales := accessory_sales db;
     bills := bills db; bill_items := f (bill_items db);
     seq_repair_parts := seq_repair_parts db;
     seq_accessory_sales := seq_accessory_sales db;
     seq_bills := seq_bills db; seq_bill_items := seq_bill_items db |}.

(** [SELECT * FROM bills WHERE id = ?] [.first()]. *)
Definition first_bill (key : option Z) : M (option Bill) :=
  k <- bind_value key ;;
  gets (fun db => List.find (fun b => sql_eq (bill_id b) k) (bills db)).

Definition set_payment (payment_status : string)
    (payment_method : option string) (key : option Z)
    (l : list Bill) : list Bill :=
  map (fun b => if sql_eq (bill_id b) key
                then {| bill_id := bill_id b;
                        bill_repair_id := bill_repair_id b;
                        bill_customer_id := bill_customer_id b;
                        bill_number := bill_number b;
                        bill_subtotal := bill_subtotal b;
                        bill_tax_amount := bill_tax_amount b;
                        bill_total_amount := bill_total_amount b;
                        bill_payment_status := payment_status;
                        bill_payment_method := payment_method;
                        bill_created_by := bill_created_by b |}
                else b) l.

(** [UPDATE bills SET payment_status = ?, payment_method = ?, updated_at =
    CURRENT_TIMESTAMP WHERE id = ?]. *)
Definition update_payment (payment_status : string)
    (payment_method : option string) (key : option Z) : M unit :=
  k <- bind_value key ;;
  modify (with_bills (set_payment payment_status payment_method k)).

(** [validValues.includes(v)]. *)
Definition includes (validValues : list string) (v : option string) : bool :=
  existsb (is_str v) validValues.

(** PATCH /bills/:id/payment: src/routes/auth.js, lines 540-583.  The
    SELECT that follows the UPDATE only reads the row the response carries. *)
Definition updatePayment (request : Request PaymentBody)
  : Database -> Response * Database :=
  try_catch (
    billId <- param request "id" ;;
    let payment_status := pb_payment_status (json request) in
    let payment_method := pb_payment_method (json request) in
    if negb (truthyS payment_status)
    then ret (createError "Payment status is required" 400)
    else if negb (includes ["pending"; "paid"; "partial"] payment_status)
    then ret (createError "Invalid payment status" 400)
    else
      bill <- first_bill billId ;;
      match bill with
      | None => ret (createError "Bill not found" 404)
      | Some _ =>
          update_payment (default "" payment_status) (or_null payment_method)
            billId ;;;
          ret (createSuccess "Bill payment status updated successfully")
      end)
    "Failed to update bill payment status".

(** [DELETE FROM bill_items WHERE bill_id = ?]. *)
Definition delete_bill_items (key : option Z) : M unit :=
  k <- bind_value key ;;
  modify (with_bill_items
    (List.filter (fun i => negb (sql_eq (bi_bill_id i) k)))).

(** [DELETE FROM bills WHERE id = ?]. *)
Definition delete_bill (key : option Z) : M unit :=
  k <- bind_value key ;;
  modify (with_bills (List.filter (fun b => negb (sql_eq (bill_id b) k)))).

(** DELETE /bills/:id: src/routes/auth.js, lines 586-624. *)
Definition deleteBill (request : Request unit)
  : Database -> Response * Database :=
  try_catch (
    billId <- param request "id" ;;
    bill <- first_bill billId ;;
    match bill with
    | None => ret (createError "Bill not found" 404)
    | Some _ =>
        transaction (
          delete_bill_items billId ;;;
          delete_bill billId ;;;
          ret (createSuccess "Bill deleted successfully"))
    end)
    "Failed to delete bill".

(** *** Repairs: status *)

Record StatusBody := {
  stb_status : option string;
  stb_notes : option string
}.

Definition set_repair_status (status : string) (key : option Z)
    (l : list Repair) : list Repair :=
  map (fun r => if sql_eq (repair_id r) key
                then {| repair_id := repair_id r;
                        repair_customer_id := repair_customer_id r;
                        repair_status := status |}
                else r) l.

(** [UPDATE repairs SET status = ?, updated_at = ?, ... WHERE id = ?]; of the
    columns it sets, [status] is the one a repair row carries here. *)
Definition update_repair_status (status : string) (key : option Z) : M unit :=
  k <- bind_value key ;;
  modify (with_repairs (set_repair_status status k)).

(** PATCH /repairs/:id/status: src/routes/auth.js, lines 845-902. *)
Definition updateRepairStatus (request : Request StatusBody)
  : Database -> Response * Database :=
  try_catch (
    repairId <- param request "id" ;;
    let status := stb_status (json request) in
    if negb (truthyS status)
    then ret (createError "Status is required" 400)
    else if negb (includes ["pending"; "in_progress"; "completed"; "cancelled"]
                    status)
    then ret (createError "Invalid status" 400)
    else
      existingRepair <- first_repair repairId ;;
      match existingRepair with
      | None => ret (createError "Repair not found" 404)
      | Some _ =>
          update_repair_status (default "" status) repairId ;;;
          ret (createSuccess "Repair status updated successfully")
      end)
    "Failed to update repair status".

(** *** Catalogue: updating and deleting rows *)

(** The fields of the body of PUT /accessories/:id that reach a column of
    the accessory row as it is embedded. *)
Record AccessoryBody := {
  acb_name : option string;
  acb_quantity : option Z;
  acb_price : option Q
}.

(** [x || 0] on an optional number. *)
Definition or_zero (v : option Z) : Z :=
  if truthyZ v then default 0 v else 0.

Definition set_accessory (name : string) (quantity : Z) (price : Q)
    (key : option Z) (l : list Accessory) : list Accessory :=
  map (fun a => if sql_eq (accessory_id a) key
                then {| accessory_id := accessory_id a;
                        accessory_name := name;
                        accessory_quantity := quantity;
                        accessory_price := price |}
                else a) l.

(** PUT /accessories/:id: src/routes/customers.js, lines 305-341, and its
    copy in src/index.js, lines 506-537. *)
Definition updateAccessory (request : Request AccessoryBody)
  : Database -> Response * Database :=
  try_catch (
    accessoryId <- param request "id" ;;
    let name := acb_name (json request) in
    let quantity := acb_quantity (json request) in
    let price := acb_price (json request) in
    if negb (truthyS name) || negb (truthyQ price)
    then ret (createError "Name and price are required" 400)
    else
      k <- bind_value accessoryId ;;
      modify (with_accessories
        (set_accessory (default "" name) (or_zero quantity)
           (default 0%Q price) k)) ;;;
      updatedAccessory <- first_accessory accessoryId ;;
      match updatedAccessory with
      | None => ret (createError "Accessory not found" 404)
      | Some _ => ret (createSuccess "Accessory updated successfully")
      end)
    "Failed to update accessory".

(** [SELECT COUNT( * ) as count FROM t WHERE column = ?] [.first()]. *)
Definition count_where {A} (table : Database -> list A) (column : A -> Z)
    (key : option Z) : M nat :=
  k <- bind_value key ;;
  gets (fun db => length (List.filter (fun x => sql_eq (column x) k) (table db))).

(** DELETE /accessories/:id: src/routes/customers.js, lines 344-366, and its
    copy in src/index.js, lines 539-556. *)
Definition deleteAccessory (request : Request unit)
  : Database -> Response * Database :=
  try_catch (
    accessoryId <- param request "id" ;;
    salesCount <- count_where accessory_sales sale_accessory_id accessoryId ;;
    if (0 <? Z.of_nat salesCount)
    then ret (createError "Cannot delete accessory that has sales history" 400)
    else
      k <- bind_value accessoryId ;;
      modify (with_accessories
        (List.filter (fun a => negb (sql_eq (accessory_id a) k)))) ;;;
      ret (createSuccess "Accessory deleted successfully"))
    "Failed to delete accessory".

(** DELETE /parts/:id: src/index.js, lines 386-403, and the parts router. *)
Definition deletePart (request : Request unit)
  : Database -> Response * Database :=
  try_catch (
    partId <- param request "id" ;;
    usageCount <- count_where repair_parts rp_part_id partId ;;
    if (0 <? Z.of_nat usageCount)
    then ret (createError "Cannot delete part that has been used in repairs" 400)
    else
      k <- bind_value partId ;;
      modify (with_parts (List.filter (fun p => negb (sql_eq (part_id p) k)))) ;;;
      ret (createSuccess "Part deleted successfully"))
    "Failed to delete part".

(** The fields of the body of PUT /parts/:id that the handler tests or
    that reach a column of the part row as it is embedded. *)
Record PartBody := {
  ptb_name : option string;
  ptb_box_id : option Z;
  ptb_quantity : option Z;
  ptb_repair_price : option Q;
  ptb_sealing_price : option Q
}.

Definition set_part (quantity : Z) (repair_price sealing_price : Q)
    (key : option Z) (l : list Part) : list Part :=
  map (fun p => if sql_eq (part_id p) key
                then {| part_id := part_id p;
                        part_quantity := quantity;
                        part_repair_price := repair_price;
                        part_sealing_price := sealing_price |}
                else p) l.

(** [SELECT id FROM storage_boxes WHERE id = ?] [.first()]. *)
Definition first_box (key : option Z) : M (option Z) :=
  k <- bind_value key ;;
  gets (fun db => List.find (fun b => sql_eq b k) (storage_boxes db)).

(** [if (box_id) { const boxExists = ...; if (!boxExists) return
    createError('Storage box not found', 404); }]: the response to return,
    if any. *)
Definition check_box (box_id : option Z) : M (option Response) :=
  if truthyZ box_id
  then
    boxExists <- first_box box_id ;;
    match boxExists with
    | None => ret (Some (createError "Storage box not found" 404))
    | Some _ => ret None
    end
  else ret None.

(** PUT /parts/:id: src/index.js, lines 340-384, and the parts router. *)
Definition updatePart (request : Request PartBody)
  : Database -> Response * Database :=
  try_catch (
    partId <- param request "id" ;;
    let name := ptb_name (json request) in
    let box_id := ptb_box_id (json request) in
    let quantity := ptb_quantity (json request) in
    let repair_price := ptb_repair_price (json request) in
    let sealing_price := ptb_sealing_price (json request) in
    if negb (truthyS name) || negb (truthyQ repair_price)
       || negb (truthyQ sealing_price)
    then ret (createError "Name, repair price, and sealing price are required" 400)
    else
      refused <- check_box box_id ;;
      match refused with
      | Some response => ret response
      | None =>
          k <- bind_value partId ;;
          modify (with_parts
            (set_part (or_zero quantity) (default 0%Q repair_price)
               (default 0%Q sealing_price) k)) ;;;
          updatedPart <- first_part partId ;;
          match updatedPart with
          | None => ret (createError "Part not found" 404)
          | Some _ => ret (createSuccess "Part updated successfully")
          end
      end)
    "Failed to update part".

Definition with_customers (f : list Z -> list Z) (db : Database) : Database :=
  {| storage_boxes := storage_boxes db;
     parts := parts db; accessories := accessories db;
     customers := f (customers db); repairs := repairs db;
     repair_parts := repair_parts db; accessory_sales := accessory_sales db;
     bills := bills db; bill_items := bill_items db;
     seq_repair_parts := seq_repair_parts db;
     seq_accessory_sales := seq_accessory_sales db;
     seq_bills := seq_bills db; seq_bill_items := seq_bill_items db |}.

(** DELETE /customers/:id: src/routes/customers.js, lines 149-175. *)
Definition deleteCustomer (request : Request unit)
  : Database -> Response * Database :=
  try_catch (
    customerId <- param request "id" ;;
    repairsCount <- count_where repairs repair_customer_id customerId ;;
    billsCount <- count_where bills bill_customer_id customerId ;;
    if (0 <? Z.of_nat repairsCount) || (0 <? Z.of_nat billsCount)
    then ret (createError "Cannot delete customer with repair or billing history" 400)
    else
      k <- bind_value customerId ;;
      modify (with_customers (List.filter (fun c => negb (sql_eq c k)))) ;;;
      ret (createSuccess "Customer deleted successfully"))
    "Failed to delete customer".

End Handlers.

(** ** src/utils/router.js and src/middleware/auth.js *)

Module Router.

(** A route callback: it returns a response or a falsy value (then the next
    callback runs), may assign to the request, and may throw. *)
Definition Handler (B : Type) := Request B -> M (option Response * Request B).

Record Route (B : Type) := {
  route_method : option string;
  route_path : string;
  route_handlers : list (Handler B)
}.
Arguments route_method {B} _.
Arguments route_path {B} _.
Arguments route_handlers {B} _.

Record t (B : Type) := {
  routes : list (Route B);
  middleware : list (Handler B)
}.
Arguments routes {B} _.
Arguments middleware {B} _.

(** [new Router()]. *)
Definition new {B} : t B := {| routes := []; middleware := [] |}.

(** [addRoute(method, path, handler)]. *)
Definition addRoute {B} (m path : string) (handler : Handler B) (r : t B) : t B :=
  {| routes := routes r ++
       [{| route_method := Some m;
           route_path := if String.eqb path "/" then "" else path;
           route_handlers := [handler] |}];
     middleware := middleware r |}.

(** [post(path, handler)]: two parameters. *)
Definition post {B} (path : string) (handler : Handler B) : t B -> t B :=
  addRoute "POST" path handler.

(** [s.split('/')]. *)
Fixpoint split_slash (s cur : string) : list string :=
  match s with
  | EmptyString => [cur]
  | String c s' =>
      if Ascii.eqb c "/"%char then cur :: split_slash s' ""
      else split_slash s' (cur +:+ String c "")
  end.

(** [s.split('/').filter(Boolean)]. *)
Definition segments (s : string) : list string :=
  List.filter (fun x => negb (String.eqb x "")) (split_slash s "").

(** [seg.startsWith(':')]. *)
Definition is_param (seg : string) : bool :=
  match seg with
  | String c _ => Ascii.eqb c ":"%char
  | EmptyString => false
  end.

Fixpoint match_segments (routeSegments requestSegments : list string) : bool :=
  match routeSegments, requestSegments with
  | [], [] => true
  | r :: rs, q :: qs =>
      if negb (String.eqb r q) && negb (is_param r) then false
      else match_segments rs qs
  | _, _ => false
  end.

(** [matchPath(routePath, requestPath)]: segments are compared, a [:name]
    segment matches anything, and nothing is recorded about what it matched. *)
Definition matchPath (routePath requestPath : string) : bool :=
  if String.eqb routePath ""
  then String.eqb requestPath "/" || String.eqb requestPath ""
  else match_segments (segments routePath) (segments requestPath).

(** [findRoute(method, path)]. *)
Definition findRoute {B} (r : t B) (m path : string) : option (Route B) :=
  List.find (fun route => is_str (route_method route) m
                          && matchPath (route_path route) path) (routes r).

(** [for (const h of hs) { response = await h(request, env, ctx); if
    (response) break; }]. *)
Fixpoint run_handlers {B} (hs : list (Handler B)) (request : Request B)
  : M (option Response * Request B) :=
  match hs with
  | [] => ret (None, request)
  | h :: rest =>
      out <- h request ;;
      match fst out with
      | Some response => ret (Some response, snd out)
      | None => run_handlers rest (snd out)
      end
  end.

(** [handle(request, env, ctx)]; its [catch] answers 500 with
    [error.message]. *)
Definition handle {B} (r : t B) (request : Request B)
  : Database -> Response * Database :=
  try_catch_error (
    out <- run_handlers (middleware r) request ;;
    match fst out with
    | Some response => ret response
    | None =>
        let request := snd out in
        match findRoute r (method request) (pathname request) with
        | None =>
            ret (createError ("Route " +:+ method request +:+ " "
                              +:+ pathname request +:+ " not found") 404)
        | Some route =>
            out <- run_handlers (route_handlers route) request ;;
            match fst out with
            | Some response => ret response
            | None => ret (createError "No response" 500)
            end
        end
    end).

(** middleware/auth.js: [requireRole(roles)]. *)
Definition requireRole {B} (roles : list string) : Handler B :=
  fun request =>
    match user request with
    | None => ret (Some (createError "Authentication required" 401), request)
    | Some u =>
        if existsb (String.eqb (user_role u)) roles
        then ret (None, request)
        else ret (Some (createError "Insufficient permissions" 403), request)
    end.

Definition requireCashier {B} : Handler B := requireRole ["admin"; "cashier"].

(** The names a route path declares: its [:name] segments. *)
Definition param_names (routePath : string) : list string :=
  map (fun seg => match seg with
                  | String _ name => name
                  | EmptyString => ""
                  end)
      (List.filter is_param (segments routePath)).

(** The bills router (src/routes/auth.js, line 305) registers the endpoint with
    [router.post('/from-repair/:repair_id', requireCashier, async (request,
    env) => ...)].  [post] has the parameters [(path, handler)]: the route
    keeps [requireCashier] as its only callback, and the third argument is
    not stored. *)
Definition from_repair_route {B} : t B :=
  post "/from-repair/:repair_id" requireCashier new.

(** [use(path, ...handlers)]: a function as first argument is pushed on the
    global middleware (the other arguments are not looked at); anything else
    is the path of a route that has the handlers and no [method]. *)
Definition use {B} (path : Handler B + string) (handlers : list (Handler B))
    (r : t B) : t B :=
  match path with
  | inl f => {| routes := routes r; middleware := middleware r ++ [f] |}
  | inr path =>
      {| routes := routes r ++
           [{| route_method := None;
               route_path := if String.eqb path "/" then "" else path;
               route_handlers := handlers |}];
         middleware := middleware r |}
  end.

(** [get(path, handler)], [put(path, handler)], [delete(path, handler)] and
    [patch(path, handler)]. *)
Definition get {B} (path : string) (handler : Handler B) : t B -> t B :=
  addRoute "GET" path handler.

Definition put {B} (path : string) (handler : Handler B) : t B -> t B :=
  addRoute "PUT" path handler.

Definition delete {B} (path : string) (handler : Handler B) : t B -> t B :=
  addRoute "DELETE" path handler.

Definition patch {B} (path : string) (handler : Handler B) : t B -> t B :=
  addRoute "PATCH" path handler.

(** middleware/auth.js: the other two role guards. *)
Definition requireAdmin {B} : Handler B := requireRole ["admin"].

Definition requireTechnician {B} : Handler B :=
  requireRole ["admin"; "technician"].

(** middleware/error.js: [errorHandler] returns [null]. *)
Definition errorHandler {B} : Handler B := fun request => ret (None, request).

(** A value that is not a function in a list of handlers (a [Router] object
    passed to [use]): calling it throws a TypeError. *)
Definition not_a_function {B} : Handler B :=
  fun _ => throw "handler is not a function".

Section Index.

Context {B : Type}.

(** The callbacks index.js imports or writes in place. *)
Variables corsMiddleware authMiddleware : Handler B.
Variables login register logout health root : Handler B.

(** src/index.js: the registrations of the application's router, in source
    order, each with the arguments its method keeps.  A registration written
    [router.verb(path, authMiddleware, ..., handler)] keeps [authMiddleware]. *)
Definition index : t B :=
  fold_left (fun r registration => registration r)
    [ use (inl corsMiddleware) [];
      use (inl errorHandler) [];
      post "/auth/login" login;
      post "/auth/register" register;
      post "/auth/logout" logout;
      get "/auth/profile" authMiddleware;
      post "/auth/change-password" authMiddleware;
      get "/parts/boxes" authMiddleware;
      post "/parts/boxes" authMiddleware;
      put "/parts/boxes/:id" authMiddleware;
      delete "/parts/boxes/:id" authMiddleware;
      get "/parts" authMiddleware;
      get "/parts/:id" authMiddleware;
      post "/parts" authMiddleware;
      put "/parts/:id" authMiddleware;
      delete "/parts/:id" authMiddleware;
      patch "/parts/:id/quantity" authMiddleware;
      get "/accessories" authMiddleware;
      get "/accessories/:id" authMiddleware;
      post "/accessories" authMiddleware;
      put "/accessories/:id" authMiddleware;
      delete "/accessories/:id" authMiddleware;
      patch "/accessories/:id/quantity" authMiddleware;
      post "/accessories/:id/sell" authMiddleware;
      get "/accessories/:id/sales" authMiddleware;
      use (inr "/parts") [authMiddleware; not_a_function];
      use (inr "/accessories") [authMiddleware; not_a_function];
      use (inr "/customers") [authMiddleware; not_a_function];
      use (inr "/repairs") [authMiddleware; not_a_function];
      use (inr "/bills") [authMiddleware; not_a_function];
      use (inr "/reports") [authMiddleware; not_a_function];
      use (inr "/settings") [authMiddleware; not_a_function];
      get "/health" health;
      get "/" root ]
    new.

End Index.

End Router.

(** ** Vocabulary of the properties *)

(** The quantity on record for an accessory, and for a part. *)
Definition stock_of_accessory (db : Database) (id : Z) : option Z :=
  accessory_quantity <$> List.find (fun a => accessory_id a =? id) (accessories db).

Definition stock_of_part (db : Database) (id : Z) : option Z :=
  part_quantity <$> List.find (fun p => part_id p =? id) (parts db).

(** The operations of the core, as one request type. *)
Inductive Operation :=
| AdjustAccessoryQuantity (request : Request QuantityBody)
| AdjustPartQuantity (request : Request QuantityBody)
| SellAccessory (request : Request SellBody)
| AddPart (now : Z) (request : Request AddPartBody)
| RemovePart (request : Request unit)
| DeleteRepair (request : Request unit)
| GenerateBillFromRepair (billNumber : string) (request : Request BillBody)
| GenerateAccessoryBill (billNumber : string) (request : Request CartBody).

Definition perform (d1 : bool) (op : Operation)
  : Database -> Response * Database :=
  match op with
  | AdjustAccessoryQuantity request => adjustAccessoryQuantity d1 request
  | AdjustPartQuantity request => adjustPartQuantity d1 request
  | SellAccessory request => sellAccessory d1 request
  | AddPart now request => addPart d1 now request
  | RemovePart request => removePart d1 request
  | DeleteRepair request => deleteRepair d1 request
  | GenerateBillFromRepair billNumber request =>
      generateBillFromRepair d1 billNumber request
  | GenerateAccessoryBill billNumber request =>
      generateAccessoryBill d1 billNumber request
  end.

(** The database after a sequence of requests, served one after the other. *)
Definition run (d1 : bool) (ops : list Operation) (db : Database) : Database :=
  fold_left (fun db op => snd (perform d1 op db)) ops db.

(** [stable P m]: whatever [m] does, returning or throwing, [P] holds of the
    database afterwards when it held before. *)
Definition stable {A} (P : Database -> Prop) (m : M A) : Prop :=
  forall db, P db ->
    match m db with Normal _ db' => P db' | Thrown _ db' => P db' end.

(** The bills table holds exactly the rows [bs]. *)
Definition bills_are (bs : list Bill) (db : Database) : Prop := bills db = bs.

(** The bills that reference a repair. *)
Definition bills_for (db : Database) (id : Z) : list Bill :=
  List.filter (bill_of_repair (Some id)) (bills db).

Definition one_bill_per_repair (db : Database) : Prop :=
  forall id, (length (bills_for db id) <= 1)%nat.

(** The items of a bill and the sum of their [total_price]. *)
Definition items_of (db : Database) (b : Bill) : list BillItem :=
  List.filter (fun i => bi_bill_id i =? bill_id b) (bill_items db).

Definition sum_total_price (l : list BillItem) : Q :=
  fold_right (fun i s => (bi_total_price i + s)%Q) 0%Q l.

(** The bill item written for a usage of a repair, and the items written
    for the usages of a repair, numbered from [seq + 1]. *)
Definition item_of_usage (billId id : Z) (u : RepairPart) : BillItem :=
  {| bi_id := id; bi_bill_id := billId; bi_item_type := "part";
     bi_item_id := rp_part_id u; bi_quantity := rp_quantity_used u;
     bi_unit_price := rp_unit_price u; bi_total_price := rp_total_price u;
     bi_pricing_mode := Some (rp_pricing_mode u) |}.

Fixpoint items_of_usages (billId seq : Z) (usages : list RepairPart)
  : list BillItem :=
  match usages with
  | [] => []
  | u :: us => item_of_usage billId (seq + 1) u
               :: items_of_usages billId (seq + 1) us
  end.

Definition add_bill_items (its : list BillItem) (db : Database) : Database :=
  fold_left (fun d i => add_bill_item i d) its db.

(** The usages a bill is made from: those of the repair whose part is on
    record. *)
Definition billable_usages (db : Database) (id : Z) : list RepairPart :=
  List.filter (fun u => (rp_repair_id u =? id)
                        && existsb (fun p => part_id p =? rp_part_id u) (parts db))
              (repair_parts db).

(** The repair a bill is made for, as the handler finds it. *)
Definition billable_repair (db : Database) (id : Z) : option Repair :=
  List.find (fun r => (repair_id r =? id)
                      && existsb (Z.eqb (repair_customer_id r)) (customers db))
            (repairs db).

(** The canonical price of an accessory. *)
Definition price_of (db : Database) (id : Z) : option Q :=
  accessory_price <$> List.find (fun a => accessory_id a =? id) (accessories db).

(** A cart line whose accessory is on record with at least the line's
    quantity in stock. *)
Definition cart_line_in_stock (db : Database) (item : CartItem) : bool :=
  match List.find (fun a => accessory_id a =? ci_accessory_id item)
                  (accessories db) with
  | Some a => negb (accessory_quantity a <? ci_quantity item)
  | None => false
  end.

(** The price of a part for a pricing mode, as [addPart] selects it. *)
Definition price_for (mode : string) (part : Part) : Q :=
  if String.eqb mode "repair" then part_repair_price part
  else part_sealing_price part.

(** [subtotal * (tax_rate / 100)] on binary64 numbers, which is what a
    JavaScript number is. *)
Definition tax_of_binary64 (subtotal tax_rate : float) : float :=
  (subtotal * (tax_rate / 100))%float.

(** An amount that is a whole number of cents. *)
Definition whole_cents (q : Q) : Prop := exists c : Z, (q == c # 100)%Q.

(** The other requests that write: payments, statuses and the catalogue. *)
Inductive Call :=
| Core (op : Operation)
| UpdatePayment (request : Request PaymentBody)
| DeleteBill (request : Request unit)
| UpdateRepairStatus (request : Request StatusBody)
| UpdateAccessory (request : Request AccessoryBody)
| DeleteAccessory (request : Request unit)
| UpdatePart (request : Request PartBody)
| DeletePart (request : Request unit)
| DeleteCustomer (request : Request unit).

Definition serve (d1 : bool) (call : Call) : Database -> Response * Database :=
  match call with
  | Core op => perform d1 op
  | UpdatePayment request => updatePayment d1 request
  | DeleteBill request => deleteBill d1 request
  | UpdateRepairStatus request => updateRepairStatus d1 request
  | UpdateAccessory request => updateAccessory d1 request
  | DeleteAccessory request => deleteAccessory d1 request
  | UpdatePart request => updatePart d1 request
  | DeletePart request => deletePart d1 request
  | DeleteCustomer request => deleteCustomer d1 request
  end.

Definition serve_all (d1 : bool) (calls : list Call) (db : Database)
  : Database :=
  fold_left (fun db call => snd (serve d1 call db)) calls db.

(** The units of a part recorded on repairs, on one repair, and the units of
    an accessory recorded as sold. *)
Definition sum_quantity_used (l : list RepairPart) : Z :=
  fold_right (fun u s => rp_quantity_used u + s) 0 l.

Definition units_in_repairs (db : Database) (pid : Z) : Z :=
  sum_quantity_used (List.filter (fun u => rp_part_id u =? pid) (repair_parts db)).

Definition units_on_repair (db : Database) (id pid : Z) : Z :=
  sum_quantity_used
    (List.filter (fun u => rp_part_id u =? pid)
       (List.filter (fun u => rp_repair_id u =? id) (repair_parts db))).

Definition units_sold (db : Database) (id : Z) : Z :=
  fold_right (fun s n => sale_quantity_sold s + n) 0
    (List.filter (fun s => sale_accessory_id s =? id) (accessory_sales db)).

(** The database after the parts of the usages [us] were credited, usage by
    usage, with the quantities the usages record. *)
Definition credit_parts (us : list RepairPart) (db : Database) : Database :=
  fold_left (fun d u =>
               with_parts (set_part_quantity (fun q => q + rp_quantity_used u)
                             (Some (rp_part_id u))) d) us db.

(** Usage rows carry distinct ids, none above the table's counter. *)
Definition usages_numbered (db : Database) : Prop :=
  NoDup (map rp_id (repair_parts db)) /\
  forall u, In u (repair_parts db) -> rp_id u <= seq_repair_parts db.

(** The units of a part the shop accounts for, on the shelf and recorded on
    repairs; and those of an accessory, on the shelf and recorded as sold. *)
Definition part_units (db : Database) (pid : Z) : option Z :=
  (fun q => q + units_in_repairs db pid) <$> stock_of_part db pid.

Definition accessory_units (db : Database) (id : Z) : option Z :=
  (fun q => q + units_sold db id) <$> stock_of_accessory db id.

(** The calls that move parts only together with a usage row: all but the
    direct adjustment of a part's quantity, the overwriting and the deletion
    of a part.  And
    the calls that move accessories only together with a sale row: all but
    the direct adjustment, the overwriting and the deletion of an
    accessory. *)
Definition keeps_part_ledger (call : Call) : bool :=
  match call with
  | Core (AdjustPartQuantity _) | UpdatePart _ | DeletePart _ => false
  | _ => true
  end.

Definition keeps_accessory_ledger (call : Call) : bool :=
  match call with
  | Core (AdjustAccessoryQuantity _) | UpdateAccessory _ | DeleteAccessory _ =>
      false
  | _ => true
  end.

(** No quantity on record is negative. *)
Definition stock_nonnegative (db : Database) : Prop :=
  (forall id q, stock_of_accessory db id = Some q -> 0 <= q) /\
  (forall id q, stock_of_part db id = Some q -> 0 <= q).

(** The debits that come with a sufficiency check on the very quantity
    they debit: a sale, the recording of a usage, and a cart that names no
    accessory twice. *)
Definition checked_debit (call : Call) : Prop :=
  match call with
  | Core (SellAccessory _) | Core (AddPart _ _) => True
  | Core (GenerateAccessoryBill _ request) =>
      NoDup (map ci_accessory_id (default [] (cb_items (json request))))
  | _ => False
  end.

(** The references schema.sql declares as FOREIGN KEY between the tables
    embedded here: a usage refers to a repair and to a part, a sale to an
    accessory, a repair to a customer, a bill to a customer and, unless its
    [repair_id] is NULL, to a repair, a bill item to a bill. *)
Definition references_hold (db : Database) : Prop :=
  (forall u, In u (repair_parts db) ->
     In (rp_repair_id u) (map repair_id (repairs db)) /\
     In (rp_part_id u) (map part_id (parts db))) /\
  (forall s, In s (accessory_sales db) ->
     In (sale_accessory_id s) (map accessory_id (accessories db))) /\
  (forall r, In r (repairs db) -> In (repair_customer_id r) (customers db)) /\
  (forall b, In b (bills db) ->
     In (bill_customer_id b) (customers db) /\
     forall id, bill_repair_id b = Some id ->
       In id (map repair_id (repairs db))) /\
  (forall i, In i (bill_items db) ->
     In (bi_bill_id i) (map bill_id (bills db))).

(** The values the CHECK constraints of schema.sql allow for a bill's
    payment status and for a repair's status. *)
Definition payment_statuses_valid (db : Database) : Prop :=
  forall b, In b (bills db) ->
    In (bill_payment_status b) ["pending"; "paid"; "partial"].

Definition repair_statuses_valid (db : Database) : Prop :=
  forall r, In r (repairs db) ->
    In (repair_status r) ["pending"; "in_progress"; "completed"; "cancelled"].

(** What a bill says about money and about whom it bills: every column but
    the two a payment update writes. *)
Definition amounts_of (b : Bill) : Z * option Z * Z * string * Q * Q * Q * Z :=
  (bill_id b, bill_repair_id b, bill_customer_id b, bill_number b,
   bill_subtotal b, bill_tax_amount b, bill_total_amount b, bill_created_by b).

(** What the router answers when a route keeps a guard as its only callback:
    the guard's answer, or "No response", or the message of what the guard
    throws. *)
Definition answer_of_guard {B} (guard : Router.Handler B) (request : Request B)
  : Database -> Response * Database :=
  try_catch_error (
    out <- guard request ;;
    match fst out with
    | Some response => ret response
    | None => ret (createError "No response" 500)
    end).

(** The 404 of [handle]. *)
Definition not_found {B} (request : Request B) : Response :=
  createError ("Route " +:+ method request +:+ " " +:+ pathname request
               +:+ " not found") 404.

(** ** The scenarios of the specification *)

Definition admin : User := {| user_id := 7; user_role := "admin" |}.

(** A shop with one part (repair price 50.00, sealing price 80.00, 10 in
    stock), two accessories (price 15.00, 20 in stock; price 25.00, 3 in
    stock), and one completed repair for its one customer. *)
Definition shop : Database :=
  {| storage_boxes := [1];
     parts := [{| part_id := 1; part_quantity := 10;
                  part_repair_price := 50; part_sealing_price := 80 |}];
     accessories := [{| accessory_id := 1; accessory_name := "Phone case";
                        accessory_quantity := 20; accessory_price := 15 |};
                     {| accessory_id := 2; accessory_name := "Charger";
                        accessory_quantity := 3; accessory_price := 25 |}];
     customers := [1];
     repairs := [{| repair_id := 1; repair_customer_id := 1;
                    repair_status := "completed" |}];
     repair_parts := []; accessory_sales := []; bills := []; bill_items := [];
     seq_repair_parts := 0; seq_accessory_sales := 0;
     seq_bills := 0; seq_bill_items := 0 |}.

(** A request of the administrator. *)
Definition sent {B} (verb path : string) (bound : option (gmap string Z))
    (body : B) : Request B :=
  {| method := verb; pathname := path; params := bound;
     user := Some admin; json := body |}.

Definition add_two_at_repair_price : Request AddPartBody :=
  sent "POST" "/repairs/1/parts" (Some {["id" := 1]})
    {| ap_part_id := Some 1; ap_quantity_used := Some 2;
       ap_pricing_mode := Some "repair" |}.

Definition remove_part_1 : Request unit :=
  sent "DELETE" "/repairs/1/parts/1"
    (Some (<["part_id" := 1]> {["id" := 1]})) tt.

(** The billing request as the handler expects it, [params.id] bound. *)
Definition bill_repair_1 : Request BillBody :=
  sent "POST" "/from-repair/1" (Some {["id" := 1]})
    {| bb_tax_rate := Some (85 # 10); bb_payment_method := None |}.

(** The billing request as the router hands it over: no [params]. *)
Definition bill_repair_1_as_routed : Request BillBody :=
  sent "POST" "/from-repair/1" None
    {| bb_tax_rate := Some (85 # 10); bb_payment_method := None |}.

Definition sale_of (n : Z) : Request SellBody :=
  sent "POST" "/accessories/1/sell" (Some {["id" := 1]})
    {| sb_quantity := Some n; sb_unit_price := Some 15%Q |}.

Definition adjustment (operation : string) (n : Z) : Request QuantityBody :=
  sent "PATCH" "/accessories/1/quantity" (Some {["id" := 1]})
    {| qb_quantity := Some n; qb_operation := Some operation |}.

Definition cart (lines : list CartItem) (tax_rate : Q) : Request CartBody :=
  sent "POST" "/accessories" None
    {| cb_customer_id := Some 1; cb_items := Some lines;
       cb_tax_rate := Some tax_rate; cb_payment_method := None |}.

(** The shop after two units of the part were recorded on the repair at the
    repair price, and after that repair was billed at a tax rate of 8.5. *)
Definition shop_with_usage : Database :=
  snd (addPart true 100 add_two_at_repair_price shop).

Definition billed_shop : Database :=
  snd (generateBillFromRepair true "BILL-1" bill_repair_1 shop_with_usage).

(** The shop with the usage recorded and the part's prices then raised to
    60.00 and 90.00. *)
Definition repriced_shop : Database :=
  with_parts (map (fun p => {| part_id := part_id p;
                               part_quantity := part_quantity p;
                               part_repair_price := 60;
                               part_sealing_price := 90 |}))
    shop_with_usage.

(** Requests for row [id] of a table: a deletion, a payment, a status, an
    overwrite of accessory 1 that sends no quantity. *)
Definition deletion (path : string) (id : Z) : Request unit :=
  sent "DELETE" path (Some {["id" := id]}) tt.

Definition payment (payment_status : string) : Request PaymentBody :=
  sent "PATCH" "/bills/1/payment" (Some {["id" := 1]})
    {| pb_payment_status := Some payment_status;
       pb_payment_method := Some "cash" |}.

Definition status_of_repair_1 (status : string) : Request StatusBody :=
  sent "PATCH" "/repairs/1/status" (Some {["id" := 1]})
    {| stb_status := Some status; stb_notes := None |}.



(** Recording [n] units of part 1 on repair 1 at the repair price. *)
Definition usage_of (n : Z) : Request AddPartBody :=
  sent "POST" "/repairs/1/parts" (Some {["id" := 1]})
    {| ap_part_id := Some 1; ap_quantity_used := Some n;
       ap_pricing_mode := Some "repair" |}.

(** A request as the application's router receives it: no [params]. *)
Definition received (verb path : string) : Request unit :=
  sent verb path None tt.

(** ** Properties *)

Section Properties.

Variable d1 : bool.

(** *** Reading a table after a quantity update *)

Lemma find_set_accessory_quantity f k id l :
  List.find (fun a => accessory_id a =? id) (set_accessory_quantity f (Some k) l)
  = (fun a => if accessory_id a =? k
              then {| accessory_id := accessory_id a;
                      accessory_name := accessory_name a;
                      accessory_quantity := f (accessory_quantity a);
                      accessory_price := accessory_price a |}
              else a) <$> List.find (fun a => accessory_id a =? id) l.
Proof.
  induction l as [|a l IH]; simpl; [reflexivity|].
  destruct (accessory_id a =? k) eqn:Hk; simpl;
    destruct (accessory_id a =? id) eqn:Hid; simpl; try rewrite Hk; auto.
Qed.

Lemma find_set_part_quantity f k id l :
  List.find (fun p => part_id p =? id) (set_part_quantity f (Some k) l)
  = (fun p => if part_id p =? k
              then {| part_id := part_id p;
                      part_quantity := f (part_quantity p);
                      part_repair_price := part_repair_price p;
                      part_sealing_price := part_sealing_price p |}
              else p) <$> List.find (fun p => part_id p =? id) l.
Proof.
  induction l as [|a l IH]; simpl; [reflexivity|].
  destruct (part_id a =? k) eqn:Hk; simpl;
    destruct (part_id a =? id) eqn:Hid; simpl; try rewrite Hk; auto.
Qed.

Lemma stock_after_accessory_update f k id db :
  stock_of_accessory (with_accessories (set_accessory_quantity f (Some k)) db) id
  = (fun q => if id =? k then f q else q) <$> stock_of_accessory db id.
Proof.
  unfold stock_of_accessory; simpl. rewrite find_set_accessory_quantity.
  destruct (List.find _ (accessories db)) as [a|] eqn:Hf; simpl; [|reflexivity].
  apply find_some in Hf as [_ Hf]. apply Z.eqb_eq in Hf. rewrite Hf.
  destruct (id =? k); reflexivity.
Qed.

Lemma stock_after_part_update f k id db :
  stock_of_part (with_parts (set_part_quantity f (Some k)) db) id
  = (fun q => if id =? k then f q else q) <$> stock_of_part db id.
Proof.
  unfold stock_of_part; simpl. rewrite find_set_part_quantity.
  destruct (List.find _ (parts db)) as [a|] eqn:Hf; simpl; [|reflexivity].
  apply find_some in Hf as [_ Hf]. apply Z.eqb_eq in Hf. rewrite Hf.
  destruct (id =? k); reflexivity.
Qed.

Lemma truthyZ_Some n : n <> 0 -> truthyZ (Some n) = true.
Proof. intros H. simpl. apply negb_true_iff, Z.eqb_neq, H. Qed.

(** What the engine makes of the statement of an operation: [add] and
    [set] run, [subtract] calls a function the engine does not have. *)
Lemma quantity_update_runs operation n updateQuery :
  quantity_update operation n = Some updateQuery ->
  (is_str operation "subtract" = true /\
   updateQuery = throw "no such function: GREATEST") \/
  (is_str operation "subtract" = false /\
   exists f, updateQuery = ret f /\
             (f = (fun q => q + n) \/ f = (fun _ => n))).
Proof.
  unfold quantity_update. intros H.
  destruct (is_str operation "add") eqn:Ha.
  - right. injection H as <-. split.
    + destruct operation as [s|]; [|reflexivity]. simpl in *.
      apply String.eqb_eq in Ha. subst s. reflexivity.
    + eexists. split; [reflexivity|]. left. reflexivity.
  - destruct (is_str operation "subtract") eqn:Hs.
    + left. injection H as <-. split; reflexivity.
    + right. destruct (is_str operation "set"); [|discriminate].
      injection H as <-. split; [reflexivity|].
      eexists. split; [reflexivity|]. right. reflexivity.
Qed.

(** C10, refuted on the code. The statement the quantity routes build for
    [subtract] is [SET quantity = GREATEST(0, quantity - ?)], and the engine
    has no function of that name: for every request with operation
    [subtract] and a non-zero amount the statement fails, the handler's
    [catch] answers 500 and the quantity is what it was.  The floor the
    statement asks for is never computed, on the accessory route and on the
    part route. *)
Theorem subtract_is_never_applied
    (request : Request QuantityBody) (db : Database) (n : Z) :
  qb_operation (json request) = Some "subtract" ->
  qb_quantity (json request) = Some n -> n <> 0 ->
  adjustAccessoryQuantity d1 request db
  = (createError "Failed to update accessory quantity" 500, db) /\
  adjustPartQuantity d1 request db
  = (createError "Failed to update part quantity" 500, db).
Proof.
  intros Hop Hq Hn. split.
  - unfold adjustAccessoryQuantity, try_catch, param, mbind at 1.
    destruct (params request) as [m|]; [|reflexivity].
    unfold ret at 1. cbv zeta. rewrite Hop, Hq, (truthyZ_Some n Hn).
    reflexivity.
  - unfold adjustPartQuantity, try_catch, param, mbind at 1.
    destruct (params request) as [m|]; [|reflexivity].
    unfold ret at 1. cbv zeta. rewrite Hop, Hq, (truthyZ_Some n Hn).
    reflexivity.
Qed.

Lemma truthyQ_Some q : ~ (q == 0)%Q -> truthyQ (Some q) = true.
Proof.
  intros H. simpl. apply negb_true_iff.
  destruct (Qeq_bool q 0) eqn:E; [|reflexivity].
  apply Qeq_bool_iff in E. contradiction.
Qed.

(** C2. A sale request with a positive quantity [n] and a unit price, for an
    accessory on record: when [n] exceeds the stock the answer is
    "Insufficient stock" and the database is what it was (no sale row, same
    quantity); otherwise one sale row is written with
    [total_price = n * unit_price] and the accessory's quantity goes down by
    exactly [n], the other accessories keeping theirs. *)
Theorem sell_checks_stock_then_debits
    (request : Request SellBody) (db : Database)
    (m : gmap string Z) (id n : Z) (price : Q) (u : User) (a : Accessory) :
  params request = Some m -> m !! "id" = Some id ->
  user request = Some u ->
  sb_quantity (json request) = Some n -> 0 < n ->
  sb_unit_price (json request) = Some price -> ~ (price == 0)%Q ->
  List.find (fun a => accessory_id a =? id) (accessories db) = Some a ->
  (accessory_quantity a < n ->
     sellAccessory d1 request db = (createError "Insufficient stock" 400, db))
  /\
  (n <= accessory_quantity a ->
     fst (sellAccessory d1 request db)
       = createSuccess "Accessory sold successfully" /\
     accessory_sales (snd (sellAccessory d1 request db))
       = accessory_sales db ++
         [{| sale_id := seq_accessory_sales db + 1;
             sale_accessory_id := id;
             sale_quantity_sold := n;
             sale_unit_price := price;
             sale_total_price := (inject_Z n * price)%Q;
             sale_sold_by := user_id u |}] /\
     stock_of_accessory (snd (sellAccessory d1 request db)) id
       = Some (accessory_quantity a - n) /\
     forall id', id' <> id ->
       stock_of_accessory (snd (sellAccessory d1 request db)) id'
       = stock_of_accessory db id').
Proof.
  intros Hp Hid Hu Hq Hn Hpr Hne Hf.
  unfold sellAccessory, try_catch, param, mbind, ret.
  rewrite Hp, Hid, Hq, Hpr. rewrite (truthyZ_Some n) by lia.
  rewrite (truthyQ_Some price Hne). simpl.
  replace (n <=? 0) with false by (symmetry; apply Z.leb_gt; lia).
  unfold first_accessory, mbind, bind_value, ret, gets. simpl.
  rewrite Hf.
  split; intros Hcmp.
  - replace (accessory_quantity a <? n) with true
      by (symmetry; apply Z.ltb_lt; lia).
    reflexivity.
  - replace (accessory_quantity a <? n) with false
      by (symmetry; apply Z.ltb_ge; lia).
    unfold transaction, user_id_of, insert_accessory_sale,
      update_accessory_quantity, mbind, bind_value, ret, modify.
    rewrite Hu. simpl.
    split; [reflexivity|]. split; [reflexivity|].
    assert (Hs : stock_of_accessory db id = Some (accessory_quantity a))
      by (unfold stock_of_accessory; rewrite Hf; reflexivity).
    split.
    + pose proof (stock_after_accessory_update (fun q => q - n) id id
                    (add_accessory_sale
                       {| sale_id := seq_accessory_sales db + 1;
                          sale_accessory_id := id; sale_quantity_sold := n;
                          sale_unit_price := price;
                          sale_total_price := (inject_Z n * price)%Q;
                          sale_sold_by := user_id u |} db)) as Hst.
      rewrite Hst. unfold stock_of_accessory in *. simpl.
      rewrite Hf. simpl. rewrite Z.eqb_refl. reflexivity.
    + intros id' Hne'.
      rewrite stock_after_accessory_update.
      replace (id' =? id) with false by (symmetry; apply Z.eqb_neq; exact Hne').
      unfold stock_of_accessory. simpl.
      destruct (List.find (fun x => accessory_id x =? id') (accessories db));
        reflexivity.
Qed.

(** *** Handlers that leave the bills alone *)

Lemma stable_ret {A} P (a : A) : stable P (ret a).
Proof. intros db H; exact H. Qed.

Lemma stable_throw {A} P error : stable P (@throw A error).
Proof. intros db H; exact H. Qed.

Lemma stable_gets {A} P (f : Database -> A) : stable P (gets f).
Proof. intros db H; exact H. Qed.

Lemma stable_modify P f :
  (forall db, P db -> P (f db)) -> stable P (modify f).
Proof. intros Hf db H; simpl; auto. Qed.

Lemma stable_bind {A B} P (m : M A) (k : A -> M B) :
  stable P m -> (forall a, stable P (k a)) -> stable P (mbind m k).
Proof.
  intros Hm Hk db H. unfold mbind. specialize (Hm db H).
  destruct (m db) as [a db'|error db']; [apply Hk|]; assumption.
Qed.

Lemma stable_transaction {A} P (body : M A) :
  stable P body -> stable P (transaction body).
Proof.
  intros Hb db H. unfold transaction. specialize (Hb db H).
  destruct (body db); assumption.
Qed.

Lemma stable_for_each {A} P (l : list A) (body : A -> M unit) :
  (forall x, stable P (body x)) -> stable P (for_each l body).
Proof.
  intros Hb. induction l as [|x l IH]; simpl.
  - apply stable_ret.
  - apply stable_bind; auto.
Qed.

Lemma stable_try_catch P (body : M Response) failure db :
  stable P body -> P db -> P (snd (try_catch body failure db)).
Proof.
  intros Hb H. unfold try_catch. specialize (Hb db H).
  destruct (body db); assumption.
Qed.

Lemma stable_param {B} P (request : Request B) key :
  stable P (param request key).
Proof. unfold param. destruct (params request); [apply stable_ret|apply stable_throw]. Qed.

Lemma stable_user_id_of {B} P (request : Request B) :
  stable P (user_id_of request).
Proof. unfold user_id_of. destruct (user request); [apply stable_ret|apply stable_throw]. Qed.

Lemma stable_bind_value P v : stable P (bind_value d1 v).
Proof.
  unfold bind_value. destruct v; [apply stable_ret|].
  destruct d1; [apply stable_throw|apply stable_ret].
Qed.

Lemma stable_quantity_update P operation n updateQuery :
  quantity_update operation n = Some updateQuery -> stable P updateQuery.
Proof.
  intros H. destruct (quantity_update_runs _ _ _ H) as [[_ ->]|[_ [f [-> _]]]];
    [apply stable_throw|apply stable_ret].
Qed.

Create HintDb stable.
#[local] Hint Resolve stable_ret stable_throw stable_gets stable_param
  stable_user_id_of stable_bind_value : stable.

(** One step of a stability proof: follow the shape of the statement. *)
Ltac stable_step :=
  match goal with
  | H : quantity_update _ _ = Some ?u |- stable _ ?u =>
      exact (stable_quantity_update _ _ _ _ H)
  | |- stable _ (match quantity_update ?o ?n with _ => _ end) =>
      destruct (quantity_update o n) eqn:?
  | |- stable _ (mbind _ _) => apply stable_bind; [|intros]
  | |- stable _ (transaction _) => apply stable_transaction
  | |- stable _ (for_each _ _) => apply stable_for_each; intros
  | |- stable _ (modify _) =>
      let H := fresh in apply stable_modify; intros ? H; exact H
  | |- stable _ (let _ := _ in _) => cbv zeta
  | |- stable _ (if ?b then _ else _) => destruct b
  | |- stable _ (match ?x with _ => _ end) => destruct x
  | |- stable _ (fun _ => _) => let H := fresh in intros ? H; exact H
  | |- _ => solve [auto with stable]
  end.

Section BillsUntouched.

Variable bs : list Bill.

Lemma stable_first_accessory k : stable (bills_are bs) (first_accessory d1 k).
Proof. unfold first_accessory. repeat stable_step. Qed.

Lemma stable_first_part k : stable (bills_are bs) (first_part d1 k).
Proof. unfold first_part. repeat stable_step. Qed.

Lemma stable_first_repair k : stable (bills_are bs) (first_repair d1 k).
Proof. unfold first_repair. repeat stable_step. Qed.

Lemma stable_update_accessory_quantity f k :
  stable (bills_are bs) (update_accessory_quantity d1 f k).
Proof. unfold update_accessory_quantity. repeat stable_step. Qed.

Lemma stable_update_part_quantity f k :
  stable (bills_are bs) (update_part_quantity d1 f k).
Proof. unfold update_part_quantity. repeat stable_step. Qed.

Lemma stable_insert_accessory_sale a q u t by_ :
  stable (bills_are bs) (insert_accessory_sale d1 a q u t by_).
Proof. unfold insert_accessory_sale. repeat stable_step. Qed.

Lemma stable_insert_repair_part now r p q mode u t :
  stable (bills_are bs) (insert_repair_part d1 now r p q mode u t).
Proof. unfold insert_repair_part. repeat stable_step. Qed.

Lemma stable_latest_repair_part r p : stable (bills_are bs) (latest_repair_part d1 r p).
Proof. unfold latest_repair_part. repeat stable_step. Qed.

Lemma stable_delete_repair_part r p id : stable (bills_are bs) (delete_repair_part d1 r p id).
Proof. unfold delete_repair_part. repeat stable_step. Qed.

#[local] Hint Resolve stable_first_accessory stable_first_part stable_first_repair
  stable_update_accessory_quantity stable_update_part_quantity
  stable_insert_accessory_sale stable_insert_repair_part
  stable_latest_repair_part stable_delete_repair_part : stable.

Lemma adjustAccessoryQuantity_bills request db :
  bills_are bs db -> bills_are bs (snd (adjustAccessoryQuantity d1 request db)).
Proof. apply stable_try_catch. repeat stable_step. Qed.

Lemma adjustPartQuantity_bills request db :
  bills_are bs db -> bills_are bs (snd (adjustPartQuantity d1 request db)).
Proof. apply stable_try_catch. repeat stable_step. Qed.

Lemma sellAccessory_bills request db :
  bills_are bs db -> bills_are bs (snd (sellAccessory d1 request db)).
Proof. apply stable_try_catch. repeat stable_step. Qed.

Lemma addPart_bills now request db :
  bills_are bs db -> bills_are bs (snd (addPart d1 now request db)).
Proof. apply stable_try_catch. repeat stable_step. Qed.

Lemma removePart_bills request db :
  bills_are bs db -> bills_are bs (snd (removePart d1 request db)).
Proof. apply stable_try_catch. repeat stable_step. Qed.

Lemma deleteRepair_bills request db :
  bills_are bs db -> bills_are bs (snd (deleteRepair d1 request db)).
Proof. apply stable_try_catch. repeat stable_step. Qed.

End BillsUntouched.

(** *** Generating a bill from a repair *)

(** Closes a case in which the handler answered with an error and wrote
    nothing. *)
Ltac refused := solve [left; split; [reflexivity | simpl; discriminate]].

Lemma find_unbound {A} (f : A -> Z) (g : A -> bool) l :
  List.find (fun x => sql_eq (f x) None && g x) l = None.
Proof. induction l; simpl; auto. Qed.

Lemma find_unbound_key {A} (f : A -> Z) l :
  List.find (fun x => sql_eq (f x) None) l = None.
Proof. induction l; simpl; auto. Qed.

Lemma for_each_insert_bill_items billId usages db :
  for_each usages (fun part =>
    insert_bill_item billId "part" (rp_part_id part) (rp_quantity_used part)
      (rp_unit_price part) (rp_total_price part) (Some (rp_pricing_mode part))) db
  = Normal tt (add_bill_items
                 (items_of_usages billId (seq_bill_items db) usages) db).
Proof.
  revert db. induction usages as [|u us IH]; intros db; simpl; [reflexivity|].
  unfold mbind. simpl. rewrite IH. reflexivity.
Qed.

Lemma add_bill_items_bills its db : bills (add_bill_items its db) = bills db.
Proof.
  revert db. induction its as [|i its IH]; intros db; simpl; [reflexivity|].
  unfold add_bill_items in IH. rewrite IH. reflexivity.
Qed.

Lemma add_bill_items_bill_items its db :
  bill_items (add_bill_items its db) = bill_items db ++ its.
Proof.
  revert db. induction its as [|i its IH]; intros db; simpl.
  - symmetry. apply app_nil_r.
  - unfold add_bill_items in IH. rewrite IH. simpl.
    rewrite <- app_assoc. reflexivity.
Qed.

(** What the handler does: it refuses and writes nothing, or it writes one
    bill for repair [id] and one item per billable usage. *)
Lemma generateBillFromRepair_outcome billNumber request db :
  (snd (generateBillFromRepair d1 billNumber request db) = db /\
   status (fst (generateBillFromRepair d1 billNumber request db)) <> 200)
  \/
  exists m id repair u,
    params request = Some m /\ m !! "id" = Some id /\
    billable_repair db id = Some repair /\
    repair_status repair = "completed" /\
    List.find (bill_of_repair (Some id)) (bills db) = None /\
    billable_usages db id <> [] /\
    user request = Some u /\
    let subtotal := fold_left (fun sum part => (sum + rp_total_price part)%Q)
                      (billable_usages db id) 0%Q in
    let tax_rate := default 0%Q (bb_tax_rate (json request)) in
    let b := {| bill_id := seq_bills db + 1; bill_repair_id := Some id;
                bill_customer_id := repair_customer_id repair;
                bill_number := billNumber; bill_subtotal := subtotal;
                bill_tax_amount := tax_of subtotal tax_rate;
                bill_total_amount := (subtotal + tax_of subtotal tax_rate)%Q;
                bill_payment_status := "pending";
                bill_payment_method :=
                  or_null (bb_payment_method (json request));
                bill_created_by := user_id u |} in
    generateBillFromRepair d1 billNumber request db
    = (createSuccess "Bill generated successfully",
       add_bill_items
         (items_of_usages (seq_bills db + 1) (seq_bill_items db)
            (billable_usages db id))
         (add_bill b db)).
Proof.
  unfold billable_repair, billable_usages.
  unfold generateBillFromRepair, try_catch, param, mbind, ret.
  destruct (params request) as [m|] eqn:Hp; [|refused].
  destruct (m !! "id") as [id|] eqn:Hid.
  2:{ unfold first_repair_with_customer, mbind, bind_value, gets, ret, throw.
      destruct d1; [refused|]. rewrite find_unbound. refused. }
  unfold first_repair_with_customer, first_bill_of_repair, repair_parts_of,
    mbind, bind_value, gets, ret. cbn beta iota delta [sql_eq].
  destruct (List.find _ (repairs db)) as [repair|] eqn:Hr; [|refused].
  destruct (String.eqb (repair_status repair) "completed") eqn:Hst;
    [|refused]. cbn beta iota delta [negb].
  destruct (List.find (bill_of_repair (Some id)) (bills db)) eqn:Hb;
    [refused|].
  destruct (List.filter _ (repair_parts db)) as [|u0 us] eqn:Hus; [refused|].
  cbn [length Nat.eqb].
  unfold transaction, user_id_of, mbind, insert_bill, ret.
  destruct (user request) as [u|] eqn:Hu; [|refused].
  destruct (existsb _ (bills db)) eqn:Hfresh; [refused|].
  rewrite for_each_insert_bill_items. right.
  exists m, id, repair, u. rewrite Hus.
  repeat (split; [first [reflexivity | assumption | discriminate
                        | apply String.eqb_eq; assumption]|]).
  reflexivity.
Qed.

(** *** Billing an accessory cart *)

Lemma verify_cart_outcome items db :
  exists r, verify_cart d1 items db = Normal r db /\
    match r with
    | None => forallb (cart_line_in_stock db) items = true
    | Some response =>
        status response = 400 /\
        forallb (cart_line_in_stock db) items = false
    end.
Proof.
  induction items as [|item rest IH]; simpl.
  - exists None. split; reflexivity.
  - unfold first_accessory, mbind, bind_value, gets, ret.
    cbn beta iota delta [sql_eq]. unfold cart_line_in_stock at 1 3.
    destruct (List.find _ (accessories db)) as [a|] eqn:Hf.
    + destruct (accessory_quantity a <? ci_quantity item) eqn:Hlt.
      * eexists. split; [reflexivity|]. split; reflexivity.
      * destruct IH as [r [Hr Hok]]. exists r. split; [exact Hr|].
        simpl. exact Hok.
    + eexists. split; [reflexivity|]. split; reflexivity.
Qed.

Lemma cart_subtotal_outcome items s db :
  cart_subtotal d1 items s db = Thrown (cannot_read "null" "price") db \/
  exists s', cart_subtotal d1 items s db = Normal s' db.
Proof.
  revert s. induction items as [|item rest IH]; intros s; simpl.
  - right. eexists. reflexivity.
  - unfold first_accessory, mbind, bind_value, gets, ret.
    cbn beta iota delta [sql_eq].
    destruct (List.find _ (accessories db)) as [a|]; [apply IH|].
    left. reflexivity.
Qed.

Lemma price_after_accessory_update f k id db :
  price_of (with_accessories (set_accessory_quantity f (Some k)) db) id
  = price_of db id.
Proof.
  unfold price_of; simpl. rewrite find_set_accessory_quantity.
  destruct (List.find _ (accessories db)) as [a|]; simpl; [|reflexivity].
  destruct (accessory_id a =? k); reflexivity.
Qed.

(** The third loop writes, for each line, an item of the bill priced as the
    second loop priced the line. *)
Lemma bill_cart_lines billId sold_by items :
  forall dbL db s s' dbL',
    (forall id, price_of dbL id = price_of db id) ->
    cart_subtotal d1 items s db = Normal s' db ->
    for_each items (bill_cart_line d1 billId sold_by) dbL = Normal tt dbL' ->
    bills dbL' = bills dbL /\
    exists its,
      bill_items dbL' = bill_items dbL ++ its /\
      Forall (fun i => bi_bill_id i = billId) its /\
      (s' == s + sum_total_price its)%Q.
Proof.
  induction items as [|item rest IH]; intros dbL db s s' dbL' Hprice Hsub Hloop.
  - simpl in *. injection Hsub as <-. injection Hloop as <-.
    split; [reflexivity|]. exists []. rewrite app_nil_r.
    split; [reflexivity|]. split; [constructor|]. simpl. ring.
  - simpl in Hsub, Hloop.
    unfold first_accessory, mbind, bind_value, gets, ret in Hsub.
    cbn beta iota delta [sql_eq] in Hsub.
    pose proof (Hprice (ci_accessory_id item)) as Hp. unfold price_of in Hp.
    destruct (List.find _ (accessories db)) as [a|] eqn:Hf; [|discriminate].
    unfold mbind at 1, bill_cart_line at 1 in Hloop.
    unfold first_accessory, mbind, bind_value, gets, ret in Hloop.
    cbn beta iota delta [sql_eq] in Hloop.
    destruct (List.find (fun a0 => accessory_id a0 =? ci_accessory_id item)
                (accessories dbL)) as [a'|] eqn:Hf'; [|discriminate].
    simpl in Hp. injection Hp as Hp.
    unfold insert_bill_item, update_accessory_quantity, insert_accessory_sale,
      mbind, bind_value, modify, ret in Hloop.
    cbn beta iota in Hloop.
    match type of Hloop with
    | for_each rest _ ?d = _ =>
        assert (Hpr : forall id, price_of d id = price_of db id);
          [| destruct (IH d db _ s' dbL' Hpr Hsub Hloop)
               as [Hb [its [Hi [Hall Hsum]]]]]
    end.
    + intros id.
      transitivity (price_of (with_accessories
                      (set_accessory_quantity (fun q => q - ci_quantity item)
                         (Some (ci_accessory_id item))) dbL) id);
        [reflexivity|].
      rewrite price_after_accessory_update. apply Hprice.
    + split; [rewrite Hb; reflexivity|].
      eexists (_ :: its). simpl in Hi.
      split; [rewrite Hi, <- app_assoc; reflexivity|].
      split; [constructor; [reflexivity|exact Hall]|].
      simpl. rewrite Hsum, Hp. ring.
Qed.

(** What the handler does: it refuses and writes nothing, or it writes one
    bill without a repair and the items of its lines. *)
Lemma generateAccessoryBill_outcome billNumber request db :
  (snd (generateAccessoryBill d1 billNumber request db) = db /\
   status (fst (generateAccessoryBill d1 billNumber request db)) <> 200)
  \/
  exists items cid u subtotal its,
    cb_items (json request) = Some items /\
    cb_customer_id (json request) = Some cid /\
    forallb (cart_line_in_stock db) items = true /\
    user request = Some u /\
    fst (generateAccessoryBill d1 billNumber request db)
      = createSuccess "Accessory bill created successfully" /\
    let tax_rate := default 0%Q (cb_tax_rate (json request)) in
    let b := {| bill_id := seq_bills db + 1; bill_repair_id := None;
                bill_customer_id := cid;
                bill_number := billNumber; bill_subtotal := subtotal;
                bill_tax_amount := tax_of subtotal tax_rate;
                bill_total_amount := (subtotal + tax_of subtotal tax_rate)%Q;
                bill_payment_status := "pending";
                bill_payment_method :=
                  or_null (cb_payment_method (json request));
                bill_created_by := user_id u |} in
    bills (snd (generateAccessoryBill d1 billNumber request db))
      = bills db ++ [b] /\
    bill_items (snd (generateAccessoryBill d1 billNumber request db))
      = bill_items db ++ its /\
    Forall (fun i => bi_bill_id i = seq_bills db + 1) its /\
    (subtotal == sum_total_price its)%Q.
Proof.
  remember (generateAccessoryBill d1 billNumber request db) as out eqn:E.
  unfold generateAccessoryBill, try_catch in E.
  destruct (cb_items (json request)) as [items|] eqn:Hitems;
    [|subst out; refused].
  cbv zeta in E.
  destruct (cb_customer_id (json request)) as [cid|] eqn:Hcid;
    [|subst out; refused].
  destruct (negb (truthyZ (Some cid)) || (length items =? 0)%nat);
    [subst out; refused|].
  unfold mbind at 1, first_customer, mbind at 1, bind_value, gets, ret in E.
  destruct (List.find _ (customers db)); [|subst out; refused].
  unfold mbind at 1 in E.
  destruct (verify_cart_outcome items db) as [r [Hv Hok]]. rewrite Hv in E.
  destruct r as [response|].
  { subst out. left. split; [reflexivity|]. simpl.
    destruct Hok as [-> _]. discriminate. }
  unfold mbind at 1 in E.
  destruct (cart_subtotal_outcome items 0%Q db) as [Ht|[subtotal Hs]].
  { rewrite Ht in E. subst out; refused. }
  rewrite Hs in E. unfold transaction, user_id_of, mbind at 1 in E.
  destruct (user request) as [u|] eqn:Hu; [|subst out; refused].
  unfold ret at 1, mbind at 1, insert_bill in E.
  destruct (existsb _ (bills db)) eqn:Hfresh; [subst out; refused|].
  unfold mbind at 1 in E.
  match type of E with
  | context [for_each items ?body ?d] =>
      destruct (for_each items body d) as [[] dbL'|dbL'] eqn:Hloop
  end; [|subst out; refused].
  subst out. right. exists items, cid, u, subtotal.
  pose proof (fun Hpr => bill_cart_lines _ _ _ _ db 0%Q subtotal dbL'
                          Hpr Hs Hloop) as Hlines.
  destruct Hlines as [Hb [its [Hi [Hall Hsum]]]]; [intros id; reflexivity|].
  exists its. simpl in Hb, Hi. simpl.
  repeat (split; [first [reflexivity | assumption]|]).
  rewrite Hsum. ring.
Qed.

(** *** At most one bill per repair *)

Lemma find_none_filter {A} (p : A -> bool) l :
  List.find p l = None -> List.filter p l = [].
Proof.
  induction l as [|x l IH]; simpl; [reflexivity|].
  destruct (p x); [discriminate|exact IH].
Qed.

Lemma generateBillFromRepair_one_bill billNumber request db :
  one_bill_per_repair db ->
  one_bill_per_repair (snd (generateBillFromRepair d1 billNumber request db)).
Proof.
  intros Hone.
  destruct (generateBillFromRepair_outcome billNumber request db)
    as [[-> _]|(m & id & repair & u & _ & _ & _ & _ & Hnone & _ & _ & ->)];
    [exact Hone|].
  intros id'. unfold bills_for. simpl. rewrite add_bill_items_bills. simpl.
  rewrite List.filter_app, length_app. simpl.
  unfold bill_of_repair at 2. simpl.
  destruct (id =? id') eqn:Hid; simpl.
  - apply Z.eqb_eq in Hid. subst id'.
    rewrite (find_none_filter _ _ Hnone). simpl. lia.
  - specialize (Hone id'). unfold bills_for in Hone. lia.
Qed.

Lemma generateAccessoryBill_one_bill billNumber request db :
  one_bill_per_repair db ->
  one_bill_per_repair (snd (generateAccessoryBill d1 billNumber request db)).
Proof.
  intros Hone.
  destruct (generateAccessoryBill_outcome billNumber request db)
    as [[-> _]|(items & cid & u & subtotal & its & _ & _ & _ & _ & _ & Hb & _)];
    [exact Hone|].
  intros id'. unfold bills_for. simpl in Hb. rewrite Hb.
  rewrite List.filter_app, length_app. simpl.
  specialize (Hone id'). unfold bills_for in Hone. lia.
Qed.

Lemma perform_one_bill op db :
  one_bill_per_repair db -> one_bill_per_repair (snd (perform d1 op db)).
Proof.
  intros Hone. destruct op; simpl.
  - intros id. unfold bills_for.
    rewrite (adjustAccessoryQuantity_bills (bills db) request db eq_refl). apply Hone.
  - intros id. unfold bills_for.
    rewrite (adjustPartQuantity_bills (bills db) request db eq_refl). apply Hone.
  - intros id. unfold bills_for.
    rewrite (sellAccessory_bills (bills db) request db eq_refl). apply Hone.
  - intros id. unfold bills_for.
    rewrite (addPart_bills (bills db) now request db eq_refl). apply Hone.
  - intros id. unfold bills_for.
    rewrite (removePart_bills (bills db) request db eq_refl). apply Hone.
  - intros id. unfold bills_for.
    rewrite (deleteRepair_bills (bills db) request db eq_refl). apply Hone.
  - apply generateBillFromRepair_one_bill, Hone.
  - apply generateAccessoryBill_one_bill, Hone.
Qed.

Lemma run_one_bill ops db :
  one_bill_per_repair db -> one_bill_per_repair (run d1 ops db).
Proof.
  revert db. induction ops as [|op ops IH]; intros db Hone; simpl; [exact Hone|].
  apply IH, perform_one_bill, Hone.
Qed.

(** C3. When a repair already has a bill, a further request to bill it
    writes nothing and is answered with an error, which is "Bill already
    exists for this repair" when the repair is on record as completed (as it
    was when it was billed; a repair set back to another status is told that
    first); and whatever requests are served, in whatever order, a database
    in which no repair has two bills stays so. *)
Theorem second_bill_is_refused
    (billNumber : string) (request : Request BillBody) (db : Database)
    (m : gmap string Z) (id : Z) (b : Bill) :
  params request = Some m -> m !! "id" = Some id ->
  In b (bills db) -> bill_repair_id b = Some id ->
  snd (generateBillFromRepair d1 billNumber request db) = db /\
  status (fst (generateBillFromRepair d1 billNumber request db)) <> 200 /\
  (forall repair,
     billable_repair db id = Some repair ->
     repair_status repair = "completed" ->
     fst (generateBillFromRepair d1 billNumber request db)
       = createError "Bill already exists for this repair" 400) /\
  (forall ops, one_bill_per_repair db -> one_bill_per_repair (run d1 ops db)).
Proof.
  intros Hp Hid Hin Hb.
  assert (Hfound : List.find (bill_of_repair (Some id)) (bills db) <> None).
  { intros Hfind. apply (find_none _ _ Hfind) in Hin.
    unfold bill_of_repair in Hin. rewrite Hb in Hin. simpl in Hin.
    rewrite Z.eqb_refl in Hin. discriminate. }
  assert (Hrefused :
            snd (generateBillFromRepair d1 billNumber request db) = db /\
            status (fst (generateBillFromRepair d1 billNumber request db)) <> 200).
  { destruct (generateBillFromRepair_outcome billNumber request db)
      as [H|(m' & id' & repair & u & Hp' & Hid' & _ & _ & Hnone & _)];
      [exact H|].
    rewrite Hp in Hp'. injection Hp' as <-.
    rewrite Hid in Hid'. injection Hid' as <-. contradiction. }
  destruct Hrefused as [Hdb Hstatus].
  split; [exact Hdb|]. split; [exact Hstatus|].
  split; [|intros ops; apply run_one_bill].
  intros repair Hr Hst.
  unfold generateBillFromRepair, try_catch, param, mbind, ret.
  rewrite Hp, Hid.
  unfold first_repair_with_customer, first_bill_of_repair,
    mbind, bind_value, gets, ret. cbn beta iota delta [sql_eq].
  unfold billable_repair in Hr. rewrite Hr, Hst, String.eqb_refl.
  cbn beta iota delta [negb].
  destruct (List.find (bill_of_repair (Some id)) (bills db));
    [reflexivity|contradiction].
Qed.

(** C5. A cart with a line whose accessory is missing or short of stock is
    refused as a whole: the request is answered with an error and the
    database is what it was, so no bill, bill item or sale is written and no
    quantity moves. *)
Theorem cart_is_checked_before_any_write
    (billNumber : string) (request : Request CartBody) (db : Database)
    (items : list CartItem) (item : CartItem) :
  cb_items (json request) = Some items ->
  In item items -> cart_line_in_stock db item = false ->
  snd (generateAccessoryBill d1 billNumber request db) = db /\
  status (fst (generateAccessoryBill d1 billNumber request db)) <> 200.
Proof.
  intros Hitems Hin Hshort.
  destruct (generateAccessoryBill_outcome billNumber request db)
    as [H|(items' & cid & u & subtotal & its & Hi & _ & Hall & _)];
    [exact H|].
  rewrite Hitems in Hi. injection Hi as <-.
  rewrite forallb_forall in Hall. specialize (Hall item Hin). congruence.
Qed.

(** C9. Billing a completed repair that has no recorded usage writes
    nothing and is answered with an error, which is "No parts found for this
    repair" when the repair has no bill yet (a repair that has one is told
    so first). *)
Theorem empty_repair_is_not_billed
    (billNumber : string) (request : Request BillBody) (db : Database)
    (m : gmap string Z) (id : Z) (repair : Repair) :
  params request = Some m -> m !! "id" = Some id ->
  billable_repair db id = Some repair ->
  repair_status repair = "completed" ->
  (forall u, In u (repair_parts db) -> rp_repair_id u <> id) ->
  snd (generateBillFromRepair d1 billNumber request db) = db /\
  status (fst (generateBillFromRepair d1 billNumber request db)) = 400 /\
  ((forall b, In b (bills db) -> bill_repair_id b <> Some id) ->
   fst (generateBillFromRepair d1 billNumber request db)
     = createError "No parts found for this repair" 400).
Proof.
  intros Hp Hid Hr Hst Hnone.
  assert (Hus : List.filter
                  (fun u => (rp_repair_id u =? id)
                            && existsb (fun p => part_id p =? rp_part_id u) (parts db))
                  (repair_parts db) = []).
  { induction (repair_parts db) as [|u l IH]; simpl; [reflexivity|].
    destruct (rp_repair_id u =? id) eqn:E.
    - apply Z.eqb_eq in E. exfalso. apply (Hnone u); [left; reflexivity|exact E].
    - simpl. apply IH. intros u' Hu'. apply Hnone. right. exact Hu'. }
  unfold generateBillFromRepair, try_catch, param, mbind, ret.
  rewrite Hp, Hid.
  unfold first_repair_with_customer, first_bill_of_repair, repair_parts_of,
    mbind, bind_value, gets, ret. cbn beta iota delta [sql_eq].
  unfold billable_repair in Hr. rewrite Hr, Hst, String.eqb_refl.
  cbn beta iota delta [negb].
  destruct (List.find (bill_of_repair (Some id)) (bills db)) as [b|] eqn:Hfind.
  - split; [reflexivity|]. split; [reflexivity|].
    intros Hnb. exfalso. apply find_some in Hfind as [Hin Hb].
    unfold bill_of_repair in Hb.
    destruct (bill_repair_id b) as [r|] eqn:Hrb; [|discriminate].
    simpl in Hb. apply Z.eqb_eq in Hb. subst r. exact (Hnb b Hin Hrb).
  - rewrite Hus. simpl. repeat split; reflexivity.
Qed.

(** *** Adding a part to a repair and removing it again *)

(** What [addPart] does: it refuses and writes nothing, or it appends one
    usage row priced from the part as it is on record, and debits the part. *)
Lemma addPart_outcome now (request : Request AddPartBody) db :
  (snd (addPart d1 now request db) = db /\
   status (fst (addPart d1 now request db)) <> 200)
  \/
  exists m id pid n mode part,
    params request = Some m /\ m !! "id" = Some id /\
    ap_part_id (json request) = Some pid /\
    ap_quantity_used (json request) = Some n /\ n <> 0 /\
    ap_pricing_mode (json request) = Some mode /\
    (mode = "repair" \/ mode = "seal") /\
    List.find (fun p => part_id p =? pid) (parts db) = Some part /\
    n <= part_quantity part /\
    let unitPrice := if String.eqb mode "repair"
                     then part_repair_price part
                     else part_sealing_price part in
    let row := {| rp_id := seq_repair_parts db + 1; rp_repair_id := id;
                  rp_part_id := pid; rp_quantity_used := n;
                  rp_pricing_mode := mode; rp_unit_price := unitPrice;
                  rp_total_price := (inject_Z n * unitPrice)%Q;
                  rp_created_at := now |} in
    addPart d1 now request db
    = (createSuccess "Part added to repair successfully",
       with_parts (set_part_quantity (fun q => q - n) (Some pid))
         (with_repair_parts (fun l => l ++ [row])
            (fun _ => seq_repair_parts db + 1) db)).
Proof.
  remember (addPart d1 now request db) as out eqn:E.
  unfold addPart, try_catch, param, mbind at 1, ret in E.
  destruct (params request) as [m|] eqn:Hp; [|subst out; refused].
  cbv zeta in E.
  destruct (ap_part_id (json request)) as [pid|] eqn:Hpid;
    [|subst out; refused].
  destruct (ap_quantity_used (json request)) as [n|] eqn:Hn;
    [|subst out; destruct (negb (truthyZ (Some pid))); refused].
  destruct (ap_pricing_mode (json request)) as [mode|] eqn:Hmode.
  2:{ subst out. destruct (negb (truthyZ (Some pid)) || negb (truthyZ (Some n)));
        refused. }
  destruct (negb (truthyZ (Some pid)) || negb (truthyZ (Some n))
            || negb (truthyS (Some mode))) eqn:Htruthy;
    [subst out; refused|].
  destruct (negb (is_str (Some mode) "repair" || is_str (Some mode) "seal"))
    eqn:Hvalid; [subst out; refused|].
  destruct (m !! "id") as [id|] eqn:Hid.
  2:{ unfold first_repair, mbind, bind_value, gets, ret, throw in E.
      destruct d1; [subst out; refused|].
      rewrite (find_unbound_key repair_id) in E. subst out; refused. }
  unfold first_repair, first_part, mbind, bind_value, gets, ret in E.
  cbn beta iota delta [sql_eq] in E.
  destruct (List.find _ (repairs db)); [|subst out; refused].
  destruct (List.find _ (parts db)) as [part|] eqn:Hpart; [|subst out; refused].
  destruct (part_quantity part <? default 0 (Some n)) eqn:Hstock;
    [subst out; refused|].
  unfold transaction, insert_repair_part, update_part_quantity,
    mbind, bind_value, modify, ret in E.
  cbn beta iota delta [default] in E.
  subst out. right. exists m, id, pid, n, mode, part.
  apply orb_false_iff in Htruthy as [Htruthy _].
  apply orb_false_iff in Htruthy as [_ Hn0].
  apply negb_false_iff in Hn0. simpl in Hn0.
  apply negb_true_iff, Z.eqb_neq in Hn0.
  apply negb_false_iff, orb_true_iff in Hvalid. simpl in Hvalid.
  rewrite !String.eqb_eq in Hvalid. simpl in Hstock. apply Z.ltb_ge in Hstock.
  repeat (split; [first [reflexivity | assumption]|]).
  reflexivity.
Qed.

Lemma removePart_outcome (request : Request unit) db m id pid :
  params request = Some m -> m !! "id" = Some id -> m !! "part_id" = Some pid ->
  removePart d1 request db
  = match most_recent (List.filter (usage_matches (Some id) (Some pid))
                         (repair_parts db)) with
    | None => (createError "Part not found in repair" 404, db)
    | Some u =>
        (createSuccess "Part removed from repair successfully",
         with_parts (set_part_quantity (fun q => q + rp_quantity_used u) (Some pid))
           (with_repair_parts
              (List.filter (fun x => negb (usage_matches (Some id) (Some pid) x
                                           && (rp_id x =? rp_id u))))
              (fun s => s) db))
    end.
Proof.
  intros Hp Hid Hpid.
  unfold removePart, try_catch, param, mbind, ret. rewrite Hp, Hid, Hpid.
  unfold latest_repair_part, mbind, bind_value, gets, ret.
  destruct (most_recent _); reflexivity.
Qed.

Lemma most_recent_from best l u :
  fold_left (fun best r =>
               match best with
               | None => Some r
               | Some b => if rp_created_at b <? rp_created_at r
                           then Some r else Some b
               end) l best = Some u ->
  (best = Some u \/ In u l) /\
  (forall x, best = Some x \/ In x l -> rp_created_at x <= rp_created_at u).
Proof.
  revert best. induction l as [|r l IH]; intros best H; simpl in H.
  - split; [left; exact H|]. intros x [Hx|[]].
    assert (x = u) as -> by congruence. lia.
  - apply IH in H as [Hin Hmax]. split.
    + destruct Hin as [Hin|Hin]; [|right; right; exact Hin].
      destruct best as [b|].
      * destruct (rp_created_at b <? rp_created_at r);
          injection Hin as <-; [right; left; reflexivity|left; reflexivity].
      * injection Hin as <-. right; left; reflexivity.
    + intros x [Hx|[Hx|Hx]].
      * subst best. destruct (rp_created_at x <? rp_created_at r) eqn:E.
        -- apply Z.ltb_lt in E. specialize (Hmax r (or_introl eq_refl)). lia.
        -- apply Hmax. left. reflexivity.
      * subst x. destruct best as [b|].
        -- destruct (rp_created_at b <? rp_created_at r) eqn:E.
           ++ apply Hmax. left. reflexivity.
           ++ apply Z.ltb_ge in E. specialize (Hmax b (or_introl eq_refl)). lia.
        -- apply Hmax. left. reflexivity.
      * apply Hmax. right. exact Hx.
Qed.

Lemma most_recent_is_latest l u :
  most_recent l = Some u ->
  In u l /\ forall x, In x l -> rp_created_at x <= rp_created_at u.
Proof.
  intros H. apply most_recent_from in H as [[H|H] Hmax]; [discriminate|].
  split; [exact H|]. intros x Hx. apply Hmax. right. exact Hx.
Qed.


(** Deleting by the key of a row of a table without duplicate keys removes
    that row and no other. *)
Lemma filter_out_by_id (p : RepairPart -> bool) l u :
  NoDup (map rp_id l) -> In u l -> p u = true ->
  exists l1 l2, l = l1 ++ u :: l2 /\
    List.filter (fun x => negb (p x && (rp_id x =? rp_id u))) l = l1 ++ l2.
Proof.
  induction l as [|y l IH]; intros Hnd Hin Hp; [destruct Hin|].
  simpl in Hnd. apply NoDup_cons in Hnd as [Hy Hnd].
  assert (Hrest : forall l', (forall x, In x l' -> rp_id x <> rp_id u) ->
            List.filter (fun x => negb (p x && (rp_id x =? rp_id u))) l' = l').
  { induction l' as [|z l' IH']; intros Hne; simpl; [reflexivity|].
    replace (rp_id z =? rp_id u) with false
      by (symmetry; apply Z.eqb_neq, Hne; left; reflexivity).
    rewrite andb_false_r. simpl. f_equal. apply IH'.
    intros x Hx. apply Hne. right. exact Hx. }
  destruct Hin as [->|Hin].
  - exists [], l. split; [reflexivity|]. simpl.
    rewrite Hp, Z.eqb_refl. simpl. apply Hrest.
    intros x Hx Heq. apply Hy. rewrite <- Heq.
    apply list_elem_of_In, in_map, Hx.
  - destruct (IH Hnd Hin Hp) as (l1 & l2 & -> & Hf).
    exists (y :: l1), l2. split; [reflexivity|]. simpl.
    replace (rp_id y =? rp_id u) with false.
    + rewrite andb_false_r. simpl. rewrite Hf. reflexivity.
    + symmetry. apply Z.eqb_neq. intros Heq. apply Hy. rewrite Heq.
      apply list_elem_of_In, in_map, in_elt.
Qed.


Lemma filter_keeps_all {A} (p : A -> bool) l :
  (forall x, In x l -> p x = true) -> List.filter p l = l.
Proof.
  induction l as [|x l IH]; intros H; simpl; [reflexivity|].
  rewrite (H x (or_introl eq_refl)). f_equal. apply IH.
  intros y Hy. apply H. right. exact Hy.
Qed.

Lemma filter_drops_all {A} (p : A -> bool) l :
  (forall x, In x l -> p x = false) -> List.filter p l = [].
Proof.
  induction l as [|x l IH]; intros H; simpl; [reflexivity|].
  rewrite (H x (or_introl eq_refl)). apply IH.
  intros y Hy. apply H. right. exact Hy.
Qed.


(** *** Totals of a bill *)

Lemma subtotal_of_usages billId seq usages a :
  (fold_left (fun sum part => sum + rp_total_price part) usages a
   == a + sum_total_price (items_of_usages billId seq usages))%Q.
Proof.
  revert seq a. induction usages as [|u us IH]; intros seq a; simpl.
  - ring.
  - rewrite (IH (seq + 1)). ring.
Qed.

Lemma items_of_usages_bill_id billId seq usages :
  Forall (fun i => bi_bill_id i = billId) (items_of_usages billId seq usages).
Proof.
  revert seq. induction usages as [|u us IH]; intros seq; simpl; constructor;
    [reflexivity|apply IH].
Qed.

(** The items of a bill that has just been numbered are the ones written
    with it. *)
Lemma items_of_new_bill db db' b its :
  (forall i, In i (bill_items db) -> bi_bill_id i <= seq_bills db) ->
  bill_id b = seq_bills db + 1 ->
  bill_items db' = bill_items db ++ its ->
  Forall (fun i => bi_bill_id i = seq_bills db + 1) its ->
  items_of db' b = its.
Proof.
  intros Hwf Hid Hitems Hall. unfold items_of.
  rewrite Hitems, Hid, List.filter_app.
  rewrite filter_drops_all, filter_keeps_all; [reflexivity| |].
  - intros i Hi. rewrite Forall_forall in Hall.
    apply Z.eqb_eq, Hall, list_elem_of_In, Hi.
  - intros i Hi. apply Z.eqb_neq. specialize (Hwf i Hi). lia.
Qed.

(** C4 (as the code has it). For a bill produced by either path, in a
    database whose items refer to bills already numbered: the subtotal is the
    sum of the [total_price] of the bill's items, the tax amount is the
    subtotal times [tax_rate / 100] as computed, with no rounding step, and
    the total is subtotal plus tax. *)
Theorem bill_totals_follow_items (billNumber : string) (db : Database) :
  (forall i, In i (bill_items db) -> bi_bill_id i <= seq_bills db) ->
  (forall request : Request BillBody,
     status (fst (generateBillFromRepair d1 billNumber request db)) = 200 ->
     exists b,
       bills (snd (generateBillFromRepair d1 billNumber request db))
         = bills db ++ [b] /\
       (bill_subtotal b
        == sum_total_price
             (items_of (snd (generateBillFromRepair d1 billNumber request db)) b))%Q /\
       (bill_tax_amount b
        == bill_subtotal b * (default 0 (bb_tax_rate (json request)) / 100))%Q /\
       (bill_total_amount b == bill_subtotal b + bill_tax_amount b)%Q)
  /\
  (forall request : Request CartBody,
     status (fst (generateAccessoryBill d1 billNumber request db)) = 200 ->
     exists b,
       bills (snd (generateAccessoryBill d1 billNumber request db))
         = bills db ++ [b] /\
       (bill_subtotal b
        == sum_total_price
             (items_of (snd (generateAccessoryBill d1 billNumber request db)) b))%Q /\
       (bill_tax_amount b
        == bill_subtotal b * (default 0 (cb_tax_rate (json request)) / 100))%Q /\
       (bill_total_amount b == bill_subtotal b + bill_tax_amount b)%Q).
Proof.
  intros Hwf. split; intros request Hok.
  - destruct (generateBillFromRepair_outcome billNumber request db)
      as [[_ Hno]|(m & id & repair & u & _ & _ & _ & _ & _ & _ & _ & Hout)];
      [contradiction|].
    cbv zeta in Hout. rewrite Hout. cbn [snd].
    eexists. split; [rewrite add_bill_items_bills; reflexivity|].
    split; [|split; reflexivity].
    erewrite items_of_new_bill;
      [| exact Hwf | reflexivity
       | rewrite add_bill_items_bill_items; reflexivity
       | apply items_of_usages_bill_id].
    cbn [bill_subtotal].
    rewrite (subtotal_of_usages (seq_bills db + 1) (seq_bill_items db)).
    apply Qplus_0_l.
  - destruct (generateAccessoryBill_outcome billNumber request db)
      as [[_ Hno]|(items & cid & u & subtotal & its & _ & _ & _ & _ & _
                   & Hb & Hi & Hall & Hsum)];
      [contradiction|].
    cbv zeta in Hb. eexists. split; [exact Hb|].
    split; [|split; reflexivity].
    erewrite items_of_new_bill;
      [| exact Hwf | reflexivity | exact Hi | exact Hall].
    exact Hsum.
Qed.

(** *** The router and the from-repair endpoint *)

(** The route as the bills router registers it answers from
    [requireCashier] alone, and writes nothing. *)
Lemma from_repair_route_writes_nothing {B} (request : Request B) db :
  snd (Router.handle Router.from_repair_route request db) = db.
Proof.
  unfold Router.handle, try_catch_error, Router.findRoute,
    Router.from_repair_route, Router.post, Router.addRoute, Router.new.
  cbn [Router.middleware Router.routes Router.run_handlers app List.find
       Router.route_method Router.route_path Router.route_handlers
       mbind ret fst snd].
  unfold mbind at 1, ret at 1. cbn [fst snd].
  destruct (is_str (Some "POST") (method request) && _);
    [|reflexivity].
  cbn [Router.route_handlers Router.run_handlers].
  unfold mbind, Router.requireCashier, Router.requireRole, ret.
  destruct (user request) as [u|]; [|reflexivity].
  destruct (existsb _ _); reflexivity.
Qed.

(** What the route answers, as the bills router registers it: 404 unless
    method and path match, and then what [requireCashier] answers, or 500
    "No response" when it lets the request pass. *)
Lemma from_repair_route_answers {B} (request : Request B) db :
  Router.handle Router.from_repair_route request db
  = (if String.eqb "POST" (method request)
        && Router.matchPath "/from-repair/:repair_id" (pathname request)
     then match user request with
          | None => createError "Authentication required" 401
          | Some u =>
              if existsb (String.eqb (user_role u)) ["admin"; "cashier"]
              then createError "No response" 500
              else createError "Insufficient permissions" 403
          end
     else not_found request, db).
Proof.
  unfold Router.handle, try_catch_error, Router.findRoute,
    Router.from_repair_route, Router.post, Router.addRoute, Router.new.
  cbn [Router.middleware Router.routes Router.run_handlers app List.find
       Router.route_method Router.route_path Router.route_handlers
       mbind ret fst snd].
  unfold mbind at 1, ret at 1. cbn [fst snd is_str].
  change (String.eqb "/from-repair/:repair_id" "/") with false. cbv iota.
  destruct (String.eqb "POST" (method request) && _); [|reflexivity].
  cbn [Router.route_handlers Router.run_handlers].
  unfold mbind, Router.requireCashier, Router.requireRole, ret.
  destruct (user request) as [u|]; [|reflexivity].
  destruct (existsb _ _); reflexivity.
Qed.

(** C6 (as the code has it). The handler reads [request.params.id]; the
    route declares [:repair_id], not [:id], and the router binds nothing.  So
    for a request whose [params], if bound at all, holds only names the route
    declares, no bill is written: when [params] is unbound the read throws
    and the answer is the 500 "Failed to generate bill"; when it is bound the
    key is undefined and the answer is 404 "Repair not found", or the same
    500 where the driver rejects an undefined value.  Dispatched by the
    bills router, the request does not reach the handler: the route is
    registered with [post(path, requireCashier, handler)], of which [post]
    keeps [requireCashier], and the answer is 404, 401, 403 or 500 "No
    response", the database being what it was. *)
Theorem bill_from_repair_reads_an_unbound_param
    (billNumber : string) (request : Request BillBody) (db : Database) :
  (forall m, params request = Some m ->
     forall k, is_Some (m !! k) ->
       In k (Router.param_names "/from-repair/:repair_id")) ->
  ~ In "id" (Router.param_names "/from-repair/:repair_id") /\
  snd (generateBillFromRepair d1 billNumber request db) = db /\
  (params request = None ->
     fst (generateBillFromRepair d1 billNumber request db)
       = createError "Failed to generate bill" 500) /\
  (is_Some (params request) ->
     fst (generateBillFromRepair d1 billNumber request db)
       = if d1 then createError "Failed to generate bill" 500
         else createError "Repair not found" 404) /\
  Router.handle Router.from_repair_route request db
  = (if String.eqb "POST" (method request)
        && Router.matchPath "/from-repair/:repair_id" (pathname request)
     then match user request with
          | None => createError "Authentication required" 401
          | Some u =>
              if existsb (String.eqb (user_role u)) ["admin"; "cashier"]
              then createError "No response" 500
              else createError "Insufficient permissions" 403
          end
     else not_found request, db).
Proof.
  intros Hbound.
  assert (Hnot : ~ In "id" (Router.param_names "/from-repair/:repair_id")).
  { vm_compute. intros [H|[]]. discriminate H. }
  split; [exact Hnot|].
  assert (Hkey : forall m, params request = Some m -> m !! "id" = None).
  { intros m Hm. destruct (m !! "id") as [v|] eqn:E; [|reflexivity].
    exfalso. apply Hnot, (Hbound m Hm). exists v. exact E. }
  assert (Hout : generateBillFromRepair d1 billNumber request db
                 = match params request with
                   | None => (createError "Failed to generate bill" 500, db)
                   | Some _ =>
                       (if d1 then createError "Failed to generate bill" 500
                        else createError "Repair not found" 404, db)
                   end).
  { unfold generateBillFromRepair, try_catch, param, mbind, ret.
    destruct (params request) as [m|] eqn:Hp; [|reflexivity].
    rewrite (Hkey m eq_refl).
    unfold first_repair_with_customer, mbind, bind_value, gets, ret, throw.
    destruct d1; [reflexivity|]. rewrite find_unbound. reflexivity. }
  split; [rewrite Hout; destruct (params request), d1; reflexivity|].
  split; [intros Hn; rewrite Hout, Hn; reflexivity|].
  split; [intros [m Hm]; rewrite Hout, Hm; destruct d1; reflexivity|].
  apply from_repair_route_answers.
Qed.

(** *** A usage is priced when it is recorded *)

(** C8. When [addPart] records [n] units of a part under a pricing mode,
    the usage row carries the part's price for that mode as it is on record
    at that moment and [n] times that price as its total, and the part's
    stock goes down by [n].  A bill generated later for the repair, this
    being its only usage, has that total as subtotal, [subtotal * tax_rate /
    100] as tax and their sum as total, whatever the part's prices have
    become in the meantime ([later] is any database with these usages, the
    same bills and the part still on record).  With repair price 50.00,
    sealing price 80.00, stock 10, [n = 2], mode repair and tax rate 8.5
    these are 100.00, 8, 100.00, 8.50 and 108.50. *)
Theorem usage_is_priced_when_recorded
    (now : Z) (billNumber : string)
    (add : Request AddPartBody) (bill : Request BillBody) (db later : Database)
    (ma mb : gmap string Z) (id pid n : Z) (mode : string) (rate : Q)
    (part : Part) :
  params add = Some ma -> ma !! "id" = Some id ->
  ap_part_id (json add) = Some pid ->
  ap_quantity_used (json add) = Some n ->
  ap_pricing_mode (json add) = Some mode ->
  List.find (fun p => part_id p =? pid) (parts db) = Some part ->
  status (fst (addPart d1 now add db)) = 200 ->
  (exists usage,
     repair_parts (snd (addPart d1 now add db)) = repair_parts db ++ [usage] /\
     rp_repair_id usage = id /\ rp_part_id usage = pid /\
     rp_quantity_used usage = n /\ rp_pricing_mode usage = mode /\
     rp_unit_price usage = price_for mode part /\
     rp_total_price usage = (inject_Z n * price_for mode part)%Q) /\
  stock_of_part (snd (addPart d1 now add db)) pid
    = Some (part_quantity part - n) /\
  (params bill = Some mb -> mb !! "id" = Some id ->
   bb_tax_rate (json bill) = Some rate ->
   (forall u, In u (repair_parts db) -> rp_repair_id u <> id) ->
   repair_parts later = repair_parts (snd (addPart d1 now add db)) ->
   bills later = bills db ->
   (exists p, In p (parts later) /\ part_id p = pid) ->
   status (fst (generateBillFromRepair d1 billNumber bill later)) = 200 ->
   exists b,
     bills (snd (generateBillFromRepair d1 billNumber bill later))
       = bills db ++ [b] /\
     (bill_subtotal b == inject_Z n * price_for mode part)%Q /\
     (bill_tax_amount b
      == inject_Z n * price_for mode part * (rate / 100))%Q /\
     (bill_total_amount b
      == inject_Z n * price_for mode part
         + inject_Z n * price_for mode part * (rate / 100))%Q).
Proof.
  intros Hpa Hida Hpid Hn Hmode Hpart Hok.
  destruct (addPart_outcome now add db)
    as [[_ Hno]|(m' & id' & pid' & n' & mode' & part' & Hp' & Hid' & Hpid'
                 & Hn' & _ & Hmode' & _ & Hpart' & _ & Hadd)];
    [contradiction|].
  rewrite Hpa in Hp'. injection Hp' as <-.
  rewrite Hida in Hid'. injection Hid' as <-.
  rewrite Hpid in Hpid'. injection Hpid' as <-.
  rewrite Hn in Hn'. injection Hn' as <-.
  rewrite Hmode in Hmode'. injection Hmode' as <-.
  rewrite Hpart in Hpart'. injection Hpart' as <-.
  cbv zeta in Hadd. fold (price_for mode part) in Hadd.
  match type of Hadd with
  | context [cons ?r nil] => set (row := r) in *
  end.
  rewrite Hadd. cbn [snd].
  split; [exists row; repeat split; reflexivity|].
  split.
  { rewrite (stock_after_part_update (fun q => q - n) pid pid).
    unfold stock_of_part. cbn [parts with_repair_parts].
    rewrite Hpart, Z.eqb_refl. reflexivity. }
  cbn [repair_parts with_parts with_repair_parts].
  intros Hpb Hidb Hrate Hfirst Hrows Hbills (p & Hin & Hp) Hbill.
  destruct (generateBillFromRepair_outcome billNumber bill later)
    as [[_ Hno]|(m' & id' & repair & u & Hp' & Hid' & _ & _ & _ & _ & _ & Hout)];
    [contradiction|].
  rewrite Hpb in Hp'. injection Hp' as <-.
  rewrite Hidb in Hid'. injection Hid' as <-.
  assert (Hus : billable_usages later id = [row]).
  { unfold billable_usages. rewrite Hrows, List.filter_app, filter_drops_all.
    - cbn [List.filter app]. unfold row at 1 2. cbn [rp_repair_id rp_part_id].
      rewrite Z.eqb_refl.
      replace (existsb (fun p0 => part_id p0 =? pid) (parts later)) with true;
        [reflexivity|].
      symmetry. apply existsb_exists. exists p.
      split; [exact Hin|apply Z.eqb_eq, Hp].
    - intros x Hx. apply andb_false_iff. left. apply Z.eqb_neq, Hfirst, Hx. }
  cbv zeta in Hout. rewrite Hus, Hrate in Hout. rewrite Hout. cbn [snd].
  eexists. split; [rewrite add_bill_items_bills; cbn [bills add_bill];
                   rewrite Hbills; reflexivity|].
  unfold tax_of. cbn [bill_subtotal bill_tax_amount bill_total_amount
                      fold_left default].
  replace (rp_total_price row) with (inject_Z n * price_for mode part)%Q
    by reflexivity.
  repeat split; rewrite Qplus_0_l; reflexivity.
Qed.

(** *** Stock below zero *)

(** The debits that are guarded by a sufficiency check keep a stock that is
    not negative so: a sale, whatever the request. *)
Lemma sellAccessory_keeps_stock (request : Request SellBody) db id q' :
  (forall q, stock_of_accessory db id = Some q -> 0 <= q) ->
  stock_of_accessory (snd (sellAccessory d1 request db)) id = Some q' ->
  0 <= q'.
Proof.
  intros Hpos.
  unfold sellAccessory, try_catch, param, mbind at 1, ret at 1.
  destruct (params request) as [m|]; [|apply Hpos].
  cbv zeta.
  destruct (negb (truthyZ (sb_quantity (json request)))
            || negb (truthyQ (sb_unit_price (json request)))
            || (default 0 (sb_quantity (json request)) <=? 0));
    [apply Hpos|].
  set (n := default 0 (sb_quantity (json request))).
  unfold first_accessory, mbind at 1, bind_value.
  destruct (m !! "id") as [k|].
  2:{ destruct d1; [apply Hpos|]. unfold mbind, ret, gets.
      rewrite (find_unbound_key accessory_id). apply Hpos. }
  unfold mbind, ret, gets. cbn beta iota delta [sql_eq].
  destruct (List.find _ (accessories db)) as [a|] eqn:Hf; [|apply Hpos].
  destruct (accessory_quantity a <? n) eqn:Hlt; [apply Hpos|].
  apply Z.ltb_ge in Hlt.
  unfold transaction, user_id_of, insert_accessory_sale,
    update_accessory_quantity, mbind, bind_value, ret, modify.
  destruct (user request) as [u|]; [|apply Hpos].
  cbn [snd]. rewrite (stock_after_accessory_update (fun q => q - n) k id).
  unfold stock_of_accessory in *. cbn [accessories add_accessory_sale].
  destruct (id =? k) eqn:Hid.
  - apply Z.eqb_eq in Hid. subst k. rewrite Hf. simpl.
    intros H. injection H as <-. lia.
  - destruct (List.find (fun x => accessory_id x =? id) (accessories db));
      simpl; [|discriminate].
    intros H. injection H as <-. apply Hpos. reflexivity.
Qed.

(** And the recording of a usage, whatever the request. *)
Lemma addPart_keeps_stock now (request : Request AddPartBody) db id q' :
  (forall q, stock_of_part db id = Some q -> 0 <= q) ->
  stock_of_part (snd (addPart d1 now request db)) id = Some q' ->
  0 <= q'.
Proof.
  intros Hpos.
  destruct (addPart_outcome now request db)
    as [[-> _]|(m & rid & pid & n & mode & part & _ & _ & _ & _ & _ & _ & _
                & Hpart & Hle & Hadd)];
    [apply Hpos|].
  cbv zeta in Hadd. rewrite Hadd. cbn [snd].
  rewrite (stock_after_part_update (fun q => q - n) pid id).
  unfold stock_of_part in *. cbn [parts with_repair_parts].
  destruct (id =? pid) eqn:Hid.
  - apply Z.eqb_eq in Hid. subst pid. rewrite Hpart. simpl.
    intros H. injection H as <-. lia.
  - destruct (List.find (fun x => part_id x =? id) (parts db));
      simpl; [|discriminate].
    intros H. injection H as <-. apply Hpos. reflexivity.
Qed.

(** C1, refuted on the code. Stock falls below zero through ordinary
    requests: an adjustment to a negative quantity with [set], an adjustment
    by a negative amount with [add], and a cart naming the same accessory
    twice, each line within the stock on record (12 and 12 of 20). *)
Theorem stock_can_go_negative :
  stock_of_accessory (snd (adjustAccessoryQuantity d1 (adjustment "set" (-5)) shop)) 1
    = Some (-5) /\
  stock_of_accessory (snd (adjustAccessoryQuantity d1 (adjustment "add" (-25)) shop)) 1
    = Some (-5) /\
  fst (generateAccessoryBill d1 "BILL-1"
         (cart [{| ci_accessory_id := 1; ci_quantity := 12 |};
                {| ci_accessory_id := 1; ci_quantity := 12 |}] 0) shop)
    = createSuccess "Accessory bill created successfully" /\
  stock_of_accessory
    (snd (generateAccessoryBill d1 "BILL-1"
            (cart [{| ci_accessory_id := 1; ci_quantity := 12 |};
                   {| ci_accessory_id := 1; ci_quantity := 12 |}] 0) shop)) 1
    = Some (-4).
Proof. destruct d1; repeat split; reflexivity. Qed.

(** *** A refused request writes nothing *)

Lemma with_accessories_same f db :
  f (accessories db) = accessories db -> with_accessories f db = db.
Proof. intros H. unfold with_accessories. rewrite H. destruct db; reflexivity. Qed.

Lemma with_parts_same f db :
  f (parts db) = parts db -> with_parts f db = db.
Proof. intros H. unfold with_parts. rewrite H. destruct db; reflexivity. Qed.

Lemma with_repairs_same f db :
  f (repairs db) = repairs db -> with_repairs f db = db.
Proof. intros H. unfold with_repairs. rewrite H. destruct db; reflexivity. Qed.

Lemma with_repair_parts_same f db :
  f (repair_parts db) = repair_parts db ->
  with_repair_parts f (fun s => s) db = db.
Proof. intros H. unfold with_repair_parts. rewrite H. destruct db; reflexivity. Qed.


Lemma with_customers_same f db :
  f (customers db) = customers db -> with_customers f db = db.
Proof. intros H. unfold with_customers. rewrite H. destruct db; reflexivity. Qed.

(** An UPDATE whose WHERE clause matches no row leaves the table as it is. *)
Lemma map_unmatched {A} (p : A -> bool) (g : A -> A) l :
  List.find p l = None -> map (fun x => if p x then g x else x) l = l.
Proof.
  induction l as [|x l IH]; simpl; [reflexivity|].
  destruct (p x); [discriminate|]. intros H. rewrite IH by exact H. reflexivity.
Qed.

(** An UPDATE that keeps the key column matches the same rows afterwards. *)
Lemma find_map_matched {A} (p : A -> bool) (g : A -> A) l :
  (forall x, p (g x) = p x) ->
  List.find p (map (fun x => if p x then g x else x) l)
  = (fun x => if p x then g x else x) <$> List.find p l.
Proof.
  intros Hg. induction l as [|x l IH]; simpl; [reflexivity|].
  destruct (p x) eqn:Hx; simpl.
  - rewrite Hg, Hx. reflexivity.
  - rewrite Hx. exact IH.
Qed.

(** The first row that matches, in a table that grew at its end. *)
Lemma find_app_first {A} (p : A -> bool) l1 l2 :
  List.find p (l1 ++ l2)
  = match List.find p l1 with Some x => Some x | None => List.find p l2 end.
Proof.
  induction l1 as [|x l1 IH]; simpl; [reflexivity|].
  destruct (p x); [reflexivity|exact IH].
Qed.

(** What a quantity adjustment does: it refuses and writes nothing, or it
    applies the operation's function to the rows of the item. *)
Lemma adjustAccessoryQuantity_outcome (request : Request QuantityBody) db :
  (snd (adjustAccessoryQuantity d1 request db) = db /\
   status (fst (adjustAccessoryQuantity d1 request db)) <> 200)
  \/
  exists m id n f,
    params request = Some m /\ m !! "id" = Some id /\
    qb_quantity (json request) = Some n /\ n <> 0 /\
    quantity_update (qb_operation (json request)) n = Some (ret f) /\
    adjustAccessoryQuantity d1 request db
    = (createSuccess "Accessory quantity updated successfully",
       with_accessories (set_accessory_quantity f (Some id)) db).
Proof.
  remember (adjustAccessoryQuantity d1 request db) as out eqn:E.
  unfold adjustAccessoryQuantity, try_catch, param, mbind at 1, ret in E.
  destruct (params request) as [m|] eqn:Hp; [|subst out; refused].
  cbv zeta in E.
  destruct (qb_quantity (json request)) as [n|] eqn:Hn; [|subst out; refused].
  destruct (negb (truthyZ (Some n)) || negb (truthyS (qb_operation (json request))))
    eqn:Htruthy; [subst out; refused|].
  change (default 0 (Some n)) with n in E.
  destruct (quantity_update (qb_operation (json request)) n) as [u|] eqn:Hf;
    [|subst out; refused].
  destruct (quantity_update_runs _ _ _ Hf) as [[_ ->]|[_ [f [-> _]]]];
    [subst out; refused|].
  unfold mbind at 1, ret at 1 in E.
  apply orb_false_iff in Htruthy as [Hn0 _].
  apply negb_false_iff in Hn0. simpl in Hn0.
  apply negb_true_iff, Z.eqb_neq in Hn0.
  unfold update_accessory_quantity, first_accessory, mbind, bind_value,
    modify, gets, ret in E.
  destruct (m !! "id") as [id|] eqn:Hid.
  - cbn [accessories with_accessories] in E.
    unfold set_accessory_quantity in E at 1.
    rewrite (find_map_matched (fun a => sql_eq (accessory_id a) (Some id))) in E
      by reflexivity.
    destruct (List.find _ (accessories db)) as [a|] eqn:Hfind.
    + subst out. right. exists m, id, n, f.
      repeat (split; [first [reflexivity | assumption]|]). reflexivity.
    + subst out. left. split; [|simpl; discriminate]. simpl.
      apply with_accessories_same.
      apply (map_unmatched (fun a => sql_eq (accessory_id a) (Some id))), Hfind.
  - destruct d1; [subst out; refused|].
    cbn [accessories with_accessories] in E.
    rewrite (find_unbound_key accessory_id) in E.
    subst out. left. split; [|simpl; discriminate]. simpl.
    apply with_accessories_same.
    apply (map_unmatched (fun a => sql_eq (accessory_id a) None)).
    apply (find_unbound_key accessory_id).
Qed.

Lemma adjustPartQuantity_outcome (request : Request QuantityBody) db :
  (snd (adjustPartQuantity d1 request db) = db /\
   status (fst (adjustPartQuantity d1 request db)) <> 200)
  \/
  exists m id n f,
    params request = Some m /\ m !! "id" = Some id /\
    qb_quantity (json request) = Some n /\ n <> 0 /\
    quantity_update (qb_operation (json request)) n = Some (ret f) /\
    adjustPartQuantity d1 request db
    = (createSuccess "Part quantity updated successfully",
       with_parts (set_part_quantity f (Some id)) db).
Proof.
  remember (adjustPartQuantity d1 request db) as out eqn:E.
  unfold adjustPartQuantity, try_catch, param, mbind at 1, ret in E.
  destruct (params request) as [m|] eqn:Hp; [|subst out; refused].
  cbv zeta in E.
  destruct (qb_quantity (json request)) as [n|] eqn:Hn; [|subst out; refused].
  destruct (negb (truthyZ (Some n)) || negb (truthyS (qb_operation (json request))))
    eqn:Htruthy; [subst out; refused|].
  change (default 0 (Some n)) with n in E.
  destruct (quantity_update (qb_operation (json request)) n) as [u|] eqn:Hf;
    [|subst out; refused].
  destruct (quantity_update_runs _ _ _ Hf) as [[_ ->]|[_ [f [-> _]]]];
    [subst out; refused|].
  unfold mbind at 1, ret at 1 in E.
  apply orb_false_iff in Htruthy as [Hn0 _].
  apply negb_false_iff in Hn0. simpl in Hn0.
  apply negb_true_iff, Z.eqb_neq in Hn0.
  unfold update_part_quantity, first_part, mbind, bind_value,
    modify, gets, ret in E.
  destruct (m !! "id") as [id|] eqn:Hid.
  - cbn [parts with_parts] in E.
    unfold set_part_quantity in E at 1.
    rewrite (find_map_matched (fun a => sql_eq (part_id a) (Some id))) in E
      by reflexivity.
    destruct (List.find _ (parts db)) as [a|] eqn:Hfind.
    + subst out. right. exists m, id, n, f.
      repeat (split; [first [reflexivity | assumption]|]). reflexivity.
    + subst out. left. split; [|simpl; discriminate]. simpl.
      apply with_parts_same.
      apply (map_unmatched (fun a => sql_eq (part_id a) (Some id))), Hfind.
  - destruct d1; [subst out; refused|].
    cbn [parts with_parts] in E.
    rewrite (find_unbound_key part_id) in E.
    subst out. left. split; [|simpl; discriminate]. simpl.
    apply with_parts_same.
    apply (map_unmatched (fun a => sql_eq (part_id a) None)).
    apply (find_unbound_key part_id).
Qed.

(** What a sale does: it refuses and writes nothing, or it appends one sale
    row and debits the accessory. *)
Lemma sellAccessory_outcome (request : Request SellBody) db :
  (snd (sellAccessory d1 request db) = db /\
   status (fst (sellAccessory d1 request db)) <> 200)
  \/
  exists m id n price a u,
    params request = Some m /\ m !! "id" = Some id /\
    sb_quantity (json request) = Some n /\ 0 < n /\
    sb_unit_price (json request) = Some price /\
    List.find (fun a => accessory_id a =? id) (accessories db) = Some a /\
    n <= accessory_quantity a /\ user request = Some u /\
    sellAccessory d1 request db
    = (createSuccess "Accessory sold successfully",
       with_accessories (set_accessory_quantity (fun q => q - n) (Some id))
         (add_accessory_sale
            {| sale_id := seq_accessory_sales db + 1; sale_accessory_id := id;
               sale_quantity_sold := n; sale_unit_price := price;
               sale_total_price := (inject_Z n * price)%Q;
               sale_sold_by := user_id u |} db)).
Proof.
  remember (sellAccessory d1 request db) as out eqn:E.
  unfold sellAccessory, try_catch, param, mbind at 1, ret at 1 in E.
  destruct (params request) as [m|] eqn:Hp; [|subst out; refused].
  cbv zeta in E.
  destruct (sb_quantity (json request)) as [n|] eqn:Hn; [|subst out; refused].
  destruct (sb_unit_price (json request)) as [price|] eqn:Hprice.
  2:{ subst out. destruct (negb (truthyZ (Some n))); refused. }
  change (default 0 (Some n)) with n in E.
  change (default 0%Q (Some price)) with price in E.
  destruct (negb (truthyZ (Some n)) || negb (truthyQ (Some price)) || (n <=? 0))
    eqn:Hguard; [subst out; refused|].
  apply orb_false_iff in Hguard as [_ Hpos]. apply Z.leb_gt in Hpos.
  unfold first_accessory, mbind at 1, bind_value in E.
  destruct (m !! "id") as [id|] eqn:Hid.
  2:{ destruct d1; [subst out; refused|]. unfold mbind, ret, gets in E.
      rewrite (find_unbound_key accessory_id) in E. subst out; refused. }
  unfold mbind at 1 2, ret at 1, gets in E. cbn beta iota delta [sql_eq] in E.
  destruct (List.find _ (accessories db)) as [a|] eqn:Hf; [|subst out; refused].
  destruct (accessory_quantity a <? n) eqn:Hlt; [subst out; refused|].
  apply Z.ltb_ge in Hlt.
  unfold transaction, user_id_of, insert_accessory_sale,
    update_accessory_quantity, mbind, bind_value, ret, modify in E.
  destruct (user request) as [u|] eqn:Hu; [|subst out; refused].
  subst out. right. exists m, id, n, price, a, u.
  repeat (split; [first [reflexivity | assumption]|]). reflexivity.
Qed.

Lemma usage_matches_unbound r p l :
  r = None \/ p = None -> List.filter (usage_matches r p) l = [].
Proof.
  intros H. apply filter_drops_all. intros u _. unfold usage_matches.
  destruct H as [-> | ->]; [reflexivity|]. apply andb_false_r.
Qed.

(** What a removal does, whatever the request: it refuses and writes
    nothing, or it deletes the most recent usage of the repair and part and
    credits the part. *)
Lemma removePart_effect (request : Request unit) db :
  (snd (removePart d1 request db) = db /\
   status (fst (removePart d1 request db)) <> 200)
  \/
  exists m id pid u,
    params request = Some m /\ m !! "id" = Some id /\
    m !! "part_id" = Some pid /\
    most_recent (List.filter (usage_matches (Some id) (Some pid))
                   (repair_parts db)) = Some u /\
    removePart d1 request db
    = (createSuccess "Part removed from repair successfully",
       with_parts (set_part_quantity (fun q => q + rp_quantity_used u) (Some pid))
         (with_repair_parts
            (List.filter (fun x => negb (usage_matches (Some id) (Some pid) x
                                         && (rp_id x =? rp_id u))))
            (fun s => s) db)).
Proof.
  destruct (params request) as [m|] eqn:Hp.
  2:{ left. unfold removePart, try_catch, param, mbind. rewrite Hp.
      split; [reflexivity|simpl; discriminate]. }
  destruct (m !! "id") as [id|] eqn:Hid, (m !! "part_id") as [pid|] eqn:Hpid.
  - rewrite (removePart_outcome request db m id pid Hp Hid Hpid).
    destruct (most_recent _) as [u|] eqn:Hu; [|refused].
    right. exists m, id, pid, u.
    repeat (split; [first [reflexivity | assumption]|]). reflexivity.
  - left. unfold removePart, try_catch, param, mbind, ret. rewrite Hp, Hid, Hpid.
    unfold latest_repair_part, mbind, bind_value, gets, ret, throw.
    destruct d1; [split; [reflexivity|simpl; discriminate]|].
    rewrite usage_matches_unbound by (right; reflexivity).
    split; [reflexivity|simpl; discriminate].
  - left. unfold removePart, try_catch, param, mbind, ret. rewrite Hp, Hid, Hpid.
    unfold latest_repair_part, mbind, bind_value, gets, ret, throw.
    destruct d1; [split; [reflexivity|simpl; discriminate]|].
    rewrite usage_matches_unbound by (left; reflexivity).
    split; [reflexivity|simpl; discriminate].
  - left. unfold removePart, try_catch, param, mbind, ret. rewrite Hp, Hid, Hpid.
    unfold latest_repair_part, mbind, bind_value, gets, ret, throw.
    destruct d1; [split; [reflexivity|simpl; discriminate]|].
    rewrite usage_matches_unbound by (left; reflexivity).
    split; [reflexivity|simpl; discriminate].
Qed.

(** The loop of [deleteRepair] credits every usage and never throws. *)
Lemma for_each_credit us db :
  for_each us (fun part =>
    update_part_quantity d1 (fun q => q + rp_quantity_used part)
      (Some (rp_part_id part))) db
  = Normal tt (credit_parts us db).
Proof.
  revert db. induction us as [|u us IH]; intros db; simpl; [reflexivity|].
  unfold mbind at 1, update_part_quantity, mbind at 1, bind_value, ret, modify.
  rewrite IH. reflexivity.
Qed.

(** What deleting a repair does: it refuses and writes nothing, or, no bill
    referring to the repair, it credits the parts of the repair's usages and
    deletes the usages and the repair. *)
Lemma deleteRepair_outcome (request : Request unit) db :
  (snd (deleteRepair d1 request db) = db /\
   status (fst (deleteRepair d1 request db)) <> 200)
  \/
  exists m,
    params request = Some m /\
    List.filter (bill_of_repair (m !! "id")) (bills db) = [] /\
    deleteRepair d1 request db
    = (createSuccess "Repair deleted successfully",
       with_repairs
         (List.filter (fun r => negb (sql_eq (repair_id r) (m !! "id"))))
         (with_repair_parts
            (List.filter (fun u => negb (sql_eq (rp_repair_id u) (m !! "id"))))
            (fun s => s)
            (credit_parts
               (List.filter (fun u => sql_eq (rp_repair_id u) (m !! "id"))
                  (repair_parts db)) db))).
Proof.
  remember (deleteRepair d1 request db) as out eqn:E.
  unfold deleteRepair, try_catch, param, mbind at 1, ret at 1 in E.
  destruct (params request) as [m|] eqn:Hp; [|subst out; refused].
  assert (Hk : bind_value d1 (m !! "id") db = Thrown D1_TYPE_ERROR db \/
               bind_value d1 (m !! "id") db = Normal (m !! "id") db).
  { unfold bind_value. destruct (m !! "id"); [right; reflexivity|].
    destruct d1; [left|right]; reflexivity. }
  unfold mbind at 1 in E.
  destruct Hk as [Hk|Hk]; rewrite Hk in E; [subst out; refused|].
  unfold mbind at 1, gets at 1 in E.
  fold (bill_of_repair (m !! "id")) in E.
  destruct (List.filter (bill_of_repair (m !! "id")) (bills db)) as [|b bs] eqn:Hb;
    [|subst out; refused].
  change (0 <? Z.of_nat (length (@nil Bill))) with false in E.
  cbn beta iota in E.
  unfold transaction, mbind at 1, gets at 1 in E.
  unfold mbind at 1 in E. rewrite for_each_credit in E.
  unfold mbind, modify, ret in E.
  subst out. right. exists m.
  repeat (split; [first [reflexivity | assumption]|]). reflexivity.
Qed.

(** What a payment update does: it refuses and writes nothing, or it sets
    the payment status and method of the bill. *)
Lemma updatePayment_outcome (request : Request PaymentBody) db :
  (snd (updatePayment d1 request db) = db /\
   status (fst (updatePayment d1 request db)) <> 200)
  \/
  exists m id payment_status b,
    params request = Some m /\ m !! "id" = Some id /\
    pb_payment_status (json request) = Some payment_status /\
    In payment_status ["pending"; "paid"; "partial"] /\
    List.find (fun b => bill_id b =? id) (bills db) = Some b /\
    updatePayment d1 request db
    = (createSuccess "Bill payment status updated successfully",
       with_bills
         (set_payment payment_status
            (or_null (pb_payment_method (json request))) (Some id)) db).
Proof.
  remember (updatePayment d1 request db) as out eqn:E.
  unfold updatePayment, try_catch, param, mbind at 1, ret at 1 in E.
  destruct (params request) as [m|] eqn:Hp; [|subst out; refused].
  cbv zeta in E.
  destruct (pb_payment_status (json request)) as [s|] eqn:Hs;
    [|subst out; refused].
  destruct (negb (truthyS (Some s))); [subst out; refused|].
  destruct (negb (includes ["pending"; "paid"; "partial"] (Some s))) eqn:Hvalid;
    [subst out; refused|].
  apply negb_false_iff in Hvalid. unfold includes in Hvalid.
  apply existsb_exists in Hvalid as (v & Hin & Hv). simpl in Hv.
  apply String.eqb_eq in Hv. subst v.
  unfold first_bill, mbind at 1 2, bind_value in E.
  destruct (m !! "id") as [id|] eqn:Hid.
  2:{ destruct d1; [subst out; refused|]. unfold mbind, ret, gets in E.
      rewrite (find_unbound_key bill_id) in E. subst out; refused. }
  unfold ret at 1, gets, mbind at 1 in E. cbn beta iota delta [sql_eq] in E.
  destruct (List.find _ (bills db)) as [b|] eqn:Hb; [|subst out; refused].
  unfold update_payment, mbind, bind_value, modify, ret in E.
  subst out. right. exists m, id, s, b.
  repeat (split; [first [reflexivity | assumption]|]). reflexivity.
Qed.

(** What deleting a bill does: it refuses and writes nothing, or it deletes
    the items of the bill and the bill. *)
Lemma deleteBill_outcome (request : Request unit) db :
  (snd (deleteBill d1 request db) = db /\
   status (fst (deleteBill d1 request db)) <> 200)
  \/
  exists m id b,
    params request = Some m /\ m !! "id" = Some id /\
    List.find (fun b => bill_id b =? id) (bills db) = Some b /\
    deleteBill d1 request db
    = (createSuccess "Bill deleted successfully",
       with_bills (List.filter (fun b => negb (bill_id b =? id)))
         (with_bill_items (List.filter (fun i => negb (bi_bill_id i =? id))) db)).
Proof.
  remember (deleteBill d1 request db) as out eqn:E.
  unfold deleteBill, try_catch, param, mbind at 1, ret at 1 in E.
  destruct (params request) as [m|] eqn:Hp; [|subst out; refused].
  unfold first_bill, mbind at 1 2, bind_value in E.
  destruct (m !! "id") as [id|] eqn:Hid.
  2:{ destruct d1; [subst out; refused|]. unfold mbind, ret, gets in E.
      rewrite (find_unbound_key bill_id) in E. subst out; refused. }
  unfold ret at 1, gets, mbind at 1 in E. cbn beta iota delta [sql_eq] in E.
  destruct (List.find _ (bills db)) as [b|] eqn:Hb; [|subst out; refused].
  unfold transaction, delete_bill_items, delete_bill, mbind, bind_value,
    modify, ret in E.
  subst out. right. exists m, id, b.
  repeat (split; [first [reflexivity | assumption]|]). reflexivity.
Qed.

(** What a status update does: it refuses and writes nothing, or it sets the
    status of the repair to one of the four values. *)
Lemma updateRepairStatus_outcome (request : Request StatusBody) db :
  (snd (updateRepairStatus d1 request db) = db /\
   status (fst (updateRepairStatus d1 request db)) <> 200)
  \/
  exists m id s r,
    params request = Some m /\ m !! "id" = Some id /\
    stb_status (json request) = Some s /\
    In s ["pending"; "in_progress"; "completed"; "cancelled"] /\
    List.find (fun r => repair_id r =? id) (repairs db) = Some r /\
    updateRepairStatus d1 request db
    = (createSuccess "Repair status updated successfully",
       with_repairs (set_repair_status s (Some id)) db).
Proof.
  remember (updateRepairStatus d1 request db) as out eqn:E.
  unfold updateRepairStatus, try_catch, param, mbind at 1, ret at 1 in E.
  destruct (params request) as [m|] eqn:Hp; [|subst out; refused].
  cbv zeta in E.
  destruct (stb_status (json request)) as [s|] eqn:Hs; [|subst out; refused].
  destruct (negb (truthyS (Some s))); [subst out; refused|].
  destruct (negb (includes ["pending"; "in_progress"; "completed"; "cancelled"]
                    (Some s))) eqn:Hvalid;
    [subst out; refused|].
  apply negb_false_iff in Hvalid. unfold includes in Hvalid.
  apply existsb_exists in Hvalid as (v & Hin & Hv). simpl in Hv.
  apply String.eqb_eq in Hv. subst v.
  unfold first_repair, mbind at 1 2, bind_value in E.
  destruct (m !! "id") as [id|] eqn:Hid.
  2:{ destruct d1; [subst out; refused|]. unfold mbind, ret, gets in E.
      rewrite (find_unbound_key repair_id) in E. subst out; refused. }
  unfold ret at 1, gets, mbind at 1 in E. cbn beta iota delta [sql_eq] in E.
  destruct (List.find _ (repairs db)) as [r|] eqn:Hr; [|subst out; refused].
  unfold update_repair_status, mbind, bind_value, modify, ret in E.
  subst out. right. exists m, id, s, r.
  repeat (split; [first [reflexivity | assumption]|]). reflexivity.
Qed.

(** What PUT /accessories/:id does: it refuses and writes nothing, or it
    overwrites the name, the quantity and the price of the accessory. *)
Lemma updateAccessory_outcome (request : Request AccessoryBody) db :
  (snd (updateAccessory d1 request db) = db /\
   status (fst (updateAccessory d1 request db)) <> 200)
  \/
  exists m id name price a,
    params request = Some m /\ m !! "id" = Some id /\
    acb_name (json request) = Some name /\ name <> "" /\
    acb_price (json request) = Some price /\ ~ (price == 0)%Q /\
    List.find (fun a => accessory_id a =? id) (accessories db) = Some a /\
    updateAccessory d1 request db
    = (createSuccess "Accessory updated successfully",
       with_accessories
         (set_accessory name (or_zero (acb_quantity (json request))) price
            (Some id)) db).
Proof.
  remember (updateAccessory d1 request db) as out eqn:E.
  unfold updateAccessory, try_catch, param, mbind at 1, ret at 1 in E.
  destruct (params request) as [m|] eqn:Hp; [|subst out; refused].
  cbv zeta in E.
  destruct (acb_name (json request)) as [name|] eqn:Hname;
    [|subst out; refused].
  destruct (acb_price (json request)) as [price|] eqn:Hprice.
  2:{ subst out. destruct (negb (truthyS (Some name))); refused. }
  destruct (negb (truthyS (Some name)) || negb (truthyQ (Some price)))
    eqn:Htruthy; [subst out; refused|].
  apply orb_false_iff in Htruthy as [Hn Hq].
  apply negb_false_iff in Hn, Hq. simpl in Hn, Hq.
  apply negb_true_iff in Hn, Hq.
  apply String.eqb_neq in Hn.
  assert (Hq' : ~ (price == 0)%Q).
  { intros H. apply Qeq_bool_iff in H. congruence. }
  change (default "" (Some name)) with name in E.
  change (default 0%Q (Some price)) with price in E.
  unfold first_accessory, mbind, bind_value, modify, gets, ret in E.
  destruct (m !! "id") as [id|] eqn:Hid.
  - cbn [accessories with_accessories] in E.
    unfold set_accessory in E at 1.
    rewrite (find_map_matched (fun a => sql_eq (accessory_id a) (Some id))) in E
      by reflexivity.
    cbn beta iota delta [sql_eq] in E.
    destruct (List.find _ (accessories db)) as [a|] eqn:Hfind.
    + subst out. right. exists m, id, name, price, a.
      repeat (split; [first [reflexivity | assumption]|]). reflexivity.
    + subst out. left. split; [|simpl; discriminate]. simpl.
      apply with_accessories_same.
      apply (map_unmatched (fun a => sql_eq (accessory_id a) (Some id))), Hfind.
  - destruct d1; [subst out; refused|].
    cbn [accessories with_accessories] in E.
    rewrite (find_unbound_key accessory_id) in E.
    subst out. left. split; [|simpl; discriminate]. simpl.
    apply with_accessories_same.
    apply (map_unmatched (fun a => sql_eq (accessory_id a) None)).
    apply (find_unbound_key accessory_id).
Qed.

Lemma bind_value_cases (v : option Z) db :
  bind_value d1 v db = Thrown D1_TYPE_ERROR db \/
  bind_value d1 v db = Normal v db.
Proof.
  unfold bind_value. destruct v; [right; reflexivity|].
  destruct d1; [left|right]; reflexivity.
Qed.

(** What the update of a part does: it refuses and writes nothing, or it
    overwrites quantity and prices on the rows of the part. *)
Lemma updatePart_outcome (request : Request PartBody) db :
  (snd (updatePart d1 request db) = db /\
   status (fst (updatePart d1 request db)) <> 200)
  \/
  exists m id repair_price sealing_price p,
    params request = Some m /\ m !! "id" = Some id /\
    ptb_repair_price (json request) = Some repair_price /\
    ptb_sealing_price (json request) = Some sealing_price /\
    List.find (fun p => part_id p =? id) (parts db) = Some p /\
    updatePart d1 request db
    = (createSuccess "Part updated successfully",
       with_parts
         (set_part (or_zero (ptb_quantity (json request))) repair_price
            sealing_price (Some id)) db).
Proof.
  remember (updatePart d1 request db) as out eqn:E.
  unfold updatePart, try_catch, param, mbind at 1, ret at 1 in E.
  destruct (params request) as [m|] eqn:Hp; [|subst out; refused].
  cbv zeta in E.
  destruct (negb (truthyS (ptb_name (json request)))
            || negb (truthyQ (ptb_repair_price (json request)))
            || negb (truthyQ (ptb_sealing_price (json request))))
    eqn:Htruthy; [subst out; refused|].
  apply orb_false_iff in Htruthy as [Htruthy Hs].
  apply orb_false_iff in Htruthy as [_ Hr].
  destruct (ptb_repair_price (json request)) as [repair_price|];
    [|discriminate Hr].
  destruct (ptb_sealing_price (json request)) as [sealing_price|];
    [|discriminate Hs].
  change (default 0%Q (Some repair_price)) with repair_price in E.
  change (default 0%Q (Some sealing_price)) with sealing_price in E.
  unfold mbind at 1 in E.
  assert (Hbox : check_box d1 (ptb_box_id (json request)) db
                 = Normal None db \/
                 (exists r, check_box d1 (ptb_box_id (json request)) db
                            = Normal (Some r) db /\ status r <> 200) \/
                 check_box d1 (ptb_box_id (json request)) db
                 = Thrown D1_TYPE_ERROR db).
  { unfold check_box. destruct (truthyZ (ptb_box_id (json request)));
      [|left; reflexivity].
    unfold first_box, mbind, gets, ret.
    destruct (bind_value_cases (ptb_box_id (json request)) db) as [Hk|Hk];
      rewrite Hk; [right; right; reflexivity|].
    destruct (List.find _ (storage_boxes db)); [left; reflexivity|].
    right; left. eexists. split; [reflexivity|]. simpl. discriminate. }
  destruct Hbox as [Hbox|[(r & Hbox & Hr')|Hbox]]; rewrite Hbox in E.
  2:{ subst out. left. split; [reflexivity|exact Hr']. }
  2:{ subst out. refused. }
  unfold first_part, mbind, bind_value, modify, gets, ret in E.
  destruct (m !! "id") as [id|] eqn:Hid.
  - cbn [parts with_parts] in E.
    unfold set_part in E at 1.
    rewrite (find_map_matched (fun p => sql_eq (part_id p) (Some id))) in E
      by reflexivity.
    cbn beta iota delta [sql_eq] in E.
    destruct (List.find _ (parts db)) as [p|] eqn:Hfind.
    + subst out. right. exists m, id, repair_price, sealing_price, p.
      repeat (split; [first [reflexivity | assumption]|]). reflexivity.
    + subst out. left. split; [|simpl; discriminate]. simpl.
      apply with_parts_same.
      apply (map_unmatched (fun p => sql_eq (part_id p) (Some id))), Hfind.
  - destruct d1; [subst out; refused|].
    cbn [parts with_parts] in E.
    rewrite (find_unbound_key part_id) in E.
    subst out. left. split; [|simpl; discriminate]. simpl.
    apply with_parts_same.
    apply (map_unmatched (fun p => sql_eq (part_id p) None)).
    apply (find_unbound_key part_id).
Qed.

(** What the three guarded deletions of the catalogue do: each refuses and
    writes nothing, or, no row referring to the key, deletes the rows of
    that key. *)
Lemma deleteAccessory_outcome (request : Request unit) db :
  (snd (deleteAccessory d1 request db) = db /\
   status (fst (deleteAccessory d1 request db)) <> 200)
  \/
  exists m,
    params request = Some m /\
    List.filter (fun s => sql_eq (sale_accessory_id s) (m !! "id"))
      (accessory_sales db) = [] /\
    deleteAccessory d1 request db
    = (createSuccess "Accessory deleted successfully",
       with_accessories
         (List.filter (fun a => negb (sql_eq (accessory_id a) (m !! "id")))) db).
Proof.
  remember (deleteAccessory d1 request db) as out eqn:E.
  unfold deleteAccessory, try_catch, param, mbind at 1, ret at 1 in E.
  destruct (params request) as [m|] eqn:Hp; [|subst out; refused].
  unfold count_where, mbind at 1 2 in E.
  destruct (bind_value_cases (m !! "id") db) as [Hk|Hk];
    [rewrite Hk in E; subst out; refused|].
  rewrite Hk in E. unfold gets in E.
  destruct (List.filter _ (accessory_sales db)) as [|s l] eqn:Hs;
    [|subst out; refused].
  change (0 <? Z.of_nat (length (@nil _))) with false in E.
  cbn beta iota in E.
  unfold mbind at 1 in E. rewrite Hk in E.
  unfold mbind, modify, ret in E.
  subst out. right. exists m.
  repeat (split; [first [reflexivity | assumption]|]). reflexivity.
Qed.

Lemma deletePart_outcome (request : Request unit) db :
  (snd (deletePart d1 request db) = db /\
   status (fst (deletePart d1 request db)) <> 200)
  \/
  exists m,
    params request = Some m /\
    List.filter (fun u => sql_eq (rp_part_id u) (m !! "id"))
      (repair_parts db) = [] /\
    deletePart d1 request db
    = (createSuccess "Part deleted successfully",
       with_parts
         (List.filter (fun p => negb (sql_eq (part_id p) (m !! "id")))) db).
Proof.
  remember (deletePart d1 request db) as out eqn:E.
  unfold deletePart, try_catch, param, mbind at 1, ret at 1 in E.
  destruct (params request) as [m|] eqn:Hp; [|subst out; refused].
  unfold count_where, mbind at 1 2 in E.
  destruct (bind_value_cases (m !! "id") db) as [Hk|Hk];
    [rewrite Hk in E; subst out; refused|].
  rewrite Hk in E. unfold gets in E.
  destruct (List.filter _ (repair_parts db)) as [|s l] eqn:Hs;
    [|subst out; refused].
  change (0 <? Z.of_nat (length (@nil _))) with false in E.
  cbn beta iota in E.
  unfold mbind at 1 in E. rewrite Hk in E.
  unfold mbind, modify, ret in E.
  subst out. right. exists m.
  repeat (split; [first [reflexivity | assumption]|]). reflexivity.
Qed.

Lemma deleteCustomer_outcome (request : Request unit) db :
  (snd (deleteCustomer d1 request db) = db /\
   status (fst (deleteCustomer d1 request db)) <> 200)
  \/
  exists m,
    params request = Some m /\
    List.filter (fun r => sql_eq (repair_customer_id r) (m !! "id"))
      (repairs db) = [] /\
    List.filter (fun b => sql_eq (bill_customer_id b) (m !! "id"))
      (bills db) = [] /\
    deleteCustomer d1 request db
    = (createSuccess "Customer deleted successfully",
       with_customers (List.filter (fun c => negb (sql_eq c (m !! "id")))) db).
Proof.
  remember (deleteCustomer d1 request db) as out eqn:E.
  unfold deleteCustomer, try_catch, param, mbind at 1, ret at 1 in E.
  destruct (params request) as [m|] eqn:Hp; [|subst out; refused].
  unfold count_where, mbind at 1 2 in E.
  destruct (bind_value_cases (m !! "id") db) as [Hk|Hk];
    [rewrite Hk in E; subst out; refused|].
  rewrite Hk in E. unfold gets at 1, mbind at 1 2 in E. rewrite Hk in E.
  unfold gets in E.
  destruct (List.filter _ (repairs db)) as [|s l] eqn:Hs;
    [|subst out; refused].
  destruct (List.filter _ (bills db)) as [|b l] eqn:Hb;
    [|subst out; refused].
  change (0 <? Z.of_nat (length (@nil _))) with false in E.
  cbn [orb] in E.
  unfold mbind at 1 in E. rewrite Hk in E.
  unfold mbind, modify, ret in E.
  subst out. right. exists m.
  repeat (split; [first [reflexivity | assumption]|]). reflexivity.
Qed.

(** X1. All or nothing: whichever of the sixteen writing handlers serves a
    request, an answer other than 200 means that the database is exactly
    what it was before the request. *)
Theorem refused_request_writes_nothing (call : Call) (db : Database) :
  status (fst (serve d1 call db)) <> 200 -> snd (serve d1 call db) = db.
Proof.
  intros Hne.
  destruct call as [[request|request|request|now request|request|request
                    |billNumber request|billNumber request]
                   |request|request|request|request|request|request|request
                   |request];
    cbn [serve perform] in *.
  - destruct (adjustAccessoryQuantity_outcome request db)
      as [[H _]|(m & id & n & f & _ & _ & _ & _ & _ & Hout)]; [exact H|].
    rewrite Hout in Hne. contradiction Hne. reflexivity.
  - destruct (adjustPartQuantity_outcome request db)
      as [[H _]|(m & id & n & f & _ & _ & _ & _ & _ & Hout)]; [exact H|].
    rewrite Hout in Hne. contradiction Hne. reflexivity.
  - destruct (sellAccessory_outcome request db)
      as [[H _]|(m & id & n & price & a & u & _ & _ & _ & _ & _ & _ & _ & _ & Hout)];
      [exact H|].
    rewrite Hout in Hne. contradiction Hne. reflexivity.
  - destruct (addPart_outcome now request db)
      as [[H _]|(m & id & pid & n & mode & part & _ & _ & _ & _ & _ & _ & _
                 & _ & _ & Hout)]; [exact H|].
    cbv zeta in Hout. rewrite Hout in Hne. contradiction Hne. reflexivity.
  - destruct (removePart_effect request db)
      as [[H _]|(m & id & pid & u & _ & _ & _ & _ & Hout)]; [exact H|].
    rewrite Hout in Hne. contradiction Hne. reflexivity.
  - destruct (deleteRepair_outcome request db)
      as [[H _]|(m & _ & _ & Hout)]; [exact H|].
    rewrite Hout in Hne. contradiction Hne. reflexivity.
  - destruct (generateBillFromRepair_outcome billNumber request db)
      as [[H _]|(m & id & repair & u & _ & _ & _ & _ & _ & _ & _ & Hout)];
      [exact H|].
    cbv zeta in Hout. rewrite Hout in Hne. contradiction Hne. reflexivity.
  - destruct (generateAccessoryBill_outcome billNumber request db)
      as [[H _]|(items & cid & u & subtotal & its & _ & _ & _ & _ & Hok & _)];
      [exact H|].
    rewrite Hok in Hne. contradiction Hne. reflexivity.
  - destruct (updatePayment_outcome request db)
      as [[H _]|(m & id & s & b & _ & _ & _ & _ & _ & Hout)]; [exact H|].
    rewrite Hout in Hne. contradiction Hne. reflexivity.
  - destruct (deleteBill_outcome request db)
      as [[H _]|(m & id & b & _ & _ & _ & Hout)]; [exact H|].
    rewrite Hout in Hne. contradiction Hne. reflexivity.
  - destruct (updateRepairStatus_outcome request db)
      as [[H _]|(m & id & s & r & _ & _ & _ & _ & _ & Hout)]; [exact H|].
    rewrite Hout in Hne. contradiction Hne. reflexivity.
  - destruct (updateAccessory_outcome request db)
      as [[H _]|(m & id & name & price & a & _ & _ & _ & _ & _ & _ & _ & Hout)];
      [exact H|].
    rewrite Hout in Hne. contradiction Hne. reflexivity.
  - destruct (deleteAccessory_outcome request db)
      as [[H _]|(m & _ & _ & Hout)]; [exact H|].
    rewrite Hout in Hne. contradiction Hne. reflexivity.
  - destruct (updatePart_outcome request db)
      as [[H _]|(m & id & rp & sp & p & _ & _ & _ & _ & _ & Hout)]; [exact H|].
    rewrite Hout in Hne. contradiction Hne. reflexivity.
  - destruct (deletePart_outcome request db)
      as [[H _]|(m & _ & _ & Hout)]; [exact H|].
    rewrite Hout in Hne. contradiction Hne. reflexivity.
  - destruct (deleteCustomer_outcome request db)
      as [[H _]|(m & _ & _ & _ & Hout)]; [exact H|].
    rewrite Hout in Hne. contradiction Hne. reflexivity.
Qed.

(** *** Deleting a repair *)

Lemma credit_parts_frame us db :
  accessories (credit_parts us db) = accessories db /\
  customers (credit_parts us db) = customers db /\
  repairs (credit_parts us db) = repairs db /\
  repair_parts (credit_parts us db) = repair_parts db /\
  accessory_sales (credit_parts us db) = accessory_sales db /\
  bills (credit_parts us db) = bills db /\
  bill_items (credit_parts us db) = bill_items db /\
  seq_repair_parts (credit_parts us db) = seq_repair_parts db.
Proof.
  revert db. induction us as [|u us IH]; intros db; [repeat split|].
  unfold credit_parts in *. cbn [fold_left].
  destruct (IH (with_parts
                  (set_part_quantity (fun q => q + rp_quantity_used u)
                     (Some (rp_part_id u))) db))
    as (H1 & H2 & H3 & H4 & H5 & H6 & H7 & H8).
  rewrite H1, H2, H3, H4, H5, H6, H7, H8. repeat split.
Qed.

Lemma stock_after_credit us db pid :
  stock_of_part (credit_parts us db) pid
  = (fun q => q + sum_quantity_used
                    (List.filter (fun u => rp_part_id u =? pid) us))
    <$> stock_of_part db pid.
Proof.
  revert db. induction us as [|u us IH]; intros db.
  - simpl. destruct (stock_of_part db pid); simpl; [f_equal; lia|reflexivity].
  - unfold credit_parts in *. cbn [fold_left]. rewrite IH.
    rewrite stock_after_part_update. cbn [List.filter].
    rewrite (Z.eqb_sym (rp_part_id u) pid).
    destruct (stock_of_part db pid) as [q|]; [|reflexivity].
    destruct (pid =? rp_part_id u); simpl; f_equal; lia.
Qed.

Lemma no_bill_of_repair id l :
  (forall b, In b l -> bill_repair_id b <> Some id) ->
  List.filter (bill_of_repair (Some id)) l = [].
Proof.
  intros H. apply filter_drops_all. intros b Hb. unfold bill_of_repair.
  destruct (bill_repair_id b) as [r|] eqn:Hr; [|reflexivity]. simpl.
  apply Z.eqb_neq. intros ->. exact (H b Hb Hr).
Qed.

Lemma some_bill_of_repair id l b :
  In b l -> bill_repair_id b = Some id ->
  List.filter (bill_of_repair (Some id)) l <> [].
Proof.
  intros Hin Hb Hnil.
  assert (Hf : In b (List.filter (bill_of_repair (Some id)) l)).
  { apply filter_In. split; [exact Hin|]. unfold bill_of_repair.
    rewrite Hb. simpl. apply Z.eqb_refl. }
  rewrite Hnil in Hf. destruct Hf.
Qed.

(** A repair that a bill refers to is not deleted. *)
Lemma deleteRepair_refused (request : Request unit) db m id b :
  params request = Some m -> m !! "id" = Some id ->
  In b (bills db) -> bill_repair_id b = Some id ->
  deleteRepair d1 request db
  = (createError "Cannot delete repair with associated bills" 400, db).
Proof.
  intros Hp Hid Hin Hb.
  unfold deleteRepair, try_catch, param, mbind at 1, ret at 1. rewrite Hp, Hid.
  unfold mbind at 1, bind_value, ret at 1, mbind at 1, gets at 1.
  fold (bill_of_repair (Some id)).
  destruct (List.filter (bill_of_repair (Some id)) (bills db)) as [|b' l] eqn:Hf;
    [|reflexivity].
  exfalso. exact (some_bill_of_repair id _ b Hin Hb Hf).
Qed.

(** X2. Deleting a repair that no bill refers to succeeds, whether or not
    the repair is on record: every part gets back the units that the
    repair's usages recorded for it, and the usages of the repair and the
    repair are gone; the other usages and repairs stay. *)
Theorem deleteRepair_returns_the_parts
    (request : Request unit) (db : Database) (m : gmap string Z) (id : Z) :
  params request = Some m -> m !! "id" = Some id ->
  (forall b, In b (bills db) -> bill_repair_id b <> Some id) ->
  fst (deleteRepair d1 request db)
    = createSuccess "Repair deleted successfully" /\
  (forall pid,
     stock_of_part (snd (deleteRepair d1 request db)) pid
     = (fun q => q + units_on_repair db id pid) <$> stock_of_part db pid) /\
  repair_parts (snd (deleteRepair d1 request db))
    = List.filter (fun u => negb (rp_repair_id u =? id)) (repair_parts db) /\
  repairs (snd (deleteRepair d1 request db))
    = List.filter (fun r => negb (repair_id r =? id)) (repairs db).
Proof.
  intros Hp Hid Hnone.
  destruct (deleteRepair_outcome request db) as [[_ Hrefused]|(m' & Hp' & _ & Hout)].
  - exfalso. apply Hrefused.
    unfold deleteRepair, try_catch, param, mbind at 1, ret at 1. rewrite Hp, Hid.
    unfold mbind at 1, bind_value, ret at 1, mbind at 1, gets at 1.
    fold (bill_of_repair (Some id)). rewrite (no_bill_of_repair id _ Hnone).
    change (0 <? Z.of_nat (length (@nil Bill))) with false. cbn beta iota.
    unfold transaction, mbind at 1, gets at 1.
    unfold mbind at 1. rewrite for_each_credit. reflexivity.
  - rewrite Hp in Hp'. injection Hp' as <-. rewrite Hid in Hout.
    rewrite Hout. cbn [fst snd].
    split; [reflexivity|]. split; [|split].
    + intros pid. unfold stock_of_part at 1.
      cbn [parts with_repairs with_repair_parts].
      fold (stock_of_part (credit_parts
              (List.filter (fun u => sql_eq (rp_repair_id u) (Some id))
                 (repair_parts db)) db) pid).
      rewrite stock_after_credit. reflexivity.
    + cbn [repair_parts with_repairs with_repair_parts].
      destruct (credit_parts_frame
                  (List.filter (fun u => sql_eq (rp_repair_id u) (Some id))
                     (repair_parts db)) db) as (_ & _ & _ & -> & _).
      reflexivity.
    + cbn [repairs with_repairs with_repair_parts].
      destruct (credit_parts_frame
                  (List.filter (fun u => sql_eq (rp_repair_id u) (Some id))
                     (repair_parts db)) db) as (_ & _ & -> & _).
      reflexivity.
Qed.

(** X3. Once a repair has been billed it cannot be deleted: after a
    successful bill generation for repair [id], a request to delete that
    repair is answered "Cannot delete repair with associated bills" and
    writes nothing, so the bill keeps the repair it refers to. *)
Theorem billed_repair_is_not_deleted
    (billNumber : string) (bill : Request BillBody) (remove : Request unit)
    (db : Database) (mb mr : gmap string Z) (id : Z) :
  params bill = Some mb -> mb !! "id" = Some id ->
  params remove = Some mr -> mr !! "id" = Some id ->
  status (fst (generateBillFromRepair d1 billNumber bill db)) = 200 ->
  deleteRepair d1 remove (snd (generateBillFromRepair d1 billNumber bill db))
  = (createError "Cannot delete repair with associated bills" 400,
     snd (generateBillFromRepair d1 billNumber bill db)).
Proof.
  intros Hpb Hidb Hpr Hidr Hok.
  destruct (generateBillFromRepair_outcome billNumber bill db)
    as [[_ Hno]|(m' & id' & repair & u & Hp' & Hid' & _ & _ & _ & _ & _ & Hout)];
    [contradiction|].
  rewrite Hpb in Hp'. injection Hp' as <-.
  rewrite Hidb in Hid'. injection Hid' as <-.
  cbv zeta in Hout. rewrite Hout. cbn [snd].
  match goal with
  | |- context [add_bill ?row db] =>
      apply (deleteRepair_refused remove _ mr id row Hpr Hidr); [|reflexivity]
  end.
  rewrite add_bill_items_bills. cbn [bills add_bill].
  apply in_or_app. right. left. reflexivity.
Qed.

(** *** What a handler can touch *)

(** A property of the database that the writes named in the hypotheses keep
    is kept by every handler made of those writes, whatever the request and
    however the handler ends. *)
Section Frame.

Variable P : Database -> Prop.

Hypothesis P_with_parts : forall f db, P db -> P (with_parts f db).
Hypothesis P_with_accessories : forall f db, P db -> P (with_accessories f db).
Hypothesis P_with_customers : forall f db, P db -> P (with_customers f db).
Hypothesis P_with_repairs : forall f db, P db -> P (with_repairs f db).
Hypothesis P_with_repair_parts :
  forall f seq db, P db -> P (with_repair_parts f seq db).
Hypothesis P_add_accessory_sale :
  forall row db, P db -> P (add_accessory_sale row db).
Hypothesis P_with_bills : forall f db, P db -> P (with_bills f db).
Hypothesis P_add_bill : forall row db, P db -> P (add_bill row db).
Hypothesis P_with_bill_items : forall f db, P db -> P (with_bill_items f db).
Hypothesis P_add_bill_item : forall row db, P db -> P (add_bill_item row db).

Lemma frame_first_accessory k : stable P (first_accessory d1 k).
Proof. unfold first_accessory. repeat stable_step. Qed.

Lemma frame_first_part k : stable P (first_part d1 k).
Proof. unfold first_part. repeat stable_step. Qed.

Lemma frame_first_repair k : stable P (first_repair d1 k).
Proof. unfold first_repair. repeat stable_step. Qed.

Lemma frame_first_box k : stable P (first_box d1 k).
Proof. unfold first_box. repeat stable_step. Qed.

Lemma frame_check_box box_id : stable P (check_box d1 box_id).
Proof.
  unfold check_box. destruct (truthyZ box_id); [|apply stable_ret].
  apply stable_bind; [apply frame_first_box|].
  intros [b|]; apply stable_ret.
Qed.

Lemma frame_first_customer k : stable P (first_customer d1 k).
Proof. unfold first_customer. repeat stable_step. Qed.

Lemma frame_first_bill k : stable P (first_bill d1 k).
Proof. unfold first_bill. repeat stable_step. Qed.

Lemma frame_first_repair_with_customer k :
  stable P (first_repair_with_customer d1 k).
Proof. unfold first_repair_with_customer. repeat stable_step. Qed.

Lemma frame_first_bill_of_repair k : stable P (first_bill_of_repair d1 k).
Proof. unfold first_bill_of_repair. repeat stable_step. Qed.

Lemma frame_repair_parts_of k : stable P (repair_parts_of d1 k).
Proof. unfold repair_parts_of. repeat stable_step. Qed.

Lemma frame_latest_repair_part r p : stable P (latest_repair_part d1 r p).
Proof. unfold latest_repair_part. repeat stable_step. Qed.

Lemma frame_count_where {A} (table : Database -> list A) column k :
  stable P (count_where d1 table column k).
Proof. unfold count_where. repeat stable_step. Qed.

Lemma frame_update_accessory_quantity f k :
  stable P (update_accessory_quantity d1 f k).
Proof.
  unfold update_accessory_quantity. apply stable_bind; [auto with stable|].
  intros a. apply stable_modify. intros db H. apply P_with_accessories, H.
Qed.

Lemma frame_update_part_quantity f k :
  stable P (update_part_quantity d1 f k).
Proof.
  unfold update_part_quantity. apply stable_bind; [auto with stable|].
  intros a. apply stable_modify. intros db H. apply P_with_parts, H.
Qed.

Lemma frame_insert_accessory_sale a q u t by_ :
  stable P (insert_accessory_sale d1 a q u t by_).
Proof.
  unfold insert_accessory_sale. apply stable_bind; [auto with stable|].
  intros [k|]; [|apply stable_throw].
  intros db H. apply P_add_accessory_sale, H.
Qed.

Lemma frame_insert_repair_part now r p q mode u t :
  stable P (insert_repair_part d1 now r p q mode u t).
Proof.
  unfold insert_repair_part. apply stable_bind; [auto with stable|].
  intros r'. apply stable_bind; [auto with stable|]. intros p'.
  destruct r' as [r'|], p' as [p'|]; try apply stable_throw.
  intros db H. apply P_with_repair_parts, H.
Qed.

Lemma frame_delete_repair_part r p id :
  stable P (delete_repair_part d1 r p id).
Proof.
  unfold delete_repair_part. apply stable_bind; [auto with stable|].
  intros r'. apply stable_bind; [auto with stable|]. intros p'.
  apply stable_modify. intros db H. apply P_with_repair_parts, H.
Qed.

Lemma frame_insert_bill r c number s t total method by_ :
  stable P (insert_bill r c number s t total method by_).
Proof.
  intros db H. unfold insert_bill.
  destruct (existsb _ (bills db)); [exact H|]. apply P_add_bill, H.
Qed.

Lemma frame_insert_bill_item b type item q u t mode :
  stable P (insert_bill_item b type item q u t mode).
Proof. intros db H. apply P_add_bill_item, H. Qed.

Lemma frame_update_payment s method k : stable P (update_payment d1 s method k).
Proof.
  unfold update_payment. apply stable_bind; [auto with stable|].
  intros a. apply stable_modify. intros db H. apply P_with_bills, H.
Qed.

Lemma frame_delete_bill_items k : stable P (delete_bill_items d1 k).
Proof.
  unfold delete_bill_items. apply stable_bind; [auto with stable|].
  intros a. apply stable_modify. intros db H. apply P_with_bill_items, H.
Qed.

Lemma frame_delete_bill k : stable P (delete_bill d1 k).
Proof.
  unfold delete_bill. apply stable_bind; [auto with stable|].
  intros a. apply stable_modify. intros db H. apply P_with_bills, H.
Qed.

Lemma frame_update_repair_status s k : stable P (update_repair_status d1 s k).
Proof.
  unfold update_repair_status. apply stable_bind; [auto with stable|].
  intros a. apply stable_modify. intros db H. apply P_with_repairs, H.
Qed.

Lemma frame_verify_cart items : stable P (verify_cart d1 items).
Proof.
  induction items as [|item rest IH]; simpl; [apply stable_ret|].
  apply stable_bind; [apply frame_first_accessory|].
  intros [a|]; [|apply stable_ret].
  destruct (accessory_quantity a <? ci_quantity item); [apply stable_ret|exact IH].
Qed.

Lemma frame_cart_subtotal items s : stable P (cart_subtotal d1 items s).
Proof.
  revert s. induction items as [|item rest IH]; intros s; simpl;
    [apply stable_ret|].
  apply stable_bind; [apply frame_first_accessory|].
  intros [a|]; [apply IH|apply stable_throw].
Qed.

Lemma frame_bill_cart_line billId sold_by item :
  stable P (bill_cart_line d1 billId sold_by item).
Proof.
  unfold bill_cart_line. apply stable_bind; [apply frame_first_accessory|].
  intros [a|]; [|apply stable_throw].
  apply stable_bind; [apply frame_insert_bill_item|]. intros _.
  apply stable_bind; [apply frame_update_accessory_quantity|]. intros _.
  apply stable_bind; [apply frame_insert_accessory_sale|]. intros _.
  apply stable_ret.
Qed.

#[local] Hint Resolve frame_first_accessory frame_first_part frame_first_repair
  frame_first_box frame_check_box frame_first_customer frame_first_bill
  frame_first_repair_with_customer
  frame_first_bill_of_repair frame_repair_parts_of frame_latest_repair_part
  frame_count_where frame_update_accessory_quantity frame_update_part_quantity
  frame_insert_accessory_sale frame_insert_repair_part
  frame_delete_repair_part frame_insert_bill frame_insert_bill_item
  frame_update_payment frame_delete_bill_items frame_delete_bill
  frame_update_repair_status frame_verify_cart frame_cart_subtotal
  frame_bill_cart_line : stable.

(** One step of a frame proof: as [stable_step], a write being kept by
    hypothesis. *)
Ltac frame_step :=
  match goal with
  | H : quantity_update _ _ = Some ?u |- stable _ ?u =>
      exact (stable_quantity_update _ _ _ _ H)
  | |- stable _ (match quantity_update ?o ?n with _ => _ end) =>
      destruct (quantity_update o n) eqn:?
  | |- stable _ (mbind _ _) => apply stable_bind; [|intros]
  | |- stable _ (transaction _) => apply stable_transaction
  | |- stable _ (for_each _ _) => apply stable_for_each; intros
  | |- stable _ (modify _) =>
      apply stable_modify; intros;
      first [ apply P_with_parts | apply P_with_accessories
            | apply P_with_customers | apply P_with_repairs
            | apply P_with_repair_parts | apply P_with_bills
            | apply P_with_bill_items ]; assumption
  | |- stable _ (let _ := _ in _) => cbv zeta
  | |- stable _ (if ?b then _ else _) => destruct b
  | |- stable _ (match ?x with _ => _ end) => destruct x
  | |- _ => solve [auto with stable]
  end.

Lemma adjustAccessoryQuantity_frame request db :
  P db -> P (snd (adjustAccessoryQuantity d1 request db)).
Proof. apply stable_try_catch. repeat frame_step. Qed.

Lemma adjustPartQuantity_frame request db :
  P db -> P (snd (adjustPartQuantity d1 request db)).
Proof. apply stable_try_catch. repeat frame_step. Qed.

Lemma sellAccessory_frame request db :
  P db -> P (snd (sellAccessory d1 request db)).
Proof. apply stable_try_catch. repeat frame_step. Qed.

Lemma addPart_frame now request db :
  P db -> P (snd (addPart d1 now request db)).
Proof. apply stable_try_catch. repeat frame_step. Qed.

Lemma removePart_frame request db :
  P db -> P (snd (removePart d1 request db)).
Proof. apply stable_try_catch. repeat frame_step. Qed.

Lemma deleteRepair_frame request db :
  P db -> P (snd (deleteRepair d1 request db)).
Proof. apply stable_try_catch. repeat frame_step. Qed.

Lemma generateBillFromRepair_frame billNumber request db :
  P db -> P (snd (generateBillFromRepair d1 billNumber request db)).
Proof. apply stable_try_catch. repeat frame_step. Qed.

Lemma generateAccessoryBill_frame billNumber request db :
  P db -> P (snd (generateAccessoryBill d1 billNumber request db)).
Proof. apply stable_try_catch. repeat frame_step. Qed.

Lemma updatePayment_frame request db :
  P db -> P (snd (updatePayment d1 request db)).
Proof. apply stable_try_catch. repeat frame_step. Qed.

Lemma deleteBill_frame request db :
  P db -> P (snd (deleteBill d1 request db)).
Proof. apply stable_try_catch. repeat frame_step. Qed.

Lemma updateRepairStatus_frame request db :
  P db -> P (snd (updateRepairStatus d1 request db)).
Proof. apply stable_try_catch. repeat frame_step. Qed.

Lemma updateAccessory_frame request db :
  P db -> P (snd (updateAccessory d1 request db)).
Proof. apply stable_try_catch. repeat frame_step. Qed.

Lemma deleteAccessory_frame request db :
  P db -> P (snd (deleteAccessory d1 request db)).
Proof. apply stable_try_catch. repeat frame_step. Qed.

Lemma updatePart_frame request db :
  P db -> P (snd (updatePart d1 request db)).
Proof. apply stable_try_catch. repeat frame_step. Qed.

Lemma deletePart_frame request db :
  P db -> P (snd (deletePart d1 request db)).
Proof. apply stable_try_catch. repeat frame_step. Qed.

Lemma deleteCustomer_frame request db :
  P db -> P (snd (deleteCustomer d1 request db)).
Proof. apply stable_try_catch. repeat frame_step. Qed.

End Frame.

#[local] Hint Resolve frame_first_accessory frame_first_part frame_first_repair
  frame_first_customer frame_first_bill frame_first_repair_with_customer
  frame_first_bill_of_repair frame_repair_parts_of frame_latest_repair_part
  frame_count_where frame_verify_cart frame_cart_subtotal : stable.

(** *** The ledger of parts: shelf and repairs *)

Lemma sum_quantity_used_app l1 l2 :
  sum_quantity_used (l1 ++ l2) = sum_quantity_used l1 + sum_quantity_used l2.
Proof.
  induction l1 as [|u l1 IH]; simpl; [reflexivity|]. rewrite IH. lia.
Qed.

Lemma sum_quantity_used_split (p q : RepairPart -> bool) l :
  sum_quantity_used (List.filter p l)
  = sum_quantity_used (List.filter p (List.filter q l))
    + sum_quantity_used (List.filter p (List.filter (fun u => negb (q u)) l)).
Proof.
  induction l as [|u l IH]; simpl; [reflexivity|].
  destruct (q u); simpl; destruct (p u); simpl; lia.
Qed.

Lemma NoDup_map_filter {A} (f : A -> Z) (p : A -> bool) l :
  NoDup (map f l) -> NoDup (map f (List.filter p l)).
Proof.
  induction l as [|x l IH]; simpl; intros H; [constructor|].
  apply NoDup_cons in H as [Hx Hl].
  destruct (p x); simpl; [|apply IH, Hl].
  apply NoDup_cons. split; [|apply IH, Hl].
  intros Hin. apply Hx. apply list_elem_of_In. apply list_elem_of_In in Hin.
  apply in_map_iff in Hin as (y & Hy & Hin). apply filter_In in Hin as [Hin _].
  rewrite <- Hy. apply in_map, Hin.
Qed.

Lemma part_units_eq db db' pid :
  (forall q, stock_of_part db pid = Some q ->
     exists q', stock_of_part db' pid = Some q' /\
       q' + units_in_repairs db' pid = q + units_in_repairs db pid) ->
  (stock_of_part db pid = None -> stock_of_part db' pid = None) ->
  part_units db' pid = part_units db pid.
Proof.
  intros Hsome Hnone. unfold part_units.
  destruct (stock_of_part db pid) as [q|].
  - destruct (Hsome q eq_refl) as (q' & -> & Heq). simpl. f_equal. exact Heq.
  - rewrite (Hnone eq_refl). reflexivity.
Qed.

Lemma addPart_keeps_part_ledger now (request : Request AddPartBody) db pid :
  usages_numbered db ->
  usages_numbered (snd (addPart d1 now request db)) /\
  part_units (snd (addPart d1 now request db)) pid = part_units db pid.
Proof.
  intros [Hnd Hseq].
  destruct (addPart_outcome now request db)
    as [[-> _]|(m & id & pid' & n & mode & part & _ & _ & _ & _ & _ & _ & _
                & _ & _ & Hadd)];
    [split; [split; assumption|reflexivity]|].
  cbv zeta in Hadd.
  match type of Hadd with
  | context [cons ?r nil] => set (row := r) in *
  end.
  rewrite Hadd. cbn [snd]. split.
  - split; cbn [repair_parts seq_repair_parts with_parts with_repair_parts].
    + rewrite map_app. apply NoDup_app. split; [exact Hnd|]. split.
      * intros x Hx Hrow. apply list_elem_of_In in Hx, Hrow.
        destruct Hrow as [<-|[]].
        apply in_map_iff in Hx as (u & Hu & Hin). specialize (Hseq u Hin).
        simpl in Hu. lia.
      * apply NoDup_singleton.
    + intros u Hu. apply in_app_or in Hu as [Hu|[<-|[]]].
      * specialize (Hseq u Hu). lia.
      * simpl. lia.
  - apply part_units_eq.
    + intros q Hq. rewrite stock_after_part_update.
      unfold stock_of_part in *. cbn [parts with_repair_parts].
      rewrite Hq. simpl. eexists. split; [reflexivity|].
      unfold units_in_repairs.
      cbn [repair_parts with_parts with_repair_parts].
      rewrite List.filter_app, sum_quantity_used_app. cbn [List.filter].
      unfold row at 1. cbn [rp_part_id]. rewrite (Z.eqb_sym pid' pid).
      destruct (pid =? pid'); simpl; lia.
    + intros Hq. rewrite stock_after_part_update.
      unfold stock_of_part in *. cbn [parts with_repair_parts].
      rewrite Hq. reflexivity.
Qed.

Lemma removePart_keeps_part_ledger (request : Request unit) db pid :
  usages_numbered db ->
  usages_numbered (snd (removePart d1 request db)) /\
  part_units (snd (removePart d1 request db)) pid = part_units db pid.
Proof.
  intros [Hnd Hseq].
  destruct (removePart_effect request db)
    as [[-> _]|(m & id & pid' & u & _ & _ & _ & Hu & Hout)];
    [split; [split; assumption|reflexivity]|].
  rewrite Hout. cbn [snd].
  apply most_recent_is_latest in Hu as [Hin _].
  apply filter_In in Hin as [Hin Hmatch].
  destruct (filter_out_by_id (usage_matches (Some id) (Some pid'))
              (repair_parts db) u Hnd Hin Hmatch) as (l1 & l2 & Hsplit & Hf).
  unfold usage_matches in Hmatch. simpl in Hmatch.
  apply andb_true_iff in Hmatch as [_ Hpart]. apply Z.eqb_eq in Hpart.
  split.
  - split; cbn [repair_parts seq_repair_parts with_parts with_repair_parts].
    + apply NoDup_map_filter, Hnd.
    + intros x Hx. apply filter_In in Hx as [Hx _]. apply Hseq, Hx.
  - apply part_units_eq.
    + intros q Hq. rewrite stock_after_part_update.
      unfold stock_of_part in *. cbn [parts with_repair_parts].
      rewrite Hq. simpl. eexists. split; [reflexivity|].
      unfold units_in_repairs.
      cbn [repair_parts with_parts with_repair_parts].
      rewrite Hf, Hsplit, !List.filter_app, !sum_quantity_used_app.
      cbn [List.filter]. rewrite Hpart, (Z.eqb_sym pid' pid).
      destruct (pid =? pid'); simpl; lia.
    + intros Hq. rewrite stock_after_part_update.
      unfold stock_of_part in *. cbn [parts with_repair_parts].
      rewrite Hq. reflexivity.
Qed.

Lemma deleteRepair_keeps_part_ledger (request : Request unit) db pid :
  usages_numbered db ->
  usages_numbered (snd (deleteRepair d1 request db)) /\
  part_units (snd (deleteRepair d1 request db)) pid = part_units db pid.
Proof.
  intros [Hnd Hseq].
  destruct (deleteRepair_outcome request db) as [[-> _]|(m & _ & _ & Hout)];
    [split; [split; assumption|reflexivity]|].
  rewrite Hout. cbn [snd].
  set (us := List.filter (fun u => sql_eq (rp_repair_id u) (m !! "id"))
               (repair_parts db)).
  destruct (credit_parts_frame us db) as (_ & _ & _ & Hrp & _ & _ & _ & Hs).
  split.
  - split; cbn [repair_parts seq_repair_parts with_repairs with_repair_parts].
    + rewrite Hrp. apply NoDup_map_filter, Hnd.
    + rewrite Hrp, Hs. intros x Hx. apply filter_In in Hx as [Hx _].
      apply Hseq, Hx.
  - assert (Hstock : stock_of_part
                       (with_repairs
                          (List.filter
                             (fun r => negb (sql_eq (repair_id r) (m !! "id"))))
                          (with_repair_parts
                             (List.filter
                                (fun u => negb (sql_eq (rp_repair_id u) (m !! "id"))))
                             (fun s => s) (credit_parts us db))) pid
                     = (fun q => q + sum_quantity_used
                                       (List.filter (fun u => rp_part_id u =? pid) us))
                       <$> stock_of_part db pid)
      by apply (stock_after_credit us db pid).
    assert (Hunits : units_in_repairs db pid
                     = sum_quantity_used
                         (List.filter (fun u => rp_part_id u =? pid) us)
                       + units_in_repairs
                           (with_repairs
                              (List.filter
                                 (fun r => negb (sql_eq (repair_id r) (m !! "id"))))
                              (with_repair_parts
                                 (List.filter
                                    (fun u => negb (sql_eq (rp_repair_id u) (m !! "id"))))
                                 (fun s => s) (credit_parts us db))) pid).
    { unfold units_in_repairs at 1 2.
      cbn [repair_parts with_repairs with_repair_parts]. rewrite Hrp.
      apply (sum_quantity_used_split _
               (fun u => sql_eq (rp_repair_id u) (m !! "id"))). }
    apply part_units_eq.
    + intros q Hq. rewrite Hstock, Hq. simpl. eexists. split; [reflexivity|].
      rewrite Hunits. lia.
    + intros Hq. rewrite Hstock, Hq. reflexivity.
Qed.

Lemma serve_keeps_part_ledger call db pid :
  keeps_part_ledger call = true -> usages_numbered db ->
  usages_numbered (snd (serve d1 call db)) /\
  part_units (snd (serve d1 call db)) pid = part_units db pid.
Proof.
  intros Hcall Hwf.
  destruct call as [[request|request|request|now request|request|request
                    |billNumber request|billNumber request]
                   |request|request|request|request|request|request|request
                   |request];
    cbn [serve perform]; try discriminate Hcall.
  - apply (adjustAccessoryQuantity_frame
             (fun d => usages_numbered d /\ part_units d pid = part_units db pid));
      [intros ? ? H; exact H | split; [exact Hwf|reflexivity]].
  - apply (sellAccessory_frame
             (fun d => usages_numbered d /\ part_units d pid = part_units db pid));
      [intros ? ? H; exact H | intros ? ? H; exact H
       | split; [exact Hwf|reflexivity]].
  - apply addPart_keeps_part_ledger, Hwf.
  - apply removePart_keeps_part_ledger, Hwf.
  - apply deleteRepair_keeps_part_ledger, Hwf.
  - apply (generateBillFromRepair_frame
             (fun d => usages_numbered d /\ part_units d pid = part_units db pid));
      [intros ? ? H; exact H | intros ? ? H; exact H
       | split; [exact Hwf|reflexivity]].
  - apply (generateAccessoryBill_frame
             (fun d => usages_numbered d /\ part_units d pid = part_units db pid));
      [intros ? ? H; exact H | intros ? ? H; exact H | intros ? ? H; exact H
       | intros ? ? H; exact H | split; [exact Hwf|reflexivity]].
  - apply (updatePayment_frame
             (fun d => usages_numbered d /\ part_units d pid = part_units db pid));
      [intros ? ? H; exact H | split; [exact Hwf|reflexivity]].
  - apply (deleteBill_frame
             (fun d => usages_numbered d /\ part_units d pid = part_units db pid));
      [intros ? ? H; exact H | intros ? ? H; exact H
       | split; [exact Hwf|reflexivity]].
  - apply (updateRepairStatus_frame
             (fun d => usages_numbered d /\ part_units d pid = part_units db pid));
      [intros ? ? H; exact H | split; [exact Hwf|reflexivity]].
  - apply (updateAccessory_frame
             (fun d => usages_numbered d /\ part_units d pid = part_units db pid));
      [intros ? ? H; exact H | split; [exact Hwf|reflexivity]].
  - apply (deleteAccessory_frame
             (fun d => usages_numbered d /\ part_units d pid = part_units db pid));
      [intros ? ? H; exact H | split; [exact Hwf|reflexivity]].
  - apply (deleteCustomer_frame
             (fun d => usages_numbered d /\ part_units d pid = part_units db pid));
      [intros ? ? H; exact H | split; [exact Hwf|reflexivity]].
Qed.

(** X4. Parts are conserved.  Whatever requests the sixteen handlers of
    [Call] serve, in whatever order, other than the three that write a
    part's row directly (PATCH /parts/:id/quantity, PUT /parts/:id and
    DELETE /parts/:id), the units of every part on the shelf plus the units
    recorded on repairs stay what they were: recording a usage moves units
    from the shelf to a repair, removing a usage or deleting a repair moves
    them back, and the other handlers served touch neither side. *)
Theorem part_units_are_conserved
    (calls : list Call) (db : Database) (pid : Z) :
  usages_numbered db ->
  forallb keeps_part_ledger calls = true ->
  part_units (serve_all d1 calls db) pid = part_units db pid.
Proof.
  revert db. induction calls as [|call calls IH]; intros db Hwf Hcalls;
    [reflexivity|].
  cbn [forallb] in Hcalls. apply andb_true_iff in Hcalls as [Hcall Hcalls].
  destruct (serve_keeps_part_ledger call db pid Hcall Hwf) as [Hwf' Heq].
  unfold serve_all in *. cbn [fold_left].
  rewrite (IH _ Hwf' Hcalls). exact Heq.
Qed.

(** *** The ledger of accessories: shelf and sales *)

Lemma accessory_units_eq db db' id :
  (forall q, stock_of_accessory db id = Some q ->
     exists q', stock_of_accessory db' id = Some q' /\
       q' + units_sold db' id = q + units_sold db id) ->
  (stock_of_accessory db id = None -> stock_of_accessory db' id = None) ->
  accessory_units db' id = accessory_units db id.
Proof.
  intros Hsome Hnone. unfold accessory_units.
  destruct (stock_of_accessory db id) as [q|].
  - destruct (Hsome q eq_refl) as (q' & -> & Heq). simpl. f_equal. exact Heq.
  - rewrite (Hnone eq_refl). reflexivity.
Qed.

Lemma units_sold_app l1 l2 id :
  fold_right (fun s n => sale_quantity_sold s + n) 0
    (List.filter (fun s => sale_accessory_id s =? id) (l1 ++ l2))
  = fold_right (fun s n => sale_quantity_sold s + n) 0
      (List.filter (fun s => sale_accessory_id s =? id) l1)
    + fold_right (fun s n => sale_quantity_sold s + n) 0
        (List.filter (fun s => sale_accessory_id s =? id) l2).
Proof.
  induction l1 as [|s l1 IH]; simpl; [reflexivity|].
  destruct (sale_accessory_id s =? id); simpl; rewrite IH; lia.
Qed.

(** A debit of [n] units together with a sale row of [n] units. *)
Lemma debit_with_sale_keeps_units db id aid n row :
  sale_accessory_id row = aid -> sale_quantity_sold row = n ->
  accessory_units
    (add_accessory_sale row
       (with_accessories (set_accessory_quantity (fun q => q - n) (Some aid)) db))
    id
  = accessory_units db id.
Proof.
  intros Ha Hn. apply accessory_units_eq.
  - intros q Hq.
    change (stock_of_accessory
              (add_accessory_sale row
                 (with_accessories
                    (set_accessory_quantity (fun q => q - n) (Some aid)) db)) id)
      with (stock_of_accessory
              (with_accessories
                 (set_accessory_quantity (fun q => q - n) (Some aid)) db) id).
    rewrite stock_after_accessory_update, Hq. simpl.
    eexists. split; [reflexivity|].
    unfold units_sold. cbn [accessory_sales add_accessory_sale with_accessories].
    rewrite units_sold_app. cbn [List.filter]. rewrite Ha, (Z.eqb_sym aid id).
    destruct (id =? aid); simpl; rewrite ?Hn; lia.
  - intros Hq.
    change (stock_of_accessory
              (add_accessory_sale row
                 (with_accessories
                    (set_accessory_quantity (fun q => q - n) (Some aid)) db)) id)
      with (stock_of_accessory
              (with_accessories
                 (set_accessory_quantity (fun q => q - n) (Some aid)) db) id).
    rewrite stock_after_accessory_update, Hq. reflexivity.
Qed.

Lemma sellAccessory_keeps_accessory_ledger (request : Request SellBody) db id :
  accessory_units (snd (sellAccessory d1 request db)) id = accessory_units db id.
Proof.
  destruct (sellAccessory_outcome request db)
    as [[-> _]|(m & aid & n & price & a & u & _ & _ & _ & _ & _ & _ & _ & _ & Hout)];
    [reflexivity|].
  rewrite Hout. cbn [snd].
  match goal with
  | |- context [add_accessory_sale ?row db] =>
      exact (debit_with_sale_keeps_units db id aid n row eq_refl eq_refl)
  end.
Qed.

Lemma bill_cart_line_keeps_accessory_ledger billId sold_by item id v :
  stable (fun d => accessory_units d id = v)
    (bill_cart_line d1 billId sold_by item).
Proof.
  intros db H. unfold bill_cart_line, first_accessory, mbind at 1 2,
    bind_value, ret at 1, gets.
  destruct (List.find _ (accessories db)) as [a|]; [|exact H].
  unfold insert_bill_item, update_accessory_quantity, insert_accessory_sale,
    mbind, bind_value, modify, ret.
  cbn beta iota.
  match goal with
  | |- accessory_units
         (add_accessory_sale ?row
            (with_accessories ?f (add_bill_item ?i db))) id = v =>
      rewrite <- H;
      change (accessory_units db id) with (accessory_units (add_bill_item i db) id);
      exact (debit_with_sale_keeps_units (add_bill_item i db) id
               (ci_accessory_id item) (ci_quantity item) row eq_refl eq_refl)
  end.
Qed.

Lemma generateAccessoryBill_keeps_accessory_ledger billNumber
    (request : Request CartBody) db id :
  accessory_units (snd (generateAccessoryBill d1 billNumber request db)) id
  = accessory_units db id.
Proof.
  apply (stable_try_catch (fun d => accessory_units d id = accessory_units db id));
    [|reflexivity].
  unfold generateAccessoryBill. cbv zeta.
  destruct (cb_items (json request)) as [items|]; [|apply stable_ret].
  destruct (negb (truthyZ (cb_customer_id (json request)))
            || (length items =? 0)%nat); [apply stable_ret|].
  apply stable_bind; [apply frame_first_customer|].
  intros [c|]; [|apply stable_ret].
  apply stable_bind; [apply frame_verify_cart|].
  intros [r|]; [apply stable_ret|].
  apply stable_bind; [apply frame_cart_subtotal|]. intros subtotal.
  apply stable_transaction.
  apply stable_bind; [apply stable_user_id_of|]. intros created_by.
  apply stable_bind;
    [apply frame_insert_bill; intros ? ? H; exact H|]. intros billId.
  apply stable_bind; [|intros; apply stable_ret].
  apply stable_for_each. intros item.
  apply bill_cart_line_keeps_accessory_ledger.
Qed.

Lemma serve_keeps_accessory_ledger call db id :
  keeps_accessory_ledger call = true ->
  accessory_units (snd (serve d1 call db)) id = accessory_units db id.
Proof.
  intros Hcall.
  destruct call as [[request|request|request|now request|request|request
                    |billNumber request|billNumber request]
                   |request|request|request|request|request|request|request
                   |request];
    cbn [serve perform]; try discriminate Hcall.
  - apply (adjustPartQuantity_frame
             (fun d => accessory_units d id = accessory_units db id));
      [intros ? ? H; exact H | reflexivity].
  - apply sellAccessory_keeps_accessory_ledger.
  - apply (addPart_frame
             (fun d => accessory_units d id = accessory_units db id));
      [intros ? ? H; exact H | intros ? ? ? H; exact H | reflexivity].
  - apply (removePart_frame
             (fun d => accessory_units d id = accessory_units db id));
      [intros ? ? H; exact H | intros ? ? ? H; exact H | reflexivity].
  - apply (deleteRepair_frame
             (fun d => accessory_units d id = accessory_units db id));
      [intros ? ? H; exact H | intros ? ? H; exact H
       | intros ? ? ? H; exact H | reflexivity].
  - apply (generateBillFromRepair_frame
             (fun d => accessory_units d id = accessory_units db id));
      [intros ? ? H; exact H | intros ? ? H; exact H | reflexivity].
  - apply generateAccessoryBill_keeps_accessory_ledger.
  - apply (updatePayment_frame
             (fun d => accessory_units d id = accessory_units db id));
      [intros ? ? H; exact H | reflexivity].
  - apply (deleteBill_frame
             (fun d => accessory_units d id = accessory_units db id));
      [intros ? ? H; exact H | intros ? ? H; exact H | reflexivity].
  - apply (updateRepairStatus_frame
             (fun d => accessory_units d id = accessory_units db id));
      [intros ? ? H; exact H | reflexivity].
  - apply (updatePart_frame
             (fun d => accessory_units d id = accessory_units db id));
      [intros ? ? H; exact H | reflexivity].
  - apply (deletePart_frame
             (fun d => accessory_units d id = accessory_units db id));
      [intros ? ? H; exact H | reflexivity].
  - apply (deleteCustomer_frame
             (fun d => accessory_units d id = accessory_units db id));
      [intros ? ? H; exact H | reflexivity].
Qed.

(** X5. Accessories are conserved.  Whatever requests are served, in
    whatever order, other than a direct adjustment, an overwrite or the
    deletion of an accessory, the units of every accessory on the shelf plus
    the units recorded as sold stay what they were: every unit that leaves
    the shelf through a sale or a cart bill, also one that takes the stock
    below zero, is on a sale row, and deleting a bill brings nothing
    back. *)
Theorem accessory_units_are_conserved
    (calls : list Call) (db : Database) (id : Z) :
  forallb keeps_accessory_ledger calls = true ->
  accessory_units (serve_all d1 calls db) id = accessory_units db id.
Proof.
  revert db. induction calls as [|call calls IH]; intros db Hcalls;
    [reflexivity|].
  cbn [forallb] in Hcalls. apply andb_true_iff in Hcalls as [Hcall Hcalls].
  unfold serve_all in *. cbn [fold_left].
  rewrite (IH _ Hcalls). apply serve_keeps_accessory_ledger, Hcall.
Qed.

(** *** The references between the tables *)

Lemma map_part_id_set f k l :
  map part_id (set_part_quantity f k l) = map part_id l.
Proof.
  induction l as [|p l IH]; simpl; [reflexivity|]. rewrite IH.
  destruct (sql_eq (part_id p) k); reflexivity.
Qed.

Lemma map_accessory_id_set f k l :
  map accessory_id (set_accessory_quantity f k l) = map accessory_id l.
Proof.
  induction l as [|p l IH]; simpl; [reflexivity|]. rewrite IH.
  destruct (sql_eq (accessory_id p) k); reflexivity.
Qed.

Lemma map_accessory_id_overwritten name q price k l :
  map accessory_id (set_accessory name q price k l) = map accessory_id l.
Proof.
  induction l as [|p l IH]; simpl; [reflexivity|]. rewrite IH.
  destruct (sql_eq (accessory_id p) k); reflexivity.
Qed.

Lemma map_repair_id_set s k l :
  map repair_id (set_repair_status s k l) = map repair_id l.
Proof.
  induction l as [|p l IH]; simpl; [reflexivity|]. rewrite IH.
  destruct (sql_eq (repair_id p) k); reflexivity.
Qed.

Lemma map_bill_id_set s method k l :
  map bill_id (set_payment s method k l) = map bill_id l.
Proof.
  induction l as [|p l IH]; simpl; [reflexivity|]. rewrite IH.
  destruct (sql_eq (bill_id p) k); reflexivity.
Qed.

Lemma In_set_repair_status s k l r' :
  In r' (set_repair_status s k l) ->
  exists r, In r l /\ repair_id r' = repair_id r /\
            repair_customer_id r' = repair_customer_id r.
Proof.
  unfold set_repair_status. intros H. apply in_map_iff in H as (r & Hr & Hin).
  exists r. split; [exact Hin|]. subst r'.
  destruct (sql_eq (repair_id r) k); split; reflexivity.
Qed.

Lemma In_set_payment s method k l b' :
  In b' (set_payment s method k l) ->
  exists b, In b l /\ amounts_of b' = amounts_of b.
Proof.
  unfold set_payment. intros H. apply in_map_iff in H as (b & Hb & Hin).
  exists b. split; [exact Hin|]. subst b'.
  destruct (sql_eq (bill_id b) k); reflexivity.
Qed.

Lemma map_part_id_credit us db :
  map part_id (parts (credit_parts us db)) = map part_id (parts db).
Proof.
  revert db. induction us as [|u us IH]; intros db; [reflexivity|].
  unfold credit_parts in *. cbn [fold_left]. rewrite IH.
  cbn [parts with_parts]. apply map_part_id_set.
Qed.

(** A DELETE by key keeps the rows of the other keys. *)
Lemma In_map_filter_other {A} (f : A -> Z) k x l :
  In x (map f l) -> sql_eq x k = false ->
  In x (map f (List.filter (fun y => negb (sql_eq (f y) k)) l)).
Proof.
  intros Hin Hne. apply in_map_iff in Hin as (y & Hy & Hin).
  apply in_map_iff. exists y. split; [exact Hy|].
  apply filter_In. split; [exact Hin|]. rewrite Hy, Hne. reflexivity.
Qed.

(** A COUNT of zero: no row has the key. *)
Lemma none_with_key {A} (f : A -> Z) k l y :
  List.filter (fun y => sql_eq (f y) k) l = [] -> In y l ->
  sql_eq (f y) k = false.
Proof.
  intros Hnil Hin. destruct (sql_eq (f y) k) eqn:E; [|reflexivity].
  assert (H : In y (List.filter (fun y => sql_eq (f y) k) l))
    by (apply filter_In; split; assumption).
  rewrite Hnil in H. destruct H.
Qed.

Lemma found_by_id {A} (f : A -> Z) id l x :
  List.find (fun y => f y =? id) l = Some x -> In id (map f l).
Proof.
  intros H. apply find_some in H as [Hin Hid]. apply Z.eqb_eq in Hid.
  rewrite <- Hid. apply in_map, Hin.
Qed.

Lemma adjustAccessoryQuantity_keeps_references request db :
  references_hold db ->
  references_hold (snd (adjustAccessoryQuantity d1 request db)).
Proof.
  intros (R1 & R2 & R3 & R4 & R5).
  destruct (adjustAccessoryQuantity_outcome request db)
    as [[-> _]|(m & id & n & f & _ & _ & _ & _ & _ & ->)];
    [exact (conj R1 (conj R2 (conj R3 (conj R4 R5))))|].
  unfold references_hold. cbn [snd accessories with_accessories].
  rewrite map_accessory_id_set.
  exact (conj R1 (conj R2 (conj R3 (conj R4 R5)))).
Qed.

Lemma adjustPartQuantity_keeps_references request db :
  references_hold db ->
  references_hold (snd (adjustPartQuantity d1 request db)).
Proof.
  intros (R1 & R2 & R3 & R4 & R5).
  destruct (adjustPartQuantity_outcome request db)
    as [[-> _]|(m & id & n & f & _ & _ & _ & _ & _ & ->)];
    [exact (conj R1 (conj R2 (conj R3 (conj R4 R5))))|].
  unfold references_hold. cbn [snd parts with_parts].
  rewrite map_part_id_set.
  exact (conj R1 (conj R2 (conj R3 (conj R4 R5)))).
Qed.

Lemma sellAccessory_keeps_references request db :
  references_hold db -> references_hold (snd (sellAccessory d1 request db)).
Proof.
  intros (R1 & R2 & R3 & R4 & R5).
  destruct (sellAccessory_outcome request db)
    as [[-> _]|(m & id & n & price & a & u & _ & _ & _ & _ & _ & Ha & _ & _ & ->)];
    [exact (conj R1 (conj R2 (conj R3 (conj R4 R5))))|].
  unfold references_hold.
  cbn [snd accessories accessory_sales with_accessories add_accessory_sale].
  rewrite map_accessory_id_set.
  refine (conj R1 (conj _ (conj R3 (conj R4 R5)))).
  intros s Hs. apply in_app_or in Hs as [Hs|[<-|[]]]; [apply R2, Hs|].
  simpl. exact (found_by_id accessory_id id _ a Ha).
Qed.

(** A usage is recorded for a repair that is on record. *)
Lemma addPart_repair_on_record now (request : Request AddPartBody) db :
  status (fst (addPart d1 now request db)) = 200 ->
  exists m id r,
    params request = Some m /\ m !! "id" = Some id /\
    List.find (fun r => repair_id r =? id) (repairs db) = Some r.
Proof.
  unfold addPart, try_catch, param, mbind at 1, ret.
  destruct (params request) as [m|] eqn:Hp; [|discriminate].
  cbv zeta.
  destruct (negb (truthyZ (ap_part_id (json request)))
            || negb (truthyZ (ap_quantity_used (json request)))
            || negb (truthyS (ap_pricing_mode (json request))));
    [discriminate|].
  destruct (negb (is_str (ap_pricing_mode (json request)) "repair"
                  || is_str (ap_pricing_mode (json request)) "seal"));
    [discriminate|].
  unfold first_repair, mbind at 1 2, bind_value.
  destruct (m !! "id") as [id|] eqn:Hid.
  2:{ destruct d1; [discriminate|]. unfold mbind, ret, gets.
      rewrite (find_unbound_key repair_id). discriminate. }
  unfold ret at 1, gets, mbind at 1. cbn beta iota delta [sql_eq].
  destruct (List.find _ (repairs db)) as [r|] eqn:Hr; [|discriminate].
  intros _. exists m, id, r. repeat split; assumption || reflexivity.
Qed.

Lemma addPart_keeps_references now request db :
  references_hold db -> references_hold (snd (addPart d1 now request db)).
Proof.
  intros (R1 & R2 & R3 & R4 & R5).
  destruct (addPart_outcome now request db)
    as [[-> _]|(m & id & pid & n & mode & part & Hp & Hid & _ & _ & _ & _ & _
                & Hpart & _ & Hadd)];
    [exact (conj R1 (conj R2 (conj R3 (conj R4 R5))))|].
  destruct (addPart_repair_on_record now request db)
    as (m' & id' & r & Hp' & Hid' & Hr).
  { cbv zeta in Hadd. rewrite Hadd. reflexivity. }
  rewrite Hp in Hp'. injection Hp' as <-.
  rewrite Hid in Hid'. injection Hid' as <-.
  cbv zeta in Hadd. rewrite Hadd. unfold references_hold.
  cbn [snd parts repair_parts with_parts with_repair_parts].
  rewrite map_part_id_set.
  refine (conj _ (conj R2 (conj R3 (conj R4 R5)))).
  intros u Hu. apply in_app_or in Hu as [Hu|[<-|[]]]; [apply R1, Hu|].
  simpl. split.
  - exact (found_by_id repair_id id _ r Hr).
  - exact (found_by_id part_id pid _ part Hpart).
Qed.

Lemma removePart_keeps_references request db :
  references_hold db -> references_hold (snd (removePart d1 request db)).
Proof.
  intros (R1 & R2 & R3 & R4 & R5).
  destruct (removePart_effect request db)
    as [[-> _]|(m & id & pid' & u & _ & _ & _ & _ & ->)];
    [exact (conj R1 (conj R2 (conj R3 (conj R4 R5))))|].
  unfold references_hold.
  cbn [snd parts repair_parts with_parts with_repair_parts].
  rewrite map_part_id_set.
  refine (conj _ (conj R2 (conj R3 (conj R4 R5)))).
  intros x Hx. apply filter_In in Hx as [Hx _]. apply R1, Hx.
Qed.

Lemma deleteRepair_keeps_references request db :
  references_hold db -> references_hold (snd (deleteRepair d1 request db)).
Proof.
  intros (R1 & R2 & R3 & R4 & R5).
  destruct (deleteRepair_outcome request db) as [[-> _]|(m & _ & Hnone & ->)];
    [exact (conj R1 (conj R2 (conj R3 (conj R4 R5))))|].
  set (us := List.filter (fun u => sql_eq (rp_repair_id u) (m !! "id"))
               (repair_parts db)).
  destruct (credit_parts_frame us db)
    as (Ha & Hc & Hr & Hrp & Hs & Hb & Hi & _).
  unfold references_hold.
  cbn [snd parts accessories customers repairs repair_parts accessory_sales
       bills bill_items with_repairs with_repair_parts].
  rewrite map_part_id_credit, Ha, Hc, Hr, Hrp, Hs, Hb, Hi.
  refine (conj _ (conj R2 (conj _ (conj _ R5)))).
  - intros u Hu. apply filter_In in Hu as [Hu Hne].
    apply negb_true_iff in Hne. destruct (R1 u Hu) as [Hrep Hpart].
    split; [|exact Hpart]. apply In_map_filter_other; assumption.
  - intros r Hin. apply filter_In in Hin as [Hin _]. apply R3, Hin.
  - intros b Hin. destruct (R4 b Hin) as [Hcust Hrep].
    split; [exact Hcust|]. intros id Hid.
    apply In_map_filter_other; [exact (Hrep id Hid)|].
    assert (Hk : bill_of_repair (m !! "id") b = false).
    { destruct (bill_of_repair (m !! "id") b) eqn:E; [|reflexivity].
      assert (H : In b (List.filter (bill_of_repair (m !! "id")) (bills db)))
        by (apply filter_In; split; assumption).
      rewrite Hnone in H. destruct H. }
    unfold bill_of_repair in Hk. rewrite Hid in Hk. exact Hk.
Qed.

Lemma existsb_Zeqb_In x l : existsb (Z.eqb x) l = true -> In x l.
Proof.
  intros H. apply existsb_exists in H as (y & Hy & Heq).
  apply Z.eqb_eq in Heq. subst y. exact Hy.
Qed.

Lemma add_bill_items_frame its db :
  parts (add_bill_items its db) = parts db /\
  accessories (add_bill_items its db) = accessories db /\
  customers (add_bill_items its db) = customers db /\
  repairs (add_bill_items its db) = repairs db /\
  repair_parts (add_bill_items its db) = repair_parts db /\
  accessory_sales (add_bill_items its db) = accessory_sales db.
Proof.
  revert db. induction its as [|i its IH]; intros db; [repeat split|].
  unfold add_bill_items in *. cbn [fold_left].
  destruct (IH (add_bill_item i db)) as (H1 & H2 & H3 & H4 & H5 & H6).
  rewrite H1, H2, H3, H4, H5, H6. repeat split.
Qed.

Lemma generateBillFromRepair_keeps_references billNumber request db :
  references_hold db ->
  references_hold (snd (generateBillFromRepair d1 billNumber request db)).
Proof.
  intros (R1 & R2 & R3 & R4 & R5).
  destruct (generateBillFromRepair_outcome billNumber request db)
    as [[-> _]|(m & id & repair & u & _ & _ & Hrepair & _ & _ & _ & _ & Hout)];
    [exact (conj R1 (conj R2 (conj R3 (conj R4 R5))))|].
  cbv zeta in Hout. rewrite Hout. cbn [snd].
  unfold billable_repair in Hrepair. apply find_some in Hrepair as [Hin Hfound].
  apply andb_true_iff in Hfound as [Hrid Hcust].
  apply Z.eqb_eq in Hrid. apply existsb_Zeqb_In in Hcust.
  unfold references_hold.
  rewrite add_bill_items_bills, add_bill_items_bill_items.
  match goal with
  | |- context [add_bill_items ?its (add_bill ?b db)] =>
      destruct (add_bill_items_frame its (add_bill b db))
        as (-> & -> & -> & -> & -> & ->)
  end.
  cbn [parts accessories customers repairs repair_parts accessory_sales bills
       bill_items add_bill].
  refine (conj R1 (conj R2 (conj R3 (conj _ _)))).
  - intros b Hb. apply in_app_or in Hb as [Hb|[<-|[]]]; [apply R4, Hb|].
    simpl. split; [exact Hcust|]. intros id' Hid'. injection Hid' as <-.
    rewrite <- Hrid. apply in_map, Hin.
  - intros i Hi. rewrite map_app. apply in_or_app.
    apply in_app_or in Hi as [Hi|Hi]; [left; apply R5, Hi|].
    right. left. simpl.
    pose proof (items_of_usages_bill_id (seq_bills db + 1) (seq_bill_items db)
                  (billable_usages db id)) as Hall.
    rewrite Forall_forall in Hall. symmetry. apply Hall, list_elem_of_In, Hi.
Qed.

Lemma cart_lines_keep_references billId sold_by items :
  forall db db',
    references_hold db -> In billId (map bill_id (bills db)) ->
    for_each items (bill_cart_line d1 billId sold_by) db = Normal tt db' ->
    references_hold db'.
Proof.
  induction items as [|item rest IH]; intros db db' Href Hbill Hloop.
  - simpl in Hloop. injection Hloop as <-. exact Href.
  - simpl in Hloop. unfold mbind at 1, bill_cart_line at 1 in Hloop.
    unfold first_accessory, mbind at 1 2, bind_value, ret at 1, gets in Hloop.
    cbn beta iota delta [sql_eq] in Hloop.
    destruct (List.find _ (accessories db)) as [a|] eqn:Ha; [|discriminate].
    unfold insert_bill_item, update_accessory_quantity, insert_accessory_sale,
      mbind at 1 2 3 4 5, bind_value, modify, ret in Hloop.
    cbn beta iota in Hloop.
    match type of Hloop with
    | for_each rest _ ?d = _ => apply (IH d db'); [| |exact Hloop]
    end.
    + destruct Href as (R1 & R2 & R3 & R4 & R5). unfold references_hold.
      cbn [parts accessories customers repairs repair_parts accessory_sales
           bills bill_items add_accessory_sale with_accessories add_bill_item].
      rewrite map_accessory_id_set.
      refine (conj R1 (conj _ (conj R3 (conj R4 _)))).
      * intros s Hs. apply in_app_or in Hs as [Hs|[<-|[]]]; [apply R2, Hs|].
        simpl. exact (found_by_id accessory_id _ _ a Ha).
      * intros i Hi. apply in_app_or in Hi as [Hi|[<-|[]]]; [apply R5, Hi|].
        simpl. exact Hbill.
    + exact Hbill.
Qed.

Lemma generateAccessoryBill_keeps_references billNumber request db :
  references_hold db ->
  references_hold (snd (generateAccessoryBill d1 billNumber request db)).
Proof.
  intros Href.
  remember (generateAccessoryBill d1 billNumber request db) as out eqn:E.
  unfold generateAccessoryBill, try_catch in E.
  destruct (cb_items (json request)) as [items|] eqn:Hitems;
    [|subst out; exact Href].
  cbv zeta in E.
  destruct (cb_customer_id (json request)) as [cid|] eqn:Hcid;
    [|subst out; exact Href].
  destruct (negb (truthyZ (Some cid)) || (length items =? 0)%nat);
    [subst out; exact Href|].
  unfold mbind at 1, first_customer, mbind at 1, bind_value, gets, ret in E.
  cbn beta iota delta [sql_eq] in E.
  destruct (List.find _ (customers db)) as [c|] eqn:Hc; [|subst out; exact Href].
  apply find_some in Hc as [Hcin Hceq]. apply Z.eqb_eq in Hceq. subst c.
  unfold mbind at 1 in E.
  destruct (verify_cart_outcome items db) as [r [Hv Hok]]. rewrite Hv in E.
  destruct r as [response|]; [subst out; exact Href|].
  unfold mbind at 1 in E.
  destruct (cart_subtotal_outcome items 0%Q db) as [Ht|[subtotal Hs]].
  { rewrite Ht in E. subst out; exact Href. }
  rewrite Hs in E. unfold transaction, user_id_of, mbind at 1 in E.
  destruct (user request) as [u|] eqn:Hu; [|subst out; exact Href].
  unfold ret at 1, mbind at 1, insert_bill in E.
  destruct (existsb _ (bills db)) eqn:Hfresh; [subst out; exact Href|].
  unfold mbind at 1 in E.
  match type of E with
  | context [for_each items ?body ?d] =>
      destruct (for_each items body d) as [[] dbL'|dbL'] eqn:Hloop
  end; [|subst out; exact Href].
  subst out. cbn [snd ret].
  apply (cart_lines_keep_references _ _ _ _ _ ) in Hloop; [exact Hloop| |].
  - destruct Href as (R1 & R2 & R3 & R4 & R5). unfold references_hold.
    cbn [parts accessories customers repairs repair_parts accessory_sales
         bills bill_items add_bill].
    refine (conj R1 (conj R2 (conj R3 (conj _ _)))).
    + intros b Hb. apply in_app_or in Hb as [Hb|[<-|[]]]; [apply R4, Hb|].
      simpl. split; [exact Hcin|]. intros id' Hid'. discriminate Hid'.
    + intros i Hi. rewrite map_app. apply in_or_app. left. apply R5, Hi.
  - cbn [bills add_bill]. rewrite map_app. apply in_or_app. right. left.
    reflexivity.
Qed.

Lemma updatePayment_keeps_references request db :
  references_hold db -> references_hold (snd (updatePayment d1 request db)).
Proof.
  intros (R1 & R2 & R3 & R4 & R5).
  destruct (updatePayment_outcome request db)
    as [[-> _]|(m & id & s & b & _ & _ & _ & _ & _ & ->)];
    [exact (conj R1 (conj R2 (conj R3 (conj R4 R5))))|].
  unfold references_hold. cbn [snd bills with_bills].
  rewrite map_bill_id_set.
  refine (conj R1 (conj R2 (conj R3 (conj _ R5)))).
  intros b' Hb'. apply In_set_payment in Hb' as (b0 & Hin & Heq).
  unfold amounts_of in Heq. injection Heq as _ Hrep Hcust _ _ _ _ _.
  rewrite Hrep, Hcust. apply R4, Hin.
Qed.

Lemma deleteBill_keeps_references request db :
  references_hold db -> references_hold (snd (deleteBill d1 request db)).
Proof.
  intros (R1 & R2 & R3 & R4 & R5).
  destruct (deleteBill_outcome request db)
    as [[-> _]|(m & id & b & _ & _ & _ & ->)];
    [exact (conj R1 (conj R2 (conj R3 (conj R4 R5))))|].
  unfold references_hold. cbn [snd bills bill_items with_bills with_bill_items].
  refine (conj R1 (conj R2 (conj R3 (conj _ _)))).
  - intros b' Hb'. apply filter_In in Hb' as [Hb' _]. apply R4, Hb'.
  - intros i Hi. apply filter_In in Hi as [Hi Hne].
    apply negb_true_iff in Hne.
    exact (In_map_filter_other bill_id (Some id) _ _ (R5 i Hi) Hne).
Qed.

Lemma updateRepairStatus_keeps_references request db :
  references_hold db ->
  references_hold (snd (updateRepairStatus d1 request db)).
Proof.
  intros (R1 & R2 & R3 & R4 & R5).
  destruct (updateRepairStatus_outcome request db)
    as [[-> _]|(m & id & s & r & _ & _ & _ & _ & _ & ->)];
    [exact (conj R1 (conj R2 (conj R3 (conj R4 R5))))|].
  unfold references_hold. cbn [snd repairs with_repairs].
  rewrite map_repair_id_set.
  refine (conj R1 (conj R2 (conj _ (conj R4 R5)))).
  intros r' Hr'. apply In_set_repair_status in Hr' as (r0 & Hin & _ & Hcust).
  rewrite Hcust. apply R3, Hin.
Qed.

Lemma updateAccessory_keeps_references request db :
  references_hold db -> references_hold (snd (updateAccessory d1 request db)).
Proof.
  intros (R1 & R2 & R3 & R4 & R5).
  destruct (updateAccessory_outcome request db)
    as [[-> _]|(m & id & name & price & a & _ & _ & _ & _ & _ & _ & _ & ->)];
    [exact (conj R1 (conj R2 (conj R3 (conj R4 R5))))|].
  unfold references_hold. cbn [snd accessories with_accessories].
  rewrite map_accessory_id_overwritten.
  exact (conj R1 (conj R2 (conj R3 (conj R4 R5)))).
Qed.

Lemma map_part_id_overwritten quantity repair_price sealing_price k l :
  map part_id (set_part quantity repair_price sealing_price k l)
  = map part_id l.
Proof.
  induction l as [|p l IH]; simpl; [reflexivity|]. rewrite IH.
  destruct (sql_eq (part_id p) k); reflexivity.
Qed.

Lemma updatePart_keeps_references request db :
  references_hold db -> references_hold (snd (updatePart d1 request db)).
Proof.
  intros (R1 & R2 & R3 & R4 & R5).
  destruct (updatePart_outcome request db)
    as [[-> _]|(m & id & rp & sp & p & _ & _ & _ & _ & _ & ->)];
    [exact (conj R1 (conj R2 (conj R3 (conj R4 R5))))|].
  unfold references_hold. cbn [snd parts with_parts].
  rewrite map_part_id_overwritten.
  exact (conj R1 (conj R2 (conj R3 (conj R4 R5)))).
Qed.

Lemma deleteAccessory_keeps_references request db :
  references_hold db -> references_hold (snd (deleteAccessory d1 request db)).
Proof.
  intros (R1 & R2 & R3 & R4 & R5).
  destruct (deleteAccessory_outcome request db)
    as [[-> _]|(m & _ & Hnone & ->)];
    [exact (conj R1 (conj R2 (conj R3 (conj R4 R5))))|].
  unfold references_hold. cbn [snd accessories with_accessories].
  refine (conj R1 (conj _ (conj R3 (conj R4 R5)))).
  intros s Hs. apply In_map_filter_other; [apply R2, Hs|].
  exact (none_with_key sale_accessory_id _ _ s Hnone Hs).
Qed.

Lemma deletePart_keeps_references request db :
  references_hold db -> references_hold (snd (deletePart d1 request db)).
Proof.
  intros (R1 & R2 & R3 & R4 & R5).
  destruct (deletePart_outcome request db)
    as [[-> _]|(m & _ & Hnone & ->)];
    [exact (conj R1 (conj R2 (conj R3 (conj R4 R5))))|].
  unfold references_hold. cbn [snd parts with_parts].
  refine (conj _ (conj R2 (conj R3 (conj R4 R5)))).
  intros u Hu. destruct (R1 u Hu) as [Hrep Hpart]. split; [exact Hrep|].
  apply In_map_filter_other; [exact Hpart|].
  exact (none_with_key rp_part_id _ _ u Hnone Hu).
Qed.

Lemma In_filter_other k x l :
  In x l -> sql_eq x k = false ->
  In x (List.filter (fun c => negb (sql_eq c k)) l).
Proof.
  intros Hin Hne. apply filter_In. split; [exact Hin|]. rewrite Hne. reflexivity.
Qed.

Lemma deleteCustomer_keeps_references request db :
  references_hold db -> references_hold (snd (deleteCustomer d1 request db)).
Proof.
  intros (R1 & R2 & R3 & R4 & R5).
  destruct (deleteCustomer_outcome request db)
    as [[-> _]|(m & _ & Hrepairs & Hbills & ->)];
    [exact (conj R1 (conj R2 (conj R3 (conj R4 R5))))|].
  unfold references_hold. cbn [snd customers with_customers].
  refine (conj R1 (conj R2 (conj _ (conj _ R5)))).
  - intros r Hr. apply In_filter_other; [apply R3, Hr|].
    exact (none_with_key repair_customer_id _ _ r Hrepairs Hr).
  - intros b Hb. destruct (R4 b Hb) as [Hcust Hrep]. split; [|exact Hrep].
    apply In_filter_other; [exact Hcust|].
    exact (none_with_key bill_customer_id _ _ b Hbills Hb).
Qed.

Lemma serve_keeps_references call db :
  references_hold db -> references_hold (snd (serve d1 call db)).
Proof.
  destruct call as [[request|request|request|now request|request|request
                    |billNumber request|billNumber request]
                   |request|request|request|request|request|request|request
                   |request];
    cbn [serve perform].
  - apply adjustAccessoryQuantity_keeps_references.
  - apply adjustPartQuantity_keeps_references.
  - apply sellAccessory_keeps_references.
  - apply addPart_keeps_references.
  - apply removePart_keeps_references.
  - apply deleteRepair_keeps_references.
  - apply generateBillFromRepair_keeps_references.
  - apply generateAccessoryBill_keeps_references.
  - apply updatePayment_keeps_references.
  - apply deleteBill_keeps_references.
  - apply updateRepairStatus_keeps_references.
  - apply updateAccessory_keeps_references.
  - apply deleteAccessory_keeps_references.
  - apply updatePart_keeps_references.
  - apply deletePart_keeps_references.
  - apply deleteCustomer_keeps_references.
Qed.

(** X6. The handlers keep the references between the tables by their own
    checks.  In a database where every usage refers to a repair and a part
    on record, every sale to an accessory, every repair to a customer, every
    bill to a customer and to its repair, and every bill item to a bill,
    this is still so after any sequence of requests to the sixteen writing
    handlers: a row is only written after the rows it refers to were found,
    and a row is only deleted when nothing refers to it or together with
    what refers to it. *)
Theorem references_are_kept (calls : list Call) (db : Database) :
  references_hold db -> references_hold (serve_all d1 calls db).
Proof.
  revert db. induction calls as [|call calls IH]; intros db Href; [exact Href|].
  unfold serve_all in *. cbn [fold_left]. apply IH, serve_keeps_references, Href.
Qed.

(** *** Payments and statuses *)



Lemma In_set_repair_status_valid s k l r' :
  In s ["pending"; "in_progress"; "completed"; "cancelled"] ->
  (forall r, In r l ->
     In (repair_status r) ["pending"; "in_progress"; "completed"; "cancelled"]) ->
  In r' (set_repair_status s k l) ->
  In (repair_status r') ["pending"; "in_progress"; "completed"; "cancelled"].
Proof.
  intros Hs Hl H. unfold set_repair_status in H.
  apply in_map_iff in H as (r & Hr & Hin). subst r'.
  destruct (sql_eq (repair_id r) k); [exact Hs|apply Hl, Hin].
Qed.

Lemma serve_keeps_statuses call db :
  payment_statuses_valid db /\ repair_statuses_valid db ->
  payment_statuses_valid (snd (serve d1 call db)) /\
  repair_statuses_valid (snd (serve d1 call db)).
Proof.
  intros Hvalid.
  destruct call as [[request|request|request|now request|request|request
                    |billNumber request|billNumber request]
                   |request|request|request|request|request|request|request
                   |request];
    cbn [serve perform].
  - apply (adjustAccessoryQuantity_frame
             (fun d => payment_statuses_valid d /\ repair_statuses_valid d));
      [intros ? ? H; exact H | exact Hvalid].
  - apply (adjustPartQuantity_frame
             (fun d => payment_statuses_valid d /\ repair_statuses_valid d));
      [intros ? ? H; exact H | exact Hvalid].
  - apply (sellAccessory_frame
             (fun d => payment_statuses_valid d /\ repair_statuses_valid d));
      [intros ? ? H; exact H | intros ? ? H; exact H | exact Hvalid].
  - apply (addPart_frame
             (fun d => payment_statuses_valid d /\ repair_statuses_valid d));
      [intros ? ? H; exact H | intros ? ? ? H; exact H | exact Hvalid].
  - apply (removePart_frame
             (fun d => payment_statuses_valid d /\ repair_statuses_valid d));
      [intros ? ? H; exact H | intros ? ? ? H; exact H | exact Hvalid].
  - destruct Hvalid as [Hpay Hrep].
    destruct (deleteRepair_outcome request db) as [[-> _]|(m & _ & _ & ->)];
      [split; assumption|].
    unfold payment_statuses_valid, repair_statuses_valid.
    cbn [snd bills repairs with_repairs with_repair_parts].
    match goal with
    | |- context [credit_parts ?us db] =>
        destruct (credit_parts_frame us db) as (_ & _ & -> & _ & _ & -> & _)
    end.
    split; [exact Hpay|].
    intros r Hr. apply filter_In in Hr as [Hr _]. apply Hrep, Hr.
  - destruct Hvalid as [Hpay Hrep].
    destruct (generateBillFromRepair_outcome billNumber request db)
      as [[-> _]|(m & id & repair & u & _ & _ & _ & _ & _ & _ & _ & Hout)];
      [split; assumption|].
    cbv zeta in Hout. rewrite Hout. cbn [snd].
    unfold payment_statuses_valid, repair_statuses_valid.
    rewrite add_bill_items_bills.
    match goal with
    | |- context [add_bill_items ?its (add_bill ?b db)] =>
        destruct (add_bill_items_frame its (add_bill b db))
          as (_ & _ & _ & -> & _)
    end.
    cbn [bills repairs add_bill]. split; [|exact Hrep].
    intros b Hb. apply in_app_or in Hb as [Hb|[<-|[]]]; [apply Hpay, Hb|].
    left. reflexivity.
  - destruct Hvalid as [Hpay Hrep]. split.
    + destruct (generateAccessoryBill_outcome billNumber request db)
        as [[-> _]|(items & cid & u & subtotal & its & _ & _ & _ & _ & _
                    & Hb & _)];
        [exact Hpay|].
      cbv zeta in Hb. unfold payment_statuses_valid. rewrite Hb.
      intros b Hin. apply in_app_or in Hin as [Hin|[<-|[]]]; [apply Hpay, Hin|].
      left. reflexivity.
    + apply (generateAccessoryBill_frame repair_statuses_valid);
        [intros ? ? H; exact H | intros ? ? H; exact H | intros ? ? H; exact H
         | intros ? ? H; exact H | exact Hrep].
  - destruct Hvalid as [Hpay Hrep].
    destruct (updatePayment_outcome request db)
      as [[-> _]|(m & id & s & b & _ & _ & _ & Hin & _ & ->)];
      [split; assumption|].
    split; [|exact Hrep].
    unfold payment_statuses_valid. cbn [snd bills with_bills].
    intros b' Hb'. unfold set_payment in Hb'.
    apply in_map_iff in Hb' as (b0 & Hb0 & Hin0). subst b'.
    destruct (sql_eq (bill_id b0) (Some id)); [exact Hin|apply Hpay, Hin0].
  - destruct Hvalid as [Hpay Hrep].
    destruct (deleteBill_outcome request db)
      as [[-> _]|(m & id & b & _ & _ & _ & ->)];
      [split; assumption|].
    split; [|exact Hrep].
    unfold payment_statuses_valid. cbn [snd bills with_bills with_bill_items].
    intros b' Hb'. apply filter_In in Hb' as [Hb' _]. apply Hpay, Hb'.
  - destruct Hvalid as [Hpay Hrep].
    destruct (updateRepairStatus_outcome request db)
      as [[-> _]|(m & id & s & r & _ & _ & _ & Hin & _ & ->)];
      [split; assumption|].
    split; [exact Hpay|].
    unfold repair_statuses_valid. cbn [snd repairs with_repairs].
    intros r' Hr'. exact (In_set_repair_status_valid s _ _ r' Hin Hrep Hr').
  - apply (updateAccessory_frame
             (fun d => payment_statuses_valid d /\ repair_statuses_valid d));
      [intros ? ? H; exact H | exact Hvalid].
  - apply (deleteAccessory_frame
             (fun d => payment_statuses_valid d /\ repair_statuses_valid d));
      [intros ? ? H; exact H | exact Hvalid].
  - apply (updatePart_frame
             (fun d => payment_statuses_valid d /\ repair_statuses_valid d));
      [intros ? ? H; exact H | exact Hvalid].
  - apply (deletePart_frame
             (fun d => payment_statuses_valid d /\ repair_statuses_valid d));
      [intros ? ? H; exact H | exact Hvalid].
  - apply (deleteCustomer_frame
             (fun d => payment_statuses_valid d /\ repair_statuses_valid d));
      [intros ? ? H; exact H | exact Hvalid].
Qed.

(** X8. The two status columns stay within the values schema.sql allows
    for them: if every bill's payment status is pending, paid or partial and
    every repair's status is pending, in_progress, completed or cancelled,
    this is still so after any sequence of requests; a bill is written as
    pending, and the two status updates accept a listed value only. *)
Theorem statuses_stay_valid (calls : list Call) (db : Database) :
  payment_statuses_valid db -> repair_statuses_valid db ->
  payment_statuses_valid (serve_all d1 calls db) /\
  repair_statuses_valid (serve_all d1 calls db).
Proof.
  revert db. induction calls as [|call calls IH]; intros db Hpay Hrep;
    [split; assumption|].
  unfold serve_all in *. cbn [fold_left].
  destruct (serve_keeps_statuses call db (conj Hpay Hrep)) as [Hpay' Hrep'].
  apply IH; assumption.
Qed.

(** *** Deleting a bill *)

Lemma filter_filter_other (id id' : Z) l :
  id' <> id ->
  List.filter (fun i => bi_bill_id i =? id')
    (List.filter (fun i => negb (bi_bill_id i =? id)) l)
  = List.filter (fun i => bi_bill_id i =? id') l.
Proof.
  intros Hne. induction l as [|i l IH]; simpl; [reflexivity|].
  destruct (bi_bill_id i =? id) eqn:E; simpl.
  - apply Z.eqb_eq in E.
    replace (bi_bill_id i =? id') with false
      by (symmetry; apply Z.eqb_neq; lia).
    exact IH.
  - rewrite IH. reflexivity.
Qed.

Lemma deleteBill_not_found (request : Request unit) db m id :
  params request = Some m -> m !! "id" = Some id ->
  (forall b, In b (bills db) -> bill_id b <> id) ->
  deleteBill d1 request db = (createError "Bill not found" 404, db).
Proof.
  intros Hp Hid Hnone.
  unfold deleteBill, try_catch, param, mbind at 1, ret at 1. rewrite Hp, Hid.
  unfold first_bill, mbind, bind_value, gets, ret.
  cbn beta iota delta [sql_eq].
  destruct (List.find _ (bills db)) as [b|] eqn:Hb; [|reflexivity].
  apply find_some in Hb as [Hin Hb]. apply Z.eqb_eq in Hb.
  exfalso. exact (Hnone b Hin Hb).
Qed.

(** X9. Deleting a bill deletes the bill and its items and nothing else.
    Whatever the request, parts, accessories, customers, repairs, usages and
    sales are what they were, so nothing goes back on the shelf and the
    sales of a cart bill stay on record; a bill id that is not on record is
    answered 404; and when the deletion succeeds no bill and no item with
    the id is left, while every other bill stays with the items it had. *)
Theorem deleteBill_deletes_bill_and_items
    (request : Request unit) (db : Database) :
  (parts (snd (deleteBill d1 request db)) = parts db /\
   accessories (snd (deleteBill d1 request db)) = accessories db /\
   customers (snd (deleteBill d1 request db)) = customers db /\
   repairs (snd (deleteBill d1 request db)) = repairs db /\
   repair_parts (snd (deleteBill d1 request db)) = repair_parts db /\
   accessory_sales (snd (deleteBill d1 request db)) = accessory_sales db) /\
  (forall m id,
     params request = Some m -> m !! "id" = Some id ->
     (forall b, In b (bills db) -> bill_id b <> id) ->
     deleteBill d1 request db = (createError "Bill not found" 404, db)) /\
  (status (fst (deleteBill d1 request db)) = 200 ->
   exists m id,
     params request = Some m /\ m !! "id" = Some id /\
     (forall b, In b (bills (snd (deleteBill d1 request db))) -> bill_id b <> id) /\
     (forall i, In i (bill_items (snd (deleteBill d1 request db))) ->
        bi_bill_id i <> id) /\
     (forall b, bill_id b <> id ->
        (In b (bills (snd (deleteBill d1 request db))) <-> In b (bills db)) /\
        items_of (snd (deleteBill d1 request db)) b = items_of db b)).
Proof.
  split; [|split].
  - repeat split.
    + apply (deleteBill_frame (fun d => parts d = parts db));
        [intros ? ? H; exact H | intros ? ? H; exact H | reflexivity].
    + apply (deleteBill_frame (fun d => accessories d = accessories db));
        [intros ? ? H; exact H | intros ? ? H; exact H | reflexivity].
    + apply (deleteBill_frame (fun d => customers d = customers db));
        [intros ? ? H; exact H | intros ? ? H; exact H | reflexivity].
    + apply (deleteBill_frame (fun d => repairs d = repairs db));
        [intros ? ? H; exact H | intros ? ? H; exact H | reflexivity].
    + apply (deleteBill_frame (fun d => repair_parts d = repair_parts db));
        [intros ? ? H; exact H | intros ? ? H; exact H | reflexivity].
    + apply (deleteBill_frame (fun d => accessory_sales d = accessory_sales db));
        [intros ? ? H; exact H | intros ? ? H; exact H | reflexivity].
  - intros m id. apply deleteBill_not_found.
  - intros Hok.
    destruct (deleteBill_outcome request db)
      as [[_ Hno]|(m & id & b & Hp & Hid & _ & Hout)]; [contradiction|].
    exists m, id. rewrite Hout.
    cbn [snd bills bill_items with_bills with_bill_items].
    split; [exact Hp|]. split; [exact Hid|]. split; [|split].
    + intros b' Hb'. apply filter_In in Hb' as [_ Hne].
      apply negb_true_iff, Z.eqb_neq in Hne. exact Hne.
    + intros i Hi. apply filter_In in Hi as [_ Hne].
      apply negb_true_iff, Z.eqb_neq in Hne. exact Hne.
    + intros b' Hne. split.
      * rewrite filter_In. split; [intros [H _]; exact H|].
        intros H. split; [exact H|].
        apply negb_true_iff, Z.eqb_neq, Hne.
      * unfold items_of. cbn [bill_items with_bills with_bill_items].
        apply filter_filter_other, Hne.
Qed.

(** When the handler succeeds. *)
Lemma generateBillFromRepair_succeeds billNumber (request : Request BillBody)
    db m id repair u :
  params request = Some m -> m !! "id" = Some id ->
  billable_repair db id = Some repair ->
  repair_status repair = "completed" ->
  List.find (bill_of_repair (Some id)) (bills db) = None ->
  billable_usages db id <> [] ->
  user request = Some u ->
  existsb (fun b => String.eqb (bill_number b) billNumber) (bills db) = false ->
  fst (generateBillFromRepair d1 billNumber request db)
  = createSuccess "Bill generated successfully".
Proof.
  intros Hp Hid Hr Hst Hnone Hus Hu Hfresh.
  unfold billable_repair, billable_usages in *.
  unfold generateBillFromRepair, try_catch, param, mbind, ret.
  rewrite Hp, Hid.
  unfold first_repair_with_customer, first_bill_of_repair, repair_parts_of,
    mbind, bind_value, gets, ret. cbn beta iota delta [sql_eq].
  rewrite Hr, Hst, String.eqb_refl. cbn beta iota delta [negb].
  rewrite Hnone.
  destruct (List.filter _ (repair_parts db)) as [|u0 us] eqn:Hfilter;
    [contradiction|].
  cbn [length Nat.eqb].
  unfold transaction, user_id_of, mbind, insert_bill, ret.
  rewrite Hu, Hfresh. rewrite for_each_insert_bill_items. reflexivity.
Qed.

(** X10. Deleting the bill that was just generated for a repair undoes the
    generation: in a database whose bills and bill items are numbered up to
    the bills counter, a successful generation followed by the deletion of
    the new bill leaves every table as it was before (the counters have
    advanced), and the repair can then be billed again. *)
Theorem deleteBill_undoes_generateBillFromRepair
    (billNumber : string) (bill : Request BillBody) (remove : Request unit)
    (db : Database) (m : gmap string Z) :
  (forall b, In b (bills db) -> bill_id b <= seq_bills db) ->
  (forall i, In i (bill_items db) -> bi_bill_id i <= seq_bills db) ->
  params remove = Some m -> m !! "id" = Some (seq_bills db + 1) ->
  status (fst (generateBillFromRepair d1 billNumber bill db)) = 200 ->
  let billed := snd (generateBillFromRepair d1 billNumber bill db) in
  let after := snd (deleteBill d1 remove billed) in
  status (fst (deleteBill d1 remove billed)) = 200 /\
  bills after = bills db /\ bill_items after = bill_items db /\
  parts after = parts db /\ accessories after = accessories db /\
  customers after = customers db /\ repairs after = repairs db /\
  repair_parts after = repair_parts db /\
  accessory_sales after = accessory_sales db /\
  status (fst (generateBillFromRepair d1 billNumber bill after)) = 200.
Proof.
  intros Hbills Hitems Hp Hid Hok billed after.
  destruct (generateBillFromRepair_outcome billNumber bill db)
    as [[_ Hno]|(mb & id & repair & u & Hpb & Hidb & Hrepair & Hst & Hnone
                 & Hus & Hu & Hout)];
    [contradiction|].
  cbv zeta in Hout.
  assert (Hfresh : existsb (fun b => String.eqb (bill_number b) billNumber)
                     (bills db) = false).
  { destruct (existsb _ (bills db)) eqn:E; [|reflexivity]. exfalso.
    revert Hok. unfold generateBillFromRepair, try_catch, param, mbind, ret.
    rewrite Hpb, Hidb.
    unfold first_repair_with_customer, first_bill_of_repair, repair_parts_of,
      mbind, bind_value, gets, ret. cbn beta iota delta [sql_eq].
    unfold billable_repair in Hrepair. rewrite Hrepair, Hst, String.eqb_refl.
    cbn beta iota delta [negb]. rewrite Hnone.
    unfold billable_usages in Hus.
    destruct (List.filter _ (repair_parts db)); [contradiction|].
    cbn [length Nat.eqb].
    unfold transaction, user_id_of, mbind, insert_bill, ret.
    rewrite Hu, E. discriminate. }
  assert (Hbilled_bills : bills billed = bills db ++
            [{| bill_id := seq_bills db + 1; bill_repair_id := Some id;
                bill_customer_id := repair_customer_id repair;
                bill_number := billNumber;
                bill_subtotal :=
                  fold_left (fun sum part => (sum + rp_total_price part)%Q)
                    (billable_usages db id) 0%Q;
                bill_tax_amount :=
                  tax_of (fold_left (fun sum part => (sum + rp_total_price part)%Q)
                            (billable_usages db id) 0%Q)
                    (default 0%Q (bb_tax_rate (json bill)));
                bill_total_amount :=
                  (fold_left (fun sum part => (sum + rp_total_price part)%Q)
                     (billable_usages db id) 0%Q
                   + tax_of (fold_left (fun sum part => (sum + rp_total_price part)%Q)
                               (billable_usages db id) 0%Q)
                       (default 0%Q (bb_tax_rate (json bill))))%Q;
                bill_payment_status := "pending";
                bill_payment_method := or_null (bb_payment_method (json bill));
                bill_created_by := user_id u |}]).
  { unfold billed. rewrite Hout. cbn [snd]. rewrite add_bill_items_bills.
    reflexivity. }
  assert (Hbilled_items : bill_items billed = bill_items db ++
            items_of_usages (seq_bills db + 1) (seq_bill_items db)
              (billable_usages db id)).
  { unfold billed. rewrite Hout. cbn [snd].
    rewrite add_bill_items_bill_items. reflexivity. }
  assert (Hframe : parts billed = parts db /\ accessories billed = accessories db
                   /\ customers billed = customers db
                   /\ repairs billed = repairs db
                   /\ repair_parts billed = repair_parts db
                   /\ accessory_sales billed = accessory_sales db).
  { unfold billed. rewrite Hout. cbn [snd].
    match goal with
    | |- context [add_bill_items ?its (add_bill ?b db)] =>
        exact (add_bill_items_frame its (add_bill b db))
    end. }
  destruct Hframe as (Fp & Fa & Fc & Fr & Fu & Fs).
  destruct (deleteBill_outcome remove billed)
    as [[_ Hno]|(m' & id' & b' & Hp' & Hid' & _ & Hdel)].
  { exfalso. apply Hno.
    unfold deleteBill, try_catch, param, mbind at 1, ret at 1. rewrite Hp, Hid.
    unfold first_bill, mbind at 1 2, bind_value, ret at 1, gets.
    cbn beta iota delta [sql_eq]. rewrite Hbilled_bills.
    rewrite find_app_first.
    destruct (List.find (fun b => bill_id b =? seq_bills db + 1) (bills db))
      as [b0|]; [reflexivity|].
    cbn [List.find bill_id]. rewrite Z.eqb_refl. reflexivity. }
  rewrite Hp in Hp'. injection Hp' as <-.
  rewrite Hid in Hid'. injection Hid' as <-.
  assert (Hafter_bills : bills after = bills db).
  { unfold after. rewrite Hdel.
    cbn [snd bills with_bills with_bill_items]. rewrite Hbilled_bills.
    rewrite List.filter_app. cbn [List.filter bill_id]. rewrite Z.eqb_refl.
    cbn [negb]. rewrite app_nil_r. apply filter_keeps_all.
    intros b Hb. apply negb_true_iff, Z.eqb_neq. specialize (Hbills b Hb). lia. }
  assert (Hafter_items : bill_items after = bill_items db).
  { unfold after. rewrite Hdel.
    cbn [snd bill_items with_bills with_bill_items]. rewrite Hbilled_items.
    rewrite List.filter_app.
    rewrite (filter_drops_all _ (items_of_usages _ _ _)).
    - rewrite app_nil_r. apply filter_keeps_all.
      intros i Hi. apply negb_true_iff, Z.eqb_neq. specialize (Hitems i Hi). lia.
    - intros i Hi. apply negb_false_iff, Z.eqb_eq.
      pose proof (items_of_usages_bill_id (seq_bills db + 1) (seq_bill_items db)
                    (billable_usages db id)) as Hall.
      rewrite Forall_forall in Hall. apply Hall, list_elem_of_In, Hi. }
  assert (Hafter : parts after = parts db /\ accessories after = accessories db
                   /\ customers after = customers db
                   /\ repairs after = repairs db
                   /\ repair_parts after = repair_parts db
                   /\ accessory_sales after = accessory_sales db).
  { unfold after. rewrite Hdel.
    cbn [snd parts accessories customers repairs repair_parts accessory_sales
         with_bills with_bill_items].
    repeat split; assumption. }
  destruct Hafter as (Ap & Aa & Ac & Ar & Au & As).
  split; [rewrite Hdel; reflexivity|].
  repeat (split; [assumption|]).
  rewrite (generateBillFromRepair_succeeds billNumber bill after mb id repair u);
    try assumption; try reflexivity.
  - unfold billable_repair in *. rewrite Ar, Ac. exact Hrepair.
  - rewrite Hafter_bills. exact Hnone.
  - unfold billable_usages in *. rewrite Au, Ap. exact Hus.
  - rewrite Hafter_bills. exact Hfresh.
Qed.

(** *** The status of a repair *)

Lemma map_repair_keys_set s k l :
  map (fun r => (repair_id r, repair_customer_id r)) (set_repair_status s k l)
  = map (fun r => (repair_id r, repair_customer_id r)) l.
Proof.
  induction l as [|r l IH]; simpl; [reflexivity|]. rewrite IH.
  destruct (sql_eq (repair_id r) k); reflexivity.
Qed.

(** X11. A status update writes the status of the repair and nothing
    else: whatever the request, no other table changes (the usages of a
    repair set to cancelled stay, and so does the stock of their parts) and
    the repairs keep their ids and customers; a status other than pending,
    in_progress, completed or cancelled is refused; and when the update
    succeeds the repairs with the id carry the status sent, the others being
    rows of the table as it was.  No transition is refused: any of the four
    values can follow any other. *)
Theorem status_update_writes_status_only
    (request : Request StatusBody) (db : Database) :
  (exists rs,
     snd (updateRepairStatus d1 request db) = with_repairs (fun _ => rs) db /\
     map (fun r => (repair_id r, repair_customer_id r)) rs
     = map (fun r => (repair_id r, repair_customer_id r)) (repairs db)) /\
  (~ In (default "" (stb_status (json request)))
        ["pending"; "in_progress"; "completed"; "cancelled"] ->
   status (fst (updateRepairStatus d1 request db)) <> 200) /\
  (forall m id r,
     params request = Some m -> m !! "id" = Some id ->
     In r (repairs db) -> repair_id r = id ->
     In (default "" (stb_status (json request)))
        ["pending"; "in_progress"; "completed"; "cancelled"] ->
     fst (updateRepairStatus d1 request db)
       = createSuccess "Repair status updated successfully" /\
     forall r', In r' (repairs (snd (updateRepairStatus d1 request db))) ->
       (repair_id r' = id ->
        Some (repair_status r') = stb_status (json request)) /\
       (repair_id r' <> id -> In r' (repairs db))).
Proof.
  split; [|split].
  - destruct (updateRepairStatus_outcome request db)
      as [[Hdb _]|(m & id & s & r & _ & _ & _ & _ & _ & Hout)].
    + exists (repairs db). rewrite Hdb. split; [|reflexivity].
      symmetry. apply with_repairs_same. reflexivity.
    + rewrite Hout. cbn [snd]. eexists. split; [reflexivity|].
      apply map_repair_keys_set.
  - intros Hbad.
    destruct (updateRepairStatus_outcome request db)
      as [[_ Hno]|(m & id & s & r & _ & _ & Hs & Hin & _ & _)]; [exact Hno|].
    exfalso. apply Hbad. rewrite Hs. exact Hin.
  - intros m id r Hp Hid Hin Hrid Hvalid.
    assert (Hout : updateRepairStatus d1 request db
                   = (createSuccess "Repair status updated successfully",
                      with_repairs
                        (set_repair_status (default "" (stb_status (json request)))
                           (Some id)) db)).
    { unfold updateRepairStatus, try_catch, param, mbind at 1, ret at 1.
      rewrite Hp, Hid. cbv zeta.
      destruct (stb_status (json request)) as [s|] eqn:Hs.
      2:{ exfalso. simpl in Hvalid.
          destruct Hvalid as [H|[H|[H|[H|[]]]]]; discriminate H. }
      cbn [default from_option] in Hvalid |- *.
      assert (Hne : s <> "").
      { intros ->. simpl in Hvalid.
        destruct Hvalid as [H|[H|[H|[H|[]]]]]; discriminate H. }
      unfold truthyS. rewrite (proj2 (String.eqb_neq s "") Hne).
      cbn [negb].
      assert (Hinc : includes ["pending"; "in_progress"; "completed"; "cancelled"]
                       (Some s) = true).
      { unfold includes. apply existsb_exists. exists s.
        split; [exact Hvalid|]. simpl. apply String.eqb_refl. }
      rewrite Hinc. cbn [negb].
      unfold first_repair, update_repair_status, mbind, bind_value, gets,
        modify, ret. cbn beta iota delta [sql_eq].
      destruct (List.find _ (repairs db)) as [r0|] eqn:Hfind; [reflexivity|].
      exfalso. apply (find_none _ _ Hfind) in Hin.
      apply Z.eqb_neq in Hin. contradiction. }
    rewrite Hout. cbn [fst snd repairs with_repairs]. split; [reflexivity|].
    intros r' Hr'. unfold set_repair_status in Hr'.
    apply in_map_iff in Hr' as (r0 & Hr0 & Hin0). subst r'.
    cbn [sql_eq]. destruct (repair_id r0 =? id) eqn:E.
    + cbn [repair_id repair_status]. split.
      * intros _. destruct (stb_status (json request)) as [s|]; [reflexivity|].
        exfalso. simpl in Hvalid.
        destruct Hvalid as [H|[H|[H|[H|[]]]]]; discriminate H.
      * intros Hne. apply Z.eqb_eq in E. contradiction.
    + split; [|intros _; exact Hin0].
      intros Heq. apply Z.eqb_neq in E. contradiction.
Qed.

(** X12. Only a completed repair is billed.  After a status update that
    sets a repair to a status other than completed, a request to bill that
    repair writes nothing and is not answered 200; when the repair is found
    with its customer the answer is "Cannot generate bill for incomplete
    repair". *)
Theorem incomplete_repair_is_not_billed
    (billNumber : string) (update : Request StatusBody)
    (bill : Request BillBody) (db : Database)
    (mu mb : gmap string Z) (id : Z) (s : string) :
  params update = Some mu -> mu !! "id" = Some id ->
  stb_status (json update) = Some s -> s <> "completed" ->
  params bill = Some mb -> mb !! "id" = Some id ->
  status (fst (updateRepairStatus d1 update db)) = 200 ->
  let updated := snd (updateRepairStatus d1 update db) in
  snd (generateBillFromRepair d1 billNumber bill updated) = updated /\
  status (fst (generateBillFromRepair d1 billNumber bill updated)) <> 200 /\
  (forall repair,
     billable_repair updated id = Some repair ->
     fst (generateBillFromRepair d1 billNumber bill updated)
     = createError "Cannot generate bill for incomplete repair" 400).
Proof.
  intros Hpu Hidu Hs Hne Hpb Hidb Hok updated.
  destruct (updateRepairStatus_outcome update db)
    as [[_ Hno]|(m' & id' & s' & r & Hp' & Hid' & Hs' & _ & _ & Hout)];
    [contradiction|].
  rewrite Hpu in Hp'. injection Hp' as <-.
  rewrite Hidu in Hid'. injection Hid' as <-.
  rewrite Hs in Hs'. injection Hs' as <-.
  assert (Hstatus : forall repair,
            billable_repair updated id = Some repair ->
            repair_status repair = s).
  { intros repair Hr. unfold billable_repair, updated in Hr. rewrite Hout in Hr.
    cbn [snd repairs with_repairs] in Hr.
    apply find_some in Hr as [Hin Hfound].
    apply andb_true_iff in Hfound as [Hrid _].
    unfold set_repair_status in Hin.
    apply in_map_iff in Hin as (r0 & Hr0 & _). subst repair.
    cbn [sql_eq] in Hrid |- *.
    destruct (repair_id r0 =? id) eqn:E; [reflexivity|].
    rewrite E in Hrid. discriminate Hrid. }
  assert (Hrefused :
            snd (generateBillFromRepair d1 billNumber bill updated) = updated /\
            status (fst (generateBillFromRepair d1 billNumber bill updated)) <> 200).
  { destruct (generateBillFromRepair_outcome billNumber bill updated)
      as [H|(m' & id' & repair & u & Hp' & Hid' & Hr & Hst & _)]; [exact H|].
    rewrite Hpb in Hp'. injection Hp' as <-.
    rewrite Hidb in Hid'. injection Hid' as <-.
    rewrite (Hstatus repair Hr) in Hst. contradiction. }
  destruct Hrefused as [Hdb Hno].
  split; [exact Hdb|]. split; [exact Hno|].
  intros repair Hr.
  unfold generateBillFromRepair, try_catch, param, mbind, ret.
  rewrite Hpb, Hidb.
  unfold first_repair_with_customer, mbind, bind_value, gets, ret.
  cbn beta iota delta [sql_eq].
  unfold billable_repair in Hr. rewrite Hr.
  rewrite (Hstatus repair Hr).
  rewrite (proj2 (String.eqb_neq s "completed") Hne). reflexivity.
Qed.

(** *** The catalogue: deletions and overwrites *)

Lemma some_with_key {A} (f : A -> Z) id l y :
  In y l -> f y = id ->
  exists x rest, List.filter (fun y => sql_eq (f y) (Some id)) l = x :: rest.
Proof.
  intros Hin Hid.
  destruct (List.filter (fun y => sql_eq (f y) (Some id)) l) as [|x rest] eqn:E.
  - assert (H : In y (List.filter (fun y => sql_eq (f y) (Some id)) l)).
    { apply filter_In. split; [exact Hin|]. simpl. apply Z.eqb_eq, Hid. }
    rewrite E in H. destruct H.
  - exists x, rest. reflexivity.
Qed.

(** X13. A row with history is not deleted.  An accessory that a sale
    refers to, a part that a usage refers to, and a customer that a repair
    or a bill refers to are kept: the request to delete is answered with the
    handler's message, status 400, and writes nothing.  So an accessory
    cannot be deleted once a unit of it was sold or billed, nor a part once
    it was recorded on a repair, until that usage is removed. *)
Theorem rows_with_history_are_not_deleted
    (request : Request unit) (db : Database) (m : gmap string Z) (id : Z) :
  params request = Some m -> m !! "id" = Some id ->
  ((exists s, In s (accessory_sales db) /\ sale_accessory_id s = id) ->
   deleteAccessory d1 request db
   = (createError "Cannot delete accessory that has sales history" 400, db)) /\
  ((exists u, In u (repair_parts db) /\ rp_part_id u = id) ->
   deletePart d1 request db
   = (createError "Cannot delete part that has been used in repairs" 400, db)) /\
  ((exists r, In r (repairs db) /\ repair_customer_id r = id) \/
   (exists b, In b (bills db) /\ bill_customer_id b = id) ->
   deleteCustomer d1 request db
   = (createError "Cannot delete customer with repair or billing history" 400,
      db)).
Proof.
  intros Hp Hid. split; [|split].
  - intros (s & Hin & Hs).
    destruct (some_with_key sale_accessory_id id _ s Hin Hs) as (x & rest & E).
    unfold deleteAccessory, try_catch, param, mbind at 1, ret at 1.
    rewrite Hp, Hid.
    unfold count_where, mbind, bind_value, gets, ret. rewrite E. reflexivity.
  - intros (u & Hin & Hu).
    destruct (some_with_key rp_part_id id _ u Hin Hu) as (x & rest & E).
    unfold deletePart, try_catch, param, mbind at 1, ret at 1.
    rewrite Hp, Hid.
    unfold count_where, mbind, bind_value, gets, ret. rewrite E. reflexivity.
  - intros Hhistory.
    unfold deleteCustomer, try_catch, param, mbind at 1, ret at 1.
    rewrite Hp, Hid.
    unfold count_where, mbind, bind_value, gets, ret.
    destruct Hhistory as [(r & Hin & Hr)|(b & Hin & Hb)].
    + destruct (some_with_key repair_customer_id id _ r Hin Hr)
        as (x & rest & E).
      rewrite E. reflexivity.
    + destruct (some_with_key bill_customer_id id _ b Hin Hb)
        as (x & rest & E).
      rewrite E. cbn [length].
      rewrite orb_true_r. reflexivity.
Qed.

Lemma filter_other_key {A} (f : A -> Z) id l :
  (forall x, In x l -> f x <> id) ->
  List.filter (fun x => negb (sql_eq (f x) (Some id))) l = l.
Proof.
  intros H. apply filter_keeps_all. intros x Hx.
  apply negb_true_iff, Z.eqb_neq, H, Hx.
Qed.

Lemma filter_no_key {A} (f : A -> Z) id l :
  (forall x, In x l -> f x <> id) ->
  List.filter (fun x => sql_eq (f x) (Some id)) l = [].
Proof.
  intros H. apply filter_drops_all. intros x Hx. apply Z.eqb_neq, H, Hx.
Qed.

(** X14. Deleting what is not there.  The deletions of an accessory, of a
    part, of a customer and of a repair do not look the row up: for an id
    that is not on record and that nothing refers to, each answers 200 with
    its message of success and leaves the database as it was.  The deletion
    of a bill looks the bill up first and answers 404. *)
Theorem deleting_an_absent_row
    (request : Request unit) (db : Database) (m : gmap string Z) (id : Z) :
  params request = Some m -> m !! "id" = Some id ->
  ((forall a, In a (accessories db) -> accessory_id a <> id) ->
   (forall s, In s (accessory_sales db) -> sale_accessory_id s <> id) ->
   deleteAccessory d1 request db
   = (createSuccess "Accessory deleted successfully", db)) /\
  ((forall p, In p (parts db) -> part_id p <> id) ->
   (forall u, In u (repair_parts db) -> rp_part_id u <> id) ->
   deletePart d1 request db = (createSuccess "Part deleted successfully", db)) /\
  ((forall c, In c (customers db) -> c <> id) ->
   (forall r, In r (repairs db) -> repair_customer_id r <> id) ->
   (forall b, In b (bills db) -> bill_customer_id b <> id) ->
   deleteCustomer d1 request db
   = (createSuccess "Customer deleted successfully", db)) /\
  ((forall r, In r (repairs db) -> repair_id r <> id) ->
   (forall u, In u (repair_parts db) -> rp_repair_id u <> id) ->
   (forall b, In b (bills db) -> bill_repair_id b <> Some id) ->
   deleteRepair d1 request db = (createSuccess "Repair deleted successfully", db)) /\
  ((forall b, In b (bills db) -> bill_id b <> id) ->
   deleteBill d1 request db = (createError "Bill not found" 404, db)).
Proof.
  intros Hp Hid. split; [|split; [|split; [|split]]].
  - intros Hrow Hrefs.
    unfold deleteAccessory, try_catch, param, mbind at 1, ret at 1.
    rewrite Hp, Hid.
    unfold count_where, mbind, bind_value, gets, modify, ret.
    rewrite (filter_no_key sale_accessory_id id _ Hrefs). cbn [length].
    change (0 <? Z.of_nat 0) with false. cbn beta iota. f_equal.
    apply with_accessories_same, (filter_other_key accessory_id), Hrow.
  - intros Hrow Hrefs.
    unfold deletePart, try_catch, param, mbind at 1, ret at 1.
    rewrite Hp, Hid.
    unfold count_where, mbind, bind_value, gets, modify, ret.
    rewrite (filter_no_key rp_part_id id _ Hrefs). cbn [length].
    change (0 <? Z.of_nat 0) with false. cbn beta iota. f_equal.
    apply with_parts_same, (filter_other_key part_id), Hrow.
  - intros Hrow Hrepairs Hbills.
    unfold deleteCustomer, try_catch, param, mbind at 1, ret at 1.
    rewrite Hp, Hid.
    unfold count_where, mbind, bind_value, gets, modify, ret.
    rewrite (filter_no_key repair_customer_id id _ Hrepairs).
    rewrite (filter_no_key bill_customer_id id _ Hbills). cbn [length].
    change (0 <? Z.of_nat 0) with false. cbn beta iota. f_equal.
    apply with_customers_same, (filter_other_key (fun c => c)), Hrow.
  - intros Hrow Husages Hbills.
    destruct (deleteRepair_outcome request db) as [[_ Hno]|(m' & Hp' & _ & Hout)].
    + exfalso. apply Hno.
      unfold deleteRepair, try_catch, param, mbind at 1, ret at 1.
      rewrite Hp, Hid.
      unfold mbind at 1, bind_value, ret at 1, mbind at 1, gets at 1.
      fold (bill_of_repair (Some id)). rewrite (no_bill_of_repair id _ Hbills).
      change (0 <? Z.of_nat (length (@nil Bill))) with false. cbn beta iota.
      unfold transaction, mbind at 1, gets at 1.
      unfold mbind at 1. rewrite for_each_credit. reflexivity.
    + rewrite Hp in Hp'. injection Hp' as <-. rewrite Hid in Hout.
      rewrite Hout. f_equal.
      rewrite (filter_no_key rp_repair_id id _ Husages).
      change (credit_parts [] db) with db.
      rewrite (with_repair_parts_same _ db)
        by (apply (filter_other_key rp_repair_id), Husages).
      apply with_repairs_same, (filter_other_key repair_id), Hrow.
  - intros Hnone. exact (deleteBill_not_found request db m id Hp Hid Hnone).
Qed.




(** When a quantity adjustment is applied. *)
Lemma adjustAccessoryQuantity_applies (request : Request QuantityBody) db
    m id n f q :
  params request = Some m -> m !! "id" = Some id ->
  qb_quantity (json request) = Some n -> n <> 0 ->
  quantity_update (qb_operation (json request)) n = Some (ret f) ->
  stock_of_accessory db id = Some q ->
  stock_of_accessory (snd (adjustAccessoryQuantity d1 request db)) id
  = Some (f q).
Proof.
  intros Hp Hid Hn Hn0 Hf Hq.
  destruct (adjustAccessoryQuantity_outcome request db)
    as [[_ Hno]|(m' & id' & n' & f' & Hp' & Hid' & Hn' & _ & Hf' & Hout)].
  - exfalso. apply Hno.
    unfold adjustAccessoryQuantity, try_catch, param, mbind at 1, ret at 1.
    rewrite Hp, Hid, Hn. cbv zeta. rewrite (truthyZ_Some n Hn0).
    assert (Hop : truthyS (qb_operation (json request)) = true).
    { unfold quantity_update in Hf.
      destruct (qb_operation (json request)) as [op|]; [|discriminate Hf].
      destruct op; [discriminate Hf|reflexivity]. }
    rewrite Hop. cbn [negb orb]. change (default 0 (Some n)) with n.
    rewrite Hf. unfold mbind at 1, ret at 1.
    unfold update_accessory_quantity, first_accessory, mbind, bind_value,
      modify, gets, ret.
    cbn [accessories with_accessories]. unfold set_accessory_quantity at 1.
    rewrite (find_map_matched (fun a => sql_eq (accessory_id a) (Some id)))
      by reflexivity.
    cbn beta iota delta [sql_eq]. unfold stock_of_accessory in Hq.
    destruct (List.find _ (accessories db)); [reflexivity|discriminate Hq].
  - rewrite Hp in Hp'. injection Hp' as <-.
    rewrite Hid in Hid'. injection Hid' as <-.
    rewrite Hn in Hn'. injection Hn' as <-.
    rewrite Hf in Hf'. injection Hf' as Hf'.
    apply (f_equal (fun u => u db)) in Hf'. injection Hf' as <-.
    rewrite Hout. cbn [snd]. rewrite stock_after_accessory_update, Hq.
    simpl. rewrite Z.eqb_refl. reflexivity.
Qed.

Lemma adjustPartQuantity_applies (request : Request QuantityBody) db
    m id n f q :
  params request = Some m -> m !! "id" = Some id ->
  qb_quantity (json request) = Some n -> n <> 0 ->
  quantity_update (qb_operation (json request)) n = Some (ret f) ->
  stock_of_part db id = Some q ->
  stock_of_part (snd (adjustPartQuantity d1 request db)) id = Some (f q).
Proof.
  intros Hp Hid Hn Hn0 Hf Hq.
  destruct (adjustPartQuantity_outcome request db)
    as [[_ Hno]|(m' & id' & n' & f' & Hp' & Hid' & Hn' & _ & Hf' & Hout)].
  - exfalso. apply Hno.
    unfold adjustPartQuantity, try_catch, param, mbind at 1, ret at 1.
    rewrite Hp, Hid, Hn. cbv zeta. rewrite (truthyZ_Some n Hn0).
    assert (Hop : truthyS (qb_operation (json request)) = true).
    { unfold quantity_update in Hf.
      destruct (qb_operation (json request)) as [op|]; [|discriminate Hf].
      destruct op; [discriminate Hf|reflexivity]. }
    rewrite Hop. cbn [negb orb]. change (default 0 (Some n)) with n.
    rewrite Hf. unfold mbind at 1, ret at 1.
    unfold update_part_quantity, first_part, mbind, bind_value,
      modify, gets, ret.
    cbn [parts with_parts]. unfold set_part_quantity at 1.
    rewrite (find_map_matched (fun a => sql_eq (part_id a) (Some id)))
      by reflexivity.
    cbn beta iota delta [sql_eq]. unfold stock_of_part in Hq.
    destruct (List.find _ (parts db)); [reflexivity|discriminate Hq].
  - rewrite Hp in Hp'. injection Hp' as <-.
    rewrite Hid in Hid'. injection Hid' as <-.
    rewrite Hn in Hn'. injection Hn' as <-.
    rewrite Hf in Hf'. injection Hf' as Hf'.
    apply (f_equal (fun u => u db)) in Hf'. injection Hf' as <-.
    rewrite Hout. cbn [snd]. rewrite stock_after_part_update, Hq.
    simpl. rewrite Z.eqb_refl. reflexivity.
Qed.

(** A request with operation [subtract] writes nothing, whatever else it
    holds. *)
Lemma subtract_writes_nothing (request : Request QuantityBody) db :
  qb_operation (json request) = Some "subtract" ->
  snd (adjustAccessoryQuantity d1 request db) = db /\
  snd (adjustPartQuantity d1 request db) = db.
Proof.
  intros Hop. split.
  - unfold adjustAccessoryQuantity, try_catch, param, mbind at 1.
    destruct (params request) as [m|]; [|reflexivity].
    unfold ret at 1. cbv zeta. rewrite Hop.
    destruct (negb (truthyZ (qb_quantity (json request))) || _); reflexivity.
  - unfold adjustPartQuantity, try_catch, param, mbind at 1.
    destruct (params request) as [m|]; [|reflexivity].
    unfold ret at 1. cbv zeta. rewrite Hop.
    destruct (negb (truthyZ (qb_quantity (json request))) || _); reflexivity.
Qed.

(** X16. What takes an addition back.  On either quantity route, after an
    adjustment with operation add and a non-zero amount [n], a request with
    operation subtract leaves the item with [q + n], [q] being the quantity
    before: the subtraction is not applied, in this order or in the other.
    An adjustment with operation add and the amount [- n] does take the
    addition back and leaves [q]. *)
Theorem subtract_does_not_undo_add
    (add subtract back : Request QuantityBody) (db : Database)
    (ma mb : gmap string Z) (id n q : Z) :
  params add = Some ma -> ma !! "id" = Some id ->
  params back = Some mb -> mb !! "id" = Some id ->
  qb_operation (json add) = Some "add" -> qb_quantity (json add) = Some n ->
  qb_operation (json subtract) = Some "subtract" ->
  qb_operation (json back) = Some "add" ->
  qb_quantity (json back) = Some (- n) ->
  n <> 0 ->
  (stock_of_accessory db id = Some q ->
   stock_of_accessory
     (snd (adjustAccessoryQuantity d1 subtract
             (snd (adjustAccessoryQuantity d1 add db)))) id = Some (q + n) /\
   stock_of_accessory
     (snd (adjustAccessoryQuantity d1 add
             (snd (adjustAccessoryQuantity d1 subtract db)))) id = Some (q + n) /\
   stock_of_accessory
     (snd (adjustAccessoryQuantity d1 back
             (snd (adjustAccessoryQuantity d1 add db)))) id = Some q) /\
  (stock_of_part db id = Some q ->
   stock_of_part
     (snd (adjustPartQuantity d1 subtract
             (snd (adjustPartQuantity d1 add db)))) id = Some (q + n) /\
   stock_of_part
     (snd (adjustPartQuantity d1 add
             (snd (adjustPartQuantity d1 subtract db)))) id = Some (q + n) /\
   stock_of_part
     (snd (adjustPartQuantity d1 back
             (snd (adjustPartQuantity d1 add db)))) id = Some q).
Proof.
  intros Hpa Hida Hpb Hidb Hadd Hna Hsub Hback Hnb Hn0.
  assert (Hfa : quantity_update (qb_operation (json add)) n
                = Some (ret (fun q => q + n))) by (rewrite Hadd; reflexivity).
  assert (Hfb : quantity_update (qb_operation (json back)) (- n)
                = Some (ret (fun q => q + - n))) by (rewrite Hback; reflexivity).
  assert (Hn0' : - n <> 0) by lia.
  split; intros Hq.
  - pose proof (adjustAccessoryQuantity_applies add db ma id n _ q
                  Hpa Hida Hna Hn0 Hfa Hq) as Hadded.
    repeat split.
    + destruct (subtract_writes_nothing subtract
                  (snd (adjustAccessoryQuantity d1 add db)) Hsub) as [-> _].
      exact Hadded.
    + destruct (subtract_writes_nothing subtract db Hsub) as [-> _].
      exact Hadded.
    + rewrite (adjustAccessoryQuantity_applies back _ mb id (- n) _ (q + n)
                 Hpb Hidb Hnb Hn0' Hfb Hadded).
      f_equal. lia.
  - pose proof (adjustPartQuantity_applies add db ma id n _ q
                  Hpa Hida Hna Hn0 Hfa Hq) as Hadded.
    repeat split.
    + destruct (subtract_writes_nothing subtract
                  (snd (adjustPartQuantity d1 add db)) Hsub) as [_ ->].
      exact Hadded.
    + destruct (subtract_writes_nothing subtract db Hsub) as [_ ->].
      exact Hadded.
    + rewrite (adjustPartQuantity_applies back _ mb id (- n) _ (q + n)
                 Hpb Hidb Hnb Hn0' Hfb Hadded).
      f_equal. lia.
Qed.

(** X17. The router assigns nothing to [request.params], so a handler that
    reads [request.params.id] gets a request whose [params] is undefined:
    the read throws, and each of these handlers answers 500 with its own
    failure message and writes nothing. *)
Theorem unbound_params_answer_500 (db : Database) :
  (forall request : Request QuantityBody, params request = None ->
     adjustAccessoryQuantity d1 request db
       = (createError "Failed to update accessory quantity" 500, db) /\
     adjustPartQuantity d1 request db
       = (createError "Failed to update part quantity" 500, db)) /\
  (forall request : Request SellBody, params request = None ->
     sellAccessory d1 request db
       = (createError "Failed to sell accessory" 500, db)) /\
  (forall now (request : Request AddPartBody), params request = None ->
     addPart d1 now request db
       = (createError "Failed to add part to repair" 500, db)) /\
  (forall request : Request unit, params request = None ->
     removePart d1 request db
       = (createError "Failed to remove part from repair" 500, db) /\
     deleteRepair d1 request db
       = (createError "Failed to delete repair" 500, db) /\
     deleteBill d1 request db = (createError "Failed to delete bill" 500, db) /\
     deleteAccessory d1 request db
       = (createError "Failed to delete accessory" 500, db) /\
     deletePart d1 request db = (createError "Failed to delete part" 500, db) /\
     deleteCustomer d1 request db
       = (createError "Failed to delete customer" 500, db)) /\
  (forall request : Request PaymentBody, params request = None ->
     updatePayment d1 request db
       = (createError "Failed to update bill payment status" 500, db)) /\
  (forall request : Request StatusBody, params request = None ->
     updateRepairStatus d1 request db
       = (createError "Failed to update repair status" 500, db)) /\
  (forall request : Request AccessoryBody, params request = None ->
     updateAccessory d1 request db
       = (createError "Failed to update accessory" 500, db)).
Proof.
  repeat split; intros;
    unfold adjustAccessoryQuantity, adjustPartQuantity, sellAccessory, addPart,
      removePart, deleteRepair, deleteBill, deleteAccessory, deletePart,
      deleteCustomer, updatePayment, updateRepairStatus, updateAccessory,
      try_catch, param, mbind;
    match goal with H : params _ = None |- _ => rewrite H end; reflexivity.
Qed.

(** *** The lines of a cart *)

(** A cart bill that succeeds is the third loop run on the database with
    the bill inserted. *)
Lemma generateAccessoryBill_loop billNumber (request : Request CartBody) db :
  status (fst (generateAccessoryBill d1 billNumber request db)) = 200 ->
  exists items u b,
    cb_items (json request) = Some items /\
    user request = Some u /\
    bill_id b = seq_bills db + 1 /\
    for_each items (bill_cart_line d1 (seq_bills db + 1) (user_id u))
      (add_bill b db)
    = Normal tt (snd (generateAccessoryBill d1 billNumber request db)).
Proof.
  remember (generateAccessoryBill d1 billNumber request db) as out eqn:E.
  unfold generateAccessoryBill, try_catch in E.
  destruct (cb_items (json request)) as [items|] eqn:Hitems;
    [|subst out; discriminate].
  cbv zeta in E.
  destruct (cb_customer_id (json request)) as [cid|] eqn:Hcid;
    [|subst out; discriminate].
  destruct (negb (truthyZ (Some cid)) || (length items =? 0)%nat);
    [subst out; discriminate|].
  unfold mbind at 1, first_customer, mbind at 1, bind_value, gets, ret in E.
  destruct (List.find _ (customers db)); [|subst out; discriminate].
  unfold mbind at 1 in E.
  destruct (verify_cart_outcome items db) as [r [Hv Hok]]. rewrite Hv in E.
  destruct r as [response|].
  { subst out. simpl. destruct Hok as [-> _]. discriminate. }
  unfold mbind at 1 in E.
  destruct (cart_subtotal_outcome items 0%Q db) as [Ht|[subtotal Hs]].
  { rewrite Ht in E. subst out; discriminate. }
  rewrite Hs in E. unfold transaction, user_id_of, mbind at 1 in E.
  destruct (user request) as [u|] eqn:Hu; [|subst out; discriminate].
  unfold ret at 1, mbind at 1, insert_bill in E.
  destruct (existsb _ (bills db)) eqn:Hfresh; [subst out; discriminate|].
  unfold mbind at 1 in E.
  match type of E with
  | context [for_each items ?body ?d] =>
      destruct (for_each items body d) as [[] dbL'|dbL'] eqn:Hloop
  end; [|subst out; discriminate].
  subst out. intros _. eexists items, u, _.
  split; [reflexivity|]. split; [reflexivity|]. split; [|exact Hloop].
  reflexivity.
Qed.

(** What the third loop writes: for each line one bill item and one sale
    row that agree, priced from the accessory, and one debit. *)
Lemma cart_lines_written billId sold_by items :
  forall db dbL dbL',
    (forall id, price_of dbL id = price_of db id) ->
    for_each items (bill_cart_line d1 billId sold_by) dbL = Normal tt dbL' ->
    exists its sales,
      bill_items dbL' = bill_items dbL ++ its /\
      accessory_sales dbL' = accessory_sales dbL ++ sales /\
      map (fun i => (bi_item_id i, bi_quantity i)) its
      = map (fun c => (ci_accessory_id c, ci_quantity c)) items /\
      map (fun i => (bi_item_id i, bi_quantity i, bi_unit_price i,
                     bi_total_price i)) its
      = map (fun s => (sale_accessory_id s, sale_quantity_sold s,
                       sale_unit_price s, sale_total_price s)) sales /\
      Forall (fun i => bi_bill_id i = billId /\ bi_item_type i = "accessory" /\
                       price_of db (bi_item_id i) = Some (bi_unit_price i) /\
                       bi_total_price i
                       = (bi_unit_price i * inject_Z (bi_quantity i))%Q) its /\
      Forall (fun s => sale_sold_by s = sold_by) sales /\
      forall id,
        stock_of_accessory dbL' id
        = (fun q => q - fold_right Z.add 0
                         (map ci_quantity
                            (List.filter (fun c => ci_accessory_id c =? id) items)))
          <$> stock_of_accessory dbL id.
Proof.
  induction items as [|item rest IH]; intros db dbL dbL' Hprice Hloop.
  - simpl in Hloop. injection Hloop as <-. exists [], [].
    rewrite !app_nil_r. repeat (split; [first [reflexivity|constructor]|]).
    intros id. simpl. destruct (stock_of_accessory dbL id); simpl;
      [f_equal; lia|reflexivity].
  - simpl in Hloop. unfold mbind at 1, bill_cart_line at 1 in Hloop.
    unfold first_accessory, mbind at 1 2, bind_value, ret at 1, gets in Hloop.
    cbn beta iota delta [sql_eq] in Hloop.
    destruct (List.find _ (accessories dbL)) as [a|] eqn:Ha; [|discriminate].
    unfold insert_bill_item, update_accessory_quantity, insert_accessory_sale,
      mbind at 1 2 3 4 5, bind_value, modify, ret in Hloop.
    cbn beta iota in Hloop.
    match type of Hloop with
    | for_each rest _ ?d = _ =>
        assert (Hpr : forall id, price_of d id = price_of db id);
          [|destruct (IH db d dbL' Hpr Hloop)
              as (its & sales & Hi & Hs & Hlines & Hagree & Hits & Hsales
                  & Hstock)]
    end.
    + intros id.
      transitivity (price_of (with_accessories
                      (set_accessory_quantity (fun q => q - ci_quantity item)
                         (Some (ci_accessory_id item))) dbL) id);
        [reflexivity|].
      rewrite price_after_accessory_update. apply Hprice.
    + cbn [bill_items accessory_sales add_accessory_sale with_accessories
           add_bill_item] in Hi, Hs.
      eexists (_ :: its), (_ :: sales).
      split; [rewrite Hi, <- app_assoc; reflexivity|].
      split; [rewrite Hs, <- app_assoc; reflexivity|].
      cbn [map bi_item_id bi_quantity bi_unit_price bi_total_price
           sale_accessory_id sale_quantity_sold sale_unit_price
           sale_total_price].
      split; [rewrite Hlines; reflexivity|].
      split; [rewrite Hagree; reflexivity|].
      split.
      { constructor; [|exact Hits].
        cbn [bi_bill_id bi_item_type bi_item_id bi_unit_price bi_total_price
             bi_quantity].
        repeat (split; [reflexivity|]). split; [|reflexivity].
        rewrite <- Hprice. unfold price_of. rewrite Ha. reflexivity. }
      split; [constructor; [reflexivity|exact Hsales]|].
      intros id. rewrite Hstock.
      match goal with
      | |- context [add_accessory_sale ?row (with_accessories ?f ?d)] =>
          change (stock_of_accessory (add_accessory_sale row (with_accessories f d)) id)
            with (stock_of_accessory (with_accessories f dbL) id)
      end.
      rewrite stock_after_accessory_update. cbn [List.filter].
      rewrite (Z.eqb_sym (ci_accessory_id item) id).
      destruct (stock_of_accessory dbL id) as [q|]; [|reflexivity].
      destruct (id =? ci_accessory_id item); simpl; f_equal; lia.
Qed.

(** X18. What a cart bill records.  When POST /bills/accessories
    succeeds, the bill gets one item per line of the cart, in the order of
    the cart, each an accessory item priced at the accessory's price on
    record with [unit_price * quantity] as its total; for each item one sale
    row is written that agrees with it on accessory, quantity, unit price
    and total, sold by the requesting user; and the stock of every accessory
    goes down by the sum of the quantities of the cart's lines for it. *)
Theorem cart_bill_records_its_lines
    (billNumber : string) (request : Request CartBody) (db : Database) :
  status (fst (generateAccessoryBill d1 billNumber request db)) = 200 ->
  exists items u its sales,
    cb_items (json request) = Some items /\ user request = Some u /\
    bill_items (snd (generateAccessoryBill d1 billNumber request db))
      = bill_items db ++ its /\
    accessory_sales (snd (generateAccessoryBill d1 billNumber request db))
      = accessory_sales db ++ sales /\
    map (fun i => (bi_item_id i, bi_quantity i)) its
      = map (fun c => (ci_accessory_id c, ci_quantity c)) items /\
    map (fun i => (bi_item_id i, bi_quantity i, bi_unit_price i,
                   bi_total_price i)) its
      = map (fun s => (sale_accessory_id s, sale_quantity_sold s,
                       sale_unit_price s, sale_total_price s)) sales /\
    Forall (fun i => bi_bill_id i = seq_bills db + 1 /\
                     bi_item_type i = "accessory" /\
                     price_of db (bi_item_id i) = Some (bi_unit_price i) /\
                     bi_total_price i
                     = (bi_unit_price i * inject_Z (bi_quantity i))%Q) its /\
    Forall (fun s => sale_sold_by s = user_id u) sales /\
    forall id,
      stock_of_accessory (snd (generateAccessoryBill d1 billNumber request db)) id
      = (fun q => q - fold_right Z.add 0
                       (map ci_quantity
                          (List.filter (fun c => ci_accessory_id c =? id) items)))
        <$> stock_of_accessory db id.
Proof.
  intros Hok.
  destruct (generateAccessoryBill_loop billNumber request db Hok)
    as (items & u & b & Hitems & Hu & Hb & Hloop).
  destruct (cart_lines_written _ _ items db (add_bill b db) _
              (fun id => eq_refl) Hloop)
    as (its & sales & Hi & Hs & Hlines & Hagree & Hits & Hsales & Hstock).
  exists items, u, its, sales.
  repeat (split; [assumption|]). exact Hstock.
Qed.

(** *** The router: paths *)

Lemma split_slash_app a b cur :
  Router.split_slash (a +:+ String "/" b) cur
  = Router.split_slash a cur ++ Router.split_slash b "".
Proof.
  revert cur. induction a as [|c a IH]; intros cur; simpl; [reflexivity|].
  destruct (Ascii.eqb c "/"); simpl; rewrite IH; reflexivity.
Qed.

Lemma segments_app a b :
  Router.segments (a +:+ String "/" b) = Router.segments a ++ Router.segments b.
Proof.
  unfold Router.segments. rewrite split_slash_app. apply List.filter_app.
Qed.

Lemma matchPath_segments routePath requestPath :
  routePath <> "" ->
  Router.matchPath routePath requestPath
  = Router.match_segments (Router.segments routePath)
      (Router.segments requestPath).
Proof.
  intros Hne. unfold Router.matchPath.
  rewrite (proj2 (String.eqb_neq routePath "") Hne). reflexivity.
Qed.

(** X19. Extra slashes do not matter to a route other than the root: a
    request path with a slash added at its end or at its start, or with one
    of its slashes doubled, matches a route path exactly when the path
    without it does, the empty segments being dropped before the comparison.
    The root route is compared as a whole string, so it matches "/" and not
    "//". *)
Theorem extra_slashes_are_ignored (routePath a b : string) :
  routePath <> "" ->
  Router.matchPath routePath (a +:+ "/") = Router.matchPath routePath a /\
  Router.matchPath routePath ("/" +:+ a) = Router.matchPath routePath a /\
  Router.matchPath routePath (a +:+ "//" +:+ b)
    = Router.matchPath routePath (a +:+ "/" +:+ b) /\
  Router.matchPath "" "/" = true /\ Router.matchPath "" "//" = false.
Proof.
  intros Hne. rewrite !(matchPath_segments routePath) by exact Hne.
  assert (Hlead : forall s, Router.segments ("/" +:+ s) = Router.segments s)
    by reflexivity.
  split; [|split; [|split; [|split; reflexivity]]].
  - rewrite segments_app. change (Router.segments "") with (@nil string).
    rewrite app_nil_r. reflexivity.
  - rewrite Hlead. reflexivity.
  - change (a +:+ "//" +:+ b) with (a +:+ String "/" ("/" +:+ b)).
    change (a +:+ "/" +:+ b) with (a +:+ String "/" b).
    rewrite !segments_app, Hlead. reflexivity.
Qed.

(** *** The router: registrations *)

Lemma findRoute_use {B} (r : Router.t B) path handlers m requestPath :
  Router.findRoute (Router.use (inr path) handlers r) m requestPath
  = Router.findRoute r m requestPath.
Proof.
  unfold Router.findRoute, Router.use. cbn [Router.routes].
  rewrite find_app_first.
  destruct (List.find _ (Router.routes r)); reflexivity.
Qed.

(** X20. Mounting does nothing.  A route registered with [use(path,
    ...handlers)] has no [method], and [findRoute] compares the route's
    method with the request's: the route is never found, so a router answers
    every request as it did before the call, and the handlers passed to
    [use], a sub-router among them, are never called. *)
Theorem mounted_routes_are_never_matched {B}
    (r : Router.t B) (path : string) (handlers : list (Router.Handler B))
    (request : Request B) (db : Database) :
  (forall m requestPath,
     Router.findRoute (Router.use (inr path) handlers r) m requestPath
     = Router.findRoute r m requestPath) /\
  Router.handle (Router.use (inr path) handlers r) request db
  = Router.handle r request db.
Proof.
  split; [intros; apply findRoute_use|].
  unfold Router.handle, try_catch_error, mbind.
  change (Router.middleware (Router.use (inr path) handlers r))
    with (Router.middleware r).
  destruct (Router.run_handlers (Router.middleware r) request db)
    as [[[response|] request'] db'|error db']; cbn [fst snd]; [reflexivity| |reflexivity].
  rewrite findRoute_use. reflexivity.
Qed.

(** What [handle] answers for a router with one route and no middleware. *)
Lemma handle_single_route {B} m path (guard : Router.Handler B) request db :
  Router.handle (Router.addRoute m path guard Router.new) request db
  = if is_str (Some m) (method request)
       && Router.matchPath (if String.eqb path "/" then "" else path)
            (pathname request)
    then answer_of_guard guard request db
    else (not_found request, db).
Proof.
  unfold Router.handle, try_catch_error, Router.findRoute, Router.addRoute,
    Router.new, answer_of_guard, not_found.
  cbn [Router.middleware Router.routes Router.run_handlers app List.find
       Router.route_method Router.route_path Router.route_handlers].
  unfold mbind at 1, ret at 1. cbn [fst snd].
  destruct (is_str (Some m) (method request) && _); [|reflexivity].
  cbn [Router.route_handlers Router.run_handlers].
  unfold try_catch_error, mbind, ret.
  destruct (guard request db) as [[[response|] request'] db'|error db']; reflexivity.
Qed.

(** X21. The handler behind a guard is dropped.  [get], [post], [put],
    [delete] and [patch] take a path and one handler; called as the routes
    files call them, with a path, a role guard and the handler, they keep
    the guard.  A router with such a route answers a request with 404 when
    the route does not match, with the guard's 401 or 403 when the guard
    refuses, and with 500 "No response" when the guard lets the user pass;
    in no case is the database written. *)
Theorem guarded_route_runs_the_guard_only {B}
    (register : string -> Router.Handler B -> Router.t B -> Router.t B)
    (path : string) (roles : list string)
    (request : Request B) (db : Database) :
  In register [Router.get; Router.post; Router.put; Router.delete;
               Router.patch] ->
  Router.handle (register path (Router.requireRole roles) Router.new) request db
  = (not_found request, db)
  \/
  Router.handle (register path (Router.requireRole roles) Router.new) request db
  = (match user request with
     | None => createError "Authentication required" 401
     | Some u =>
         if existsb (String.eqb (user_role u)) roles
         then createError "No response" 500
         else createError "Insufficient permissions" 403
     end, db).
Proof.
  intros Hin.
  assert (Hguard : answer_of_guard (Router.requireRole roles) request db
                   = (match user request with
                      | None => createError "Authentication required" 401
                      | Some u =>
                          if existsb (String.eqb (user_role u)) roles
                          then createError "No response" 500
                          else createError "Insufficient permissions" 403
                      end, db)).
  { unfold answer_of_guard, try_catch_error, mbind, Router.requireRole, ret.
    destruct (user request) as [u|]; [|reflexivity].
    destruct (existsb _ roles); reflexivity. }
  assert (H : exists m, register = Router.addRoute m).
  { destruct Hin as [<-|[<-|[<-|[<-|[<-|[]]]]]]; eexists; reflexivity. }
  destruct H as [m ->]. rewrite handle_single_route, Hguard.
  destruct (is_str (Some m) (method request) && _); [right|left]; reflexivity.
Qed.

(** *** The router of index.js *)

Lemma find_none_all {A} (p : A -> bool) l :
  Forall (fun x => p x = false) l -> List.find p l = None.
Proof.
  induction 1 as [|x l Hx _ IH]; simpl; [reflexivity|]. rewrite Hx. exact IH.
Qed.

Lemma find_some_all {A} (p : A -> bool) (Q : A -> Prop) l x :
  Forall (fun x => p x = true -> Q x) l -> List.find p l = Some x -> Q x.
Proof.
  intros Hall Hfind. apply find_some in Hfind as [Hin Hp].
  rewrite Forall_forall in Hall. apply Hall; [apply list_elem_of_In, Hin|exact Hp].
Qed.

(** A route whose first segment is a literal other than the request's first
    segment does not match, and neither does the root route when the request
    path has a segment. *)
Lemma matchPath_first_segment routePath requestPath r rs s rest :
  Router.segments routePath = r :: rs ->
  Router.segments requestPath = s :: rest ->
  String.eqb r s = false -> Router.is_param r = false ->
  Router.matchPath routePath requestPath = false.
Proof.
  intros Hr Hs Hne Hparam. rewrite matchPath_segments.
  - rewrite Hr, Hs. simpl. rewrite Hne, Hparam. reflexivity.
  - intros ->. discriminate Hr.
Qed.

Lemma matchPath_root requestPath s rest :
  Router.segments requestPath = s :: rest ->
  Router.matchPath "" requestPath = false.
Proof.
  intros Hs. unfold Router.matchPath. cbn [String.eqb].
  destruct (String.eqb_spec requestPath "/") as [->|_]; [discriminate Hs|].
  destruct (String.eqb_spec requestPath "") as [->|_]; [discriminate Hs|].
  reflexivity.
Qed.

Section IndexRouter.

Context {B : Type}.
Variables corsMiddleware authMiddleware : Router.Handler B.
Variables login register logout health root : Router.Handler B.

(** A route of index.js does not match a request whose first segment is
    [s]: it has no method, or its path is the root, or its first segment is
    another literal. *)
Ltac no_match Hsegs :=
  first
    [ reflexivity
    | apply andb_false_iff; right;
      first [ exact (matchPath_root _ _ _ Hsegs)
            | eapply matchPath_first_segment;
              [vm_compute; reflexivity | exact Hsegs
               | reflexivity | reflexivity] ] ].

Lemma index_mounted_prefix m requestPath s rest :
  Router.segments requestPath = s :: rest ->
  In s ["customers"; "repairs"; "bills"; "reports"; "settings"] ->
  Router.findRoute
    (Router.index corsMiddleware authMiddleware login register logout health root)
    m requestPath = None.
Proof.
  intros Hsegs Hin. unfold Router.findRoute. apply find_none_all.
  destruct Hin as [<-|[<-|[<-|[<-|[<-|[]]]]]];
    repeat (apply Forall_cons; split; [cbn [Router.route_method Router.route_path];
                                   no_match Hsegs|]);
    apply Forall_nil; exact I.
Qed.

Lemma index_flattened_prefix m requestPath s rest route :
  Router.segments requestPath = s :: rest ->
  In s ["parts"; "accessories"] ->
  Router.findRoute
    (Router.index corsMiddleware authMiddleware login register logout health root)
    m requestPath = Some route ->
  Router.route_handlers route = [authMiddleware].
Proof.
  intros Hsegs Hin. unfold Router.findRoute.
  apply (find_some_all _ (fun route => Router.route_handlers route = [authMiddleware])).
  destruct Hin as [<-|[<-|[]]];
    repeat (apply Forall_cons; split;
            [cbn [Router.route_method Router.route_path Router.route_handlers];
             first [ intros _; reflexivity
                   | let Hp := fresh in
                     intros Hp; exfalso;
                     match type of Hp with
                     | ?p = true =>
                         assert (Hf : p = false) by no_match Hsegs;
                         rewrite Hf in Hp; discriminate Hp
                     end ]|]);
    apply Forall_nil; exact I.
Qed.

Lemma index_middleware :
  Router.middleware
    (Router.index corsMiddleware authMiddleware login register logout health root)
  = [corsMiddleware; Router.errorHandler].
Proof. reflexivity. Qed.

(** X22. The routers mounted in index.js are unreachable.  index.js
    mounts the customers, repairs, bills, reports and settings routers with
    [router.use(prefix, authMiddleware, subRouter)]; these registrations are
    never matched, and no other route of index.js starts with one of these
    prefixes.  So a request whose path starts with /customers, /repairs,
    /bills, /reports or /settings, once the CORS middleware has let it
    through, is answered 404 "Route ... not found", whatever its method and
    whoever sends it, and no handler of these routers runs. *)
Theorem mounted_routers_are_unreachable
    (request : Request B) (db : Database) (s : string) (rest : list string) :
  Router.segments (pathname request) = s :: rest ->
  In s ["customers"; "repairs"; "bills"; "reports"; "settings"] ->
  corsMiddleware request db = Normal (None, request) db ->
  Router.handle
    (Router.index corsMiddleware authMiddleware login register logout health root)
    request db
  = (not_found request, db).
Proof.
  intros Hsegs Hin Hcors.
  unfold Router.handle, try_catch_error. rewrite index_middleware.
  cbn [Router.run_handlers]. unfold mbind at 1 2. rewrite Hcors. cbn [fst snd].
  unfold Router.errorHandler at 1, mbind at 1, ret at 1. cbn [fst snd].
  unfold ret at 1. cbn [fst snd].
  rewrite (index_mounted_prefix _ _ s rest Hsegs Hin). reflexivity.
Qed.

(** X23. The routes index.js registers for parts and accessories run
    [authMiddleware] and nothing else.  Each of them is written
    [router.verb(path, authMiddleware, ..., handler)], and the registration
    keeps its first callback.  So a request whose path starts with /parts or
    /accessories, once the CORS middleware has let it through, is answered
    either 404 or by [authMiddleware] alone: its 401 when it refuses, 500
    "No response" when it lets the request pass, and 500 with the message of
    the error should it throw; the role guard and the handler behind it are
    never called. *)
Theorem flattened_routes_run_authMiddleware_only
    (request : Request B) (db : Database) (s : string) (rest : list string) :
  Router.segments (pathname request) = s :: rest ->
  In s ["parts"; "accessories"] ->
  corsMiddleware request db = Normal (None, request) db ->
  Router.handle
    (Router.index corsMiddleware authMiddleware login register logout health root)
    request db
  = (not_found request, db)
  \/
  Router.handle
    (Router.index corsMiddleware authMiddleware login register logout health root)
    request db
  = answer_of_guard authMiddleware request db.
Proof.
  intros Hsegs Hin Hcors.
  destruct (Router.findRoute
              (Router.index corsMiddleware authMiddleware login register logout
                 health root)
              (method request) (pathname request))
    as [route|] eqn:Hroute; [right|left];
    unfold Router.handle, try_catch_error; rewrite index_middleware;
    cbn [Router.run_handlers]; unfold mbind at 1 2; rewrite Hcors;
    cbn [fst snd];
    unfold Router.errorHandler at 1, mbind at 1, ret at 1; cbn [fst snd];
    unfold ret at 1; cbn [fst snd]; rewrite Hroute; [|reflexivity].
  rewrite (index_flattened_prefix _ _ s rest route Hsegs Hin Hroute).
  cbn [Router.run_handlers]. unfold answer_of_guard, try_catch_error, mbind, ret.
  destruct (authMiddleware request db) as [[[response|] request'] db'|error db'];
    reflexivity.
Qed.

End IndexRouter.

(** *** The items of a repair bill *)

Lemma items_of_usages_columns billId seq usages :
  map (fun i => (bi_item_id i, bi_quantity i, bi_unit_price i,
                 bi_total_price i, bi_pricing_mode i))
      (items_of_usages billId seq usages)
  = map (fun u => (rp_part_id u, rp_quantity_used u, rp_unit_price u,
                   rp_total_price u, Some (rp_pricing_mode u))) usages.
Proof.
  revert seq. induction usages as [|u us IH]; intros seq; simpl;
    [reflexivity|]. rewrite IH. reflexivity.
Qed.

Lemma items_of_usages_type billId seq usages :
  Forall (fun i => bi_bill_id i = billId /\ bi_item_type i = "part")
    (items_of_usages billId seq usages).
Proof.
  revert seq. induction usages as [|u us IH]; intros seq; simpl; constructor;
    [split; reflexivity|apply IH].
Qed.

(** X24. What a repair bill records.  When POST /bills/from-repair
    succeeds for repair [id], the bill gets one item per usage of the
    repair whose part is on record, in the order of the usage rows, each a
    part item that copies the usage's part, quantity, unit price, total and
    pricing mode; where every usage refers to a part on record these are all
    the usages of the repair.  Parts, accessories, usages and sales are what
    they were: billing a repair moves no stock. *)
Theorem repair_bill_records_its_usages
    (billNumber : string) (request : Request BillBody) (db : Database)
    (m : gmap string Z) (id : Z) :
  params request = Some m -> m !! "id" = Some id ->
  status (fst (generateBillFromRepair d1 billNumber request db)) = 200 ->
  (exists its,
     bill_items (snd (generateBillFromRepair d1 billNumber request db))
       = bill_items db ++ its /\
     map (fun i => (bi_item_id i, bi_quantity i, bi_unit_price i,
                    bi_total_price i, bi_pricing_mode i)) its
     = map (fun u => (rp_part_id u, rp_quantity_used u, rp_unit_price u,
                      rp_total_price u, Some (rp_pricing_mode u)))
         (billable_usages db id) /\
     Forall (fun i => bi_bill_id i = seq_bills db + 1 /\
                      bi_item_type i = "part") its) /\
  ((forall u, In u (repair_parts db) ->
      In (rp_part_id u) (map part_id (parts db))) ->
   billable_usages db id
   = List.filter (fun u => rp_repair_id u =? id) (repair_parts db)) /\
  parts (snd (generateBillFromRepair d1 billNumber request db)) = parts db /\
  accessories (snd (generateBillFromRepair d1 billNumber request db))
    = accessories db /\
  repair_parts (snd (generateBillFromRepair d1 billNumber request db))
    = repair_parts db /\
  accessory_sales (snd (generateBillFromRepair d1 billNumber request db))
    = accessory_sales db.
Proof.
  intros Hp Hid Hok.
  destruct (generateBillFromRepair_outcome billNumber request db)
    as [[_ Hno]|(m' & id' & repair & u & Hp' & Hid' & _ & _ & _ & _ & _ & Hout)];
    [contradiction|].
  rewrite Hp in Hp'. injection Hp' as <-.
  rewrite Hid in Hid'. injection Hid' as <-.
  cbv zeta in Hout. rewrite Hout. cbn [snd].
  split; [|split].
  - eexists. split; [rewrite add_bill_items_bill_items; reflexivity|].
    split; [apply items_of_usages_columns|apply items_of_usages_type].
  - intros Hparts. unfold billable_usages.
    apply List.filter_ext_in. intros x Hx.
    replace (existsb (fun p => part_id p =? rp_part_id x) (parts db)) with true;
      [apply andb_true_r|].
    symmetry. apply existsb_exists.
    specialize (Hparts x Hx). apply in_map_iff in Hparts as (p & Hpid & Hin).
    exists p. split; [exact Hin|apply Z.eqb_eq, Hpid].
  - match goal with
    | |- context [add_bill_items ?its (add_bill ?b db)] =>
        destruct (add_bill_items_frame its (add_bill b db))
          as (-> & -> & _ & _ & -> & ->)
    end.
    repeat split; reflexivity.
Qed.

(** *** Quantities below zero *)

(** X25. A negative quantity is refused by the sale and accepted by the
    usage recorder.  POST /accessories/:id/sell answers 400 for a quantity
    that is zero or negative and writes nothing.  POST /repairs/:id/parts
    has no such check: for a repair and a part on record, a pricing mode and
    a negative quantity [n] not above the stock, it succeeds, records a
    usage of [n] units with the negative total [n * price], and the part's
    stock goes up by [-n]. *)
Theorem negative_quantities
    (now : Z) (sell : Request SellBody) (add : Request AddPartBody)
    (db : Database) (m : gmap string Z) (id pid n : Z)
    (mode : string) (repair : Repair) (part : Part) :
  n <= 0 ->
  (sb_quantity (json sell) = Some n ->
   params sell = Some m ->
   sellAccessory d1 sell db
   = (createError "Valid quantity and unit price are required" 400, db)) /\
  (n < 0 ->
   params add = Some m -> m !! "id" = Some id ->
   ap_part_id (json add) = Some pid -> pid <> 0 ->
   ap_quantity_used (json add) = Some n ->
   ap_pricing_mode (json add) = Some mode -> mode = "repair" \/ mode = "seal" ->
   List.find (fun r => repair_id r =? id) (repairs db) = Some repair ->
   List.find (fun p => part_id p =? pid) (parts db) = Some part ->
   n <= part_quantity part ->
   fst (addPart d1 now add db)
     = createSuccess "Part added to repair successfully" /\
   repair_parts (snd (addPart d1 now add db))
     = repair_parts db ++
       [{| rp_id := seq_repair_parts db + 1; rp_repair_id := id;
           rp_part_id := pid; rp_quantity_used := n;
           rp_pricing_mode := mode;
           rp_unit_price := price_for mode part;
           rp_total_price := (inject_Z n * price_for mode part)%Q;
           rp_created_at := now |}] /\
   stock_of_part (snd (addPart d1 now add db)) pid
     = Some (part_quantity part - n) /\
   part_quantity part < part_quantity part - n).
Proof.
  intros Hn. split.
  - intros Hq Hp.
    unfold sellAccessory, try_catch, param, mbind at 1, ret at 1.
    rewrite Hp, Hq. cbv zeta. change (default 0 (Some n)) with n.
    replace (n <=? 0) with true by (symmetry; apply Z.leb_le; exact Hn).
    rewrite orb_true_r. reflexivity.
  - intros Hneg Hp Hid Hpid Hpid0 Hq Hmode Hvalid Hrepair Hpart Hstock.
    assert (Hout : addPart d1 now add db
                   = (createSuccess "Part added to repair successfully",
                      with_parts (set_part_quantity (fun q => q - n) (Some pid))
                        (with_repair_parts
                           (fun l => l ++
                              [{| rp_id := seq_repair_parts db + 1;
                                  rp_repair_id := id; rp_part_id := pid;
                                  rp_quantity_used := n;
                                  rp_pricing_mode := mode;
                                  rp_unit_price := price_for mode part;
                                  rp_total_price :=
                                    (inject_Z n * price_for mode part)%Q;
                                  rp_created_at := now |}])
                           (fun _ => seq_repair_parts db + 1) db))).
    { unfold addPart, try_catch, param, mbind at 1, ret at 1.
      rewrite Hp, Hid, Hpid, Hq, Hmode. cbv zeta.
      rewrite (truthyZ_Some pid Hpid0), (truthyZ_Some n) by lia.
      assert (Hm : truthyS (Some mode) = true)
        by (destruct Hvalid as [-> | ->]; reflexivity).
      assert (Hv : is_str (Some mode) "repair" || is_str (Some mode) "seal"
                   = true)
        by (destruct Hvalid as [-> | ->]; reflexivity).
      rewrite Hm, Hv. cbn [negb orb].
      unfold first_repair, first_part, mbind, bind_value, gets, ret.
      cbn beta iota delta [sql_eq]. rewrite Hrepair, Hpart.
      change (default 0 (Some n)) with n.
      replace (part_quantity part <? n) with false
        by (symmetry; apply Z.ltb_ge; exact Hstock).
      unfold transaction, insert_repair_part, update_part_quantity, mbind,
        bind_value, modify, ret.
      unfold price_for. cbn [is_str default from_option]. reflexivity. }
    rewrite Hout. cbn [fst snd]. split; [reflexivity|].
    split; [reflexivity|]. split; [|lia].
    rewrite (stock_after_part_update (fun q => q - n) pid pid).
    unfold stock_of_part. cbn [parts with_repair_parts].
    rewrite Hpart, Z.eqb_refl. reflexivity.
Qed.

(** *** Debits that are checked *)

Lemma filter_unique_key (id : Z) (items : list CartItem) :
  NoDup (map ci_accessory_id items) ->
  List.filter (fun c => ci_accessory_id c =? id) items = [] \/
  exists c, In c items /\ ci_accessory_id c = id /\
            List.filter (fun c => ci_accessory_id c =? id) items = [c].
Proof.
  induction items as [|c items IH]; intros Hnd; [left; reflexivity|].
  simpl in Hnd. apply NoDup_cons in Hnd as [Hc Hnd]. simpl.
  destruct (ci_accessory_id c =? id) eqn:E.
  - right. exists c. apply Z.eqb_eq in E.
    split; [left; reflexivity|]. split; [exact E|]. f_equal.
    apply filter_drops_all. intros x Hx. apply Z.eqb_neq. intros Heq.
    apply Hc. rewrite E, <- Heq. apply list_elem_of_In, in_map, Hx.
  - destruct (IH Hnd) as [H|(x & Hx & Hid & H)]; [left; exact H|].
    right. exists x. split; [right; exact Hx|]. split; assumption.
Qed.

Lemma generateAccessoryBill_keeps_stock billNumber
    (request : Request CartBody) db :
  NoDup (map ci_accessory_id (default [] (cb_items (json request)))) ->
  stock_nonnegative db ->
  stock_nonnegative (snd (generateAccessoryBill d1 billNumber request db)).
Proof.
  intros Hnd [Hacc Hparts]. split.
  - destruct (generateAccessoryBill_outcome billNumber request db)
      as [[-> _]|(items & cid & u & subtotal & its & Hitems & _ & Hall & _
                  & Hok & _)]; [exact Hacc|].
    assert (H200 : status (fst (generateAccessoryBill d1 billNumber request db))
                   = 200) by (rewrite Hok; reflexivity).
    destruct (generateAccessoryBill_loop billNumber request db H200)
      as (items' & u' & b & Hitems' & _ & _ & Hloop).
    rewrite Hitems in Hitems'. injection Hitems' as <-.
    destruct (cart_lines_written _ _ items db (add_bill b db) _
                (fun id => eq_refl) Hloop)
      as (_ & _ & _ & _ & _ & _ & _ & _ & Hstock).
    rewrite Hitems in Hnd. cbn [default from_option] in Hnd.
    intros id q'. rewrite Hstock.
    change (stock_of_accessory (add_bill b db) id)
      with (stock_of_accessory db id).
    destruct (stock_of_accessory db id) as [q|] eqn:Hq; [|discriminate].
    simpl. intros H. injection H as <-.
    destruct (filter_unique_key id items Hnd) as [->|(c & Hin & Hid & ->)].
    + simpl. specialize (Hacc id q Hq). lia.
    + rewrite forallb_forall in Hall. specialize (Hall c Hin).
      unfold cart_line_in_stock in Hall. rewrite Hid in Hall.
      unfold stock_of_accessory in Hq.
      destruct (List.find _ (accessories db)) as [a|]; [|discriminate].
      simpl in Hq. injection Hq as <-.
      apply negb_true_iff, Z.ltb_ge in Hall. simpl. lia.
  - apply (generateAccessoryBill_frame
             (fun d => forall id q, stock_of_part d id = Some q -> 0 <= q));
      [intros ? ? H; exact H | intros ? ? H; exact H | intros ? ? H; exact H
       | intros ? ? H; exact H | exact Hparts].
Qed.

Lemma serve_keeps_stock call db :
  checked_debit call -> stock_nonnegative db ->
  stock_nonnegative (snd (serve d1 call db)).
Proof.
  intros Hcall Hpos.
  destruct call as [[request|request|request|now request|request|request
                    |billNumber request|billNumber request]
                   |request|request|request|request|request|request|request
                   |request];
    cbn [serve perform]; try contradiction.
  - destruct Hpos as [Hacc Hparts]. split.
    + intros id q'. apply sellAccessory_keeps_stock. apply Hacc.
    + apply (sellAccessory_frame
               (fun d => forall id q, stock_of_part d id = Some q -> 0 <= q));
        [intros ? ? H; exact H | intros ? ? H; exact H | exact Hparts].
  - destruct Hpos as [Hacc Hparts]. split.
    + apply (addPart_frame
               (fun d => forall id q, stock_of_accessory d id = Some q -> 0 <= q));
        [intros ? ? H; exact H | intros ? ? ? H; exact H | exact Hacc].
    + intros id q'. apply addPart_keeps_stock. apply Hparts.
  - apply generateAccessoryBill_keeps_stock; assumption.
Qed.

(** X26. A debit that is checked against the quantity it debits never
    takes stock below zero.  In a database where no quantity is negative,
    none is after any sequence of sales, of recordings of usages, and of
    cart bills whose lines name each accessory once, whatever the requests
    hold: each of them either fails its check and writes nothing, or debits
    at most what is there. *)
Theorem checked_debits_keep_stock_nonnegative
    (calls : list Call) (db : Database) :
  Forall checked_debit calls -> stock_nonnegative db ->
  stock_nonnegative (serve_all d1 calls db).
Proof.
  intros Hcalls. revert db.
  induction Hcalls as [|call calls Hcall _ IH]; intros db Hpos; [exact Hpos|].
  unfold serve_all in *. cbn [fold_left]. apply IH, serve_keeps_stock; assumption.
Qed.

(** *** The router: precedence *)

(** X27. The route registered first wins.  Registering a further route
    never changes the route found for a request that already had one: the
    new route is found only for the requests no earlier route matches, and
    then only when its own method and path match.  (index.js registers
    /parts/boxes before /parts/:id, which matches it as well.) *)
Theorem earlier_route_wins {B}
    (r : Router.t B) (m path : string) (handler : Router.Handler B)
    (requestMethod requestPath : string) :
  (forall route,
     Router.findRoute r requestMethod requestPath = Some route ->
     Router.findRoute (Router.addRoute m path handler r)
       requestMethod requestPath = Some route) /\
  (Router.findRoute r requestMethod requestPath = None ->
   Router.findRoute (Router.addRoute m path handler r) requestMethod requestPath
   = if String.eqb m requestMethod
        && Router.matchPath (if String.eqb path "/" then "" else path)
             requestPath
     then Some {| Router.route_method := Some m;
                  Router.route_path := if String.eqb path "/" then "" else path;
                  Router.route_handlers := [handler] |}
     else None).
Proof.
  unfold Router.findRoute, Router.addRoute. cbn [Router.routes].
  rewrite find_app_first. split.
  - intros route ->. reflexivity.
  - intros ->. reflexivity.
Qed.

(** *** The catalogue: updating a part *)






End Properties.

(** ** The scenarios, run *)

(** Stock 20: a request to subtract 5 is answered 500 and leaves 20, where
    the floor would give 15; a request to subtract 25 leaves 20, where it
    would give 0. *)
Lemma subtract_scenario :
  adjustAccessoryQuantity true (adjustment "subtract" 5) shop
  = (createError "Failed to update accessory quantity" 500, shop) /\
  adjustAccessoryQuantity true (adjustment "subtract" 25) shop
  = (createError "Failed to update accessory quantity" 500, shop) /\
  stock_of_accessory shop 1 = Some 20.
Proof.
  split; [|split; [|reflexivity]].
  - apply (subtract_is_never_applied true (adjustment "subtract" 5) shop 5);
      [reflexivity | reflexivity | discriminate].
  - apply (subtract_is_never_applied true (adjustment "subtract" 25) shop 25);
      [reflexivity | reflexivity | discriminate].
Defined.

(** Price 15.00, stock 20: selling 2 at 15.00 records a sale of 30.00 and
    leaves 18; selling 25 then fails with "Insufficient stock" and leaves
    18. *)
Lemma sell_scenario :
  accessory_sales (snd (sellAccessory true (sale_of 2) shop))
    = [{| sale_id := 1; sale_accessory_id := 1; sale_quantity_sold := 2;
          sale_unit_price := 15; sale_total_price := 30; sale_sold_by := 7 |}] /\
  stock_of_accessory (snd (sellAccessory true (sale_of 2) shop)) 1 = Some 18 /\
  sellAccessory true (sale_of 25) (snd (sellAccessory true (sale_of 2) shop))
    = (createError "Insufficient stock" 400,
       snd (sellAccessory true (sale_of 2) shop)) /\
  stock_of_accessory
    (snd (sellAccessory true (sale_of 25)
            (snd (sellAccessory true (sale_of 2) shop)))) 1 = Some 18.
Proof.
  destruct (sell_checks_stock_then_debits true (sale_of 2) shop
              {["id" := 1]} 1 2 15%Q admin
              {| accessory_id := 1; accessory_name := "Phone case";
                 accessory_quantity := 20; accessory_price := 15 |})
    as [_ Hsold];
    [reflexivity | reflexivity | reflexivity | reflexivity | reflexivity
     | reflexivity | discriminate | reflexivity |].
  destruct Hsold as (_ & Hsale & Hstock & _); [discriminate|].
  destruct (sell_checks_stock_then_debits true (sale_of 25)
              (snd (sellAccessory true (sale_of 2) shop))
              {["id" := 1]} 1 25 15%Q admin
              {| accessory_id := 1; accessory_name := "Phone case";
                 accessory_quantity := 18; accessory_price := 15 |})
    as [Hshort _];
    [reflexivity | reflexivity | reflexivity | reflexivity | reflexivity
     | reflexivity | discriminate | reflexivity |].
  split; [exact Hsale|]. split; [exact Hstock|].
  split; [apply Hshort; reflexivity|].
  rewrite (Hshort eq_refl). exact Hstock.
Defined.

(** Billing the billed repair again is refused and the one bill stays the
    only one. *)
Lemma second_bill_scenario :
  generateBillFromRepair true "BILL-2" bill_repair_1 billed_shop
    = (createError "Bill already exists for this repair" 400, billed_shop) /\
  length (bills_for billed_shop 1) = 1%nat.
Proof.
  destruct (second_bill_is_refused true "BILL-2" bill_repair_1 billed_shop
              {["id" := 1]} 1
              {| bill_id := 1; bill_repair_id := Some 1; bill_customer_id := 1;
                 bill_number := "BILL-1";
                 bill_subtotal := (0 + inject_Z 2 * 50)%Q;
                 bill_tax_amount := tax_of (0 + inject_Z 2 * 50) (85 # 10);
                 bill_total_amount :=
                   (0 + inject_Z 2 * 50
                    + tax_of (0 + inject_Z 2 * 50) (85 # 10))%Q;
                 bill_payment_status := "pending";
                 bill_payment_method := None; bill_created_by := 7 |})
    as (Hdb & _ & Hmsg & _);
    [reflexivity | reflexivity | left; reflexivity | reflexivity |].
  split; [|reflexivity].
  rewrite (surjective_pairing (generateBillFromRepair _ _ _ _)).
  rewrite Hdb,
    (Hmsg {| repair_id := 1; repair_customer_id := 1;
             repair_status := "completed" |} eq_refl eq_refl).
  reflexivity.
Defined.

(** The bill of the scenario: subtotal the sum of its items, tax and total
    derived from it. *)
Lemma bill_totals_scenario :
  exists b,
    bills billed_shop = [b] /\
    (bill_subtotal b == sum_total_price (items_of billed_shop b))%Q /\
    (bill_tax_amount b == bill_subtotal b * ((85 # 10) / 100))%Q /\
    (bill_total_amount b == bill_subtotal b + bill_tax_amount b)%Q.
Proof.
  destruct (bill_totals_follow_items true "BILL-1" shop_with_usage) as [H _].
  - intros i [].
  - exact (H bill_repair_1 eq_refl).
Defined.

(** One unit of a 15.00 accessory billed at a tax rate of 8.5: the tax
    amount stored is 1.275, which is no whole number of cents, so it is not
    the product rounded to the currency's smallest unit. *)
Lemma tax_amount_is_not_rounded :
  exists b,
    bills (snd (generateAccessoryBill true "BILL-1"
                  (cart [{| ci_accessory_id := 1; ci_quantity := 1 |}] (85 # 10))
                  shop)) = [b] /\
    (bill_tax_amount b == 1275 # 1000)%Q /\
    ~ whole_cents (bill_tax_amount b).
Proof.
  eexists. split; [reflexivity|]. split; [reflexivity|].
  intros [c Hc]. unfold Qeq in Hc. cbn in Hc. lia.
Qed.

(** A cart whose second line asks for 5 of an accessory with 3 in stock:
    nothing is written, not even for the first line. *)
Lemma short_cart_scenario :
  snd (generateAccessoryBill true "BILL-1"
         (cart [{| ci_accessory_id := 1; ci_quantity := 2 |};
                {| ci_accessory_id := 2; ci_quantity := 5 |}] 0) shop) = shop /\
  status (fst (generateAccessoryBill true "BILL-1"
         (cart [{| ci_accessory_id := 1; ci_quantity := 2 |};
                {| ci_accessory_id := 2; ci_quantity := 5 |}] 0) shop)) <> 200.
Proof.
  apply (cart_is_checked_before_any_write true "BILL-1" _ shop
           [{| ci_accessory_id := 1; ci_quantity := 2 |};
            {| ci_accessory_id := 2; ci_quantity := 5 |}]
           {| ci_accessory_id := 2; ci_quantity := 5 |});
    [reflexivity | right; left; reflexivity | reflexivity].
Defined.

(** A request of the administrator for repair 1, [params] unbound as the
    router leaves it: the handler answers 500 "Failed to generate bill" with
    either driver, and the bills router answers 500 "No response" without
    calling the handler; neither is the repair-not-found answer. *)
Lemma unbound_params_are_not_answered_not_found :
  fst (generateBillFromRepair true "BILL-1" bill_repair_1_as_routed shop_with_usage)
    = createError "Failed to generate bill" 500 /\
  fst (generateBillFromRepair false "BILL-1" bill_repair_1_as_routed shop_with_usage)
    = createError "Failed to generate bill" 500 /\
  fst (Router.handle Router.from_repair_route bill_repair_1_as_routed
         shop_with_usage)
    = createError "No response" 500 /\
  createError "Failed to generate bill" 500 <> createError "Repair not found" 404 /\
  createError "No response" 500 <> createError "Repair not found" 404.
Proof. repeat split; try reflexivity; discriminate. Qed.

(** The same request writes nothing, in the handler and through the bills
    router. *)
Lemma routed_bill_request_scenario :
  snd (generateBillFromRepair false "BILL-1" bill_repair_1_as_routed shop_with_usage)
    = shop_with_usage /\
  fst (generateBillFromRepair false "BILL-1" bill_repair_1_as_routed shop_with_usage)
    = createError "Failed to generate bill" 500 /\
  Router.handle Router.from_repair_route bill_repair_1_as_routed shop_with_usage
  = (createError "No response" 500, shop_with_usage).
Proof.
  destruct (bill_from_repair_reads_an_unbound_param false "BILL-1"
              bill_repair_1_as_routed shop_with_usage)
    as (_ & Hdb & Hnone & _ & Hrouted).
  - intros m Hm. discriminate Hm.
  - split; [exact Hdb|]. split; [exact (Hnone eq_refl)|].
    rewrite Hrouted. reflexivity.
Defined.



(** Repair price 50.00, sealing price 80.00, stock 10; two units at the
    repair price, then a bill at a tax rate of 8.5: usage total 100.00, stock
    8, subtotal 100.00, tax 8.50, total 108.50; and the same bill when the
    part was repriced before billing. *)
Lemma repair_scenario :
  (exists usage,
     repair_parts shop_with_usage = [usage] /\
     rp_unit_price usage = 50%Q /\ (rp_total_price usage == 100)%Q) /\
  stock_of_part shop_with_usage 1 = Some 8 /\
  (exists b,
     bills billed_shop = [b] /\
     (bill_subtotal b == 100)%Q /\
     (bill_tax_amount b == 85 # 10)%Q /\
     (bill_total_amount b == 1085 # 10)%Q) /\
  (exists b,
     bills (snd (generateBillFromRepair true "BILL-1" bill_repair_1
                   repriced_shop)) = [b] /\
     (bill_subtotal b == 100)%Q /\
     (bill_tax_amount b == 85 # 10)%Q /\
     (bill_total_amount b == 1085 # 10)%Q).
Proof.
  assert (Hgen := fun later =>
    usage_is_priced_when_recorded true 100 "BILL-1"
      add_two_at_repair_price bill_repair_1 shop later
      {["id" := 1]} {["id" := 1]} 1 1 2 "repair" (85 # 10)
      {| part_id := 1; part_quantity := 10;
         part_repair_price := 50; part_sealing_price := 80 |}
      eq_refl eq_refl eq_refl eq_refl eq_refl eq_refl eq_refl).
  destruct (Hgen shop_with_usage)
    as ((usage & Hrows & _ & _ & _ & _ & Hunit & Htotal) & Hstock & Hbill).
  split.
  { exists usage. split; [exact Hrows|]. split; [exact Hunit|].
    rewrite Htotal. reflexivity. }
  split; [exact Hstock|]. split.
  - destruct Hbill as (b & Hb & Hsub & Htax & Htot);
      [reflexivity | reflexivity | reflexivity | intros u [] | reflexivity
       | reflexivity | eexists; split; [left; reflexivity|reflexivity]
       | reflexivity |].
    exists b. split; [exact Hb|].
    split; [rewrite Hsub; reflexivity|].
    split; [rewrite Htax; reflexivity|].
    rewrite Htot. reflexivity.
  - destruct (Hgen repriced_shop) as (_ & _ & Hlater).
    destruct Hlater as (b & Hb & Hsub & Htax & Htot);
      [reflexivity | reflexivity | reflexivity | intros u [] | reflexivity
       | reflexivity | eexists; split; [left; reflexivity|reflexivity]
       | reflexivity |].
    exists b. split; [exact Hb|].
    split; [rewrite Hsub; reflexivity|].
    split; [rewrite Htax; reflexivity|].
    rewrite Htot. reflexivity.
Defined.

(** The amounts of that scenario are the same when computed on binary64
    numbers, as the handlers compute them. *)
Remark repair_scenario_in_binary64 :
  (2 * 50 = 100 /\
   tax_of_binary64 100 8.5 = 8.5 /\
   100 + tax_of_binary64 100 8.5 = 108.5)%float.
Proof. repeat split; reflexivity. Qed.

(** The completed repair of the shop has no usage yet: billing it is
    answered "No parts found for this repair" and writes nothing. *)
Lemma empty_repair_scenario :
  generateBillFromRepair true "BILL-1" bill_repair_1 shop
  = (createError "No parts found for this repair" 400, shop).
Proof.
  destruct (empty_repair_is_not_billed true "BILL-1" bill_repair_1 shop
              {["id" := 1]} 1
              {| repair_id := 1; repair_customer_id := 1;
                 repair_status := "completed" |})
    as (Hdb & _ & Hmsg);
    [reflexivity | reflexivity | reflexivity | reflexivity | intros u [] |].
  rewrite (surjective_pairing (generateBillFromRepair _ _ _ _)).
  rewrite Hdb, Hmsg; [reflexivity|]. intros b [].
Defined.

(** ** Further scenarios *)

(** Selling 25 of 20 is refused, and the shop is what it was. *)
Lemma refused_sale_scenario :
  snd (serve true (Core (SellAccessory (sale_of 25))) shop) = shop.
Proof.
  apply (refused_request_writes_nothing true (Core (SellAccessory (sale_of 25)))).
  vm_compute. discriminate.
Defined.

(** Deleting the repair with its usage of two units: the part is back at
    10 and the usage is gone. *)
Lemma delete_repair_scenario :
  fst (deleteRepair true (deletion "/repairs/1" 1) shop_with_usage)
    = createSuccess "Repair deleted successfully" /\
  stock_of_part (snd (deleteRepair true (deletion "/repairs/1" 1) shop_with_usage)) 1
    = Some 10 /\
  repair_parts (snd (deleteRepair true (deletion "/repairs/1" 1) shop_with_usage))
    = [].
Proof.
  destruct (deleteRepair_returns_the_parts true (deletion "/repairs/1" 1)
              shop_with_usage {["id" := 1]} 1)
    as (Hok & Hstock & Hrows & _);
    [reflexivity | reflexivity | intros b [] |].
  split; [exact Hok|]. split; [|exact Hrows].
  rewrite Hstock. reflexivity.
Defined.

(** The billed repair cannot be deleted. *)
Lemma delete_billed_repair_scenario :
  deleteRepair true (deletion "/repairs/1" 1) billed_shop
  = (createError "Cannot delete repair with associated bills" 400, billed_shop).
Proof.
  apply (billed_repair_is_not_deleted true "BILL-1" bill_repair_1
           (deletion "/repairs/1" 1) shop_with_usage
           {["id" := 1]} {["id" := 1]} 1);
    reflexivity.
Defined.

(** Two units recorded, removed, three recorded, a sale in between, the
    repair deleted: the ten units of the part are all accounted for. *)
Lemma part_ledger_scenario :
  part_units
    (serve_all true
       [Core (AddPart 100 (usage_of 2)); Core (RemovePart remove_part_1);
        Core (AddPart 101 (usage_of 3)); Core (SellAccessory (sale_of 2));
        Core (DeleteRepair (deletion "/repairs/1" 1))] shop) 1
  = Some 10.
Proof.
  rewrite (part_units_are_conserved true
             [Core (AddPart 100 (usage_of 2)); Core (RemovePart remove_part_1);
              Core (AddPart 101 (usage_of 3)); Core (SellAccessory (sale_of 2));
              Core (DeleteRepair (deletion "/repairs/1" 1))] shop 1);
    [reflexivity | split; [constructor | intros u []] | reflexivity].
Defined.

(** A sale of two, a cart that names the accessory twice, the deletion of
    the cart's bill: the twenty units are on the shelf or on sale rows. *)
Lemma accessory_ledger_scenario :
  accessory_units
    (serve_all true
       [Core (SellAccessory (sale_of 2));
        Core (GenerateAccessoryBill "BILL-1"
                (cart [{| ci_accessory_id := 1; ci_quantity := 12 |};
                       {| ci_accessory_id := 1; ci_quantity := 12 |}] 0));
        DeleteBill (deletion "/bills/1" 1)] shop) 1
  = Some 20.
Proof.
  rewrite (accessory_units_are_conserved true
             [Core (SellAccessory (sale_of 2));
              Core (GenerateAccessoryBill "BILL-1"
                      (cart [{| ci_accessory_id := 1; ci_quantity := 12 |};
                             {| ci_accessory_id := 1; ci_quantity := 12 |}] 0));
              DeleteBill (deletion "/bills/1" 1)] shop 1);
    reflexivity.
Defined.

Lemma shop_references_hold : references_hold shop.
Proof.
  refine (conj _ (conj _ (conj _ (conj _ _)))).
  - intros u [].
  - intros s [].
  - intros r [<-|[]]. left. reflexivity.
  - intros b [].
  - intros i [].
Qed.

(** The shop's references hold after a usage, a bill, a refused deletion of
    the billed repair and the deletion of the customer. *)
Lemma references_scenario :
  references_hold
    (serve_all true
       [Core (AddPart 100 (usage_of 2));
        Core (GenerateBillFromRepair "BILL-1" bill_repair_1);
        Core (DeleteRepair (deletion "/repairs/1" 1));
        DeleteCustomer (deletion "/customers/1" 1)] shop).
Proof.
  apply (references_are_kept true). exact shop_references_hold.
Defined.


(** Statuses after a status update and a payment. *)
Lemma statuses_scenario :
  payment_statuses_valid
    (serve_all true [UpdateRepairStatus (status_of_repair_1 "cancelled");
                     UpdatePayment (payment "paid")] billed_shop) /\
  repair_statuses_valid
    (serve_all true [UpdateRepairStatus (status_of_repair_1 "cancelled");
                     UpdatePayment (payment "paid")] billed_shop).
Proof.
  apply (statuses_stay_valid true).
  - intros b [<-|[]]. left. reflexivity.
  - intros r [<-|[]]. right. right. left. reflexivity.
Defined.

(** Deleting the bill of the scenario: no bill and no item is left, and the
    part's stock stays at 8. *)
Lemma delete_bill_scenario :
  bills (snd (deleteBill true (deletion "/bills/1" 1) billed_shop)) = [] /\
  bill_items (snd (deleteBill true (deletion "/bills/1" 1) billed_shop)) = [] /\
  parts (snd (deleteBill true (deletion "/bills/1" 1) billed_shop))
    = parts billed_shop /\
  deleteBill true (deletion "/bills/2" 2) billed_shop
    = (createError "Bill not found" 404, billed_shop).
Proof.
  destruct (deleteBill_deletes_bill_and_items true (deletion "/bills/1" 1)
              billed_shop) as ((Hparts & _) & _ & _).
  destruct (deleteBill_deletes_bill_and_items true (deletion "/bills/2" 2)
              billed_shop) as (_ & Hmissing & _).
  split; [reflexivity|]. split; [reflexivity|]. split; [exact Hparts|].
  apply (Hmissing {["id" := 2]} 2); [reflexivity | reflexivity |].
  intros b [<-|[]]. discriminate.
Defined.

(** Billing the repair, deleting the bill, billing it again. *)
Lemma bill_again_scenario :
  bills (snd (deleteBill true (deletion "/bills/1" 1) billed_shop))
    = bills shop_with_usage /\
  bill_items (snd (deleteBill true (deletion "/bills/1" 1) billed_shop))
    = bill_items shop_with_usage /\
  status (fst (generateBillFromRepair true "BILL-1" bill_repair_1
                 (snd (deleteBill true (deletion "/bills/1" 1) billed_shop))))
    = 200.
Proof.
  destruct (deleteBill_undoes_generateBillFromRepair true "BILL-1" bill_repair_1
              (deletion "/bills/1" 1) shop_with_usage {["id" := 1]})
    as (_ & Hbills & Hitems & _ & _ & _ & _ & _ & _ & Hagain);
    [intros b [] | intros i [] | reflexivity | reflexivity | reflexivity |].
  split; [exact Hbills|]. split; [exact Hitems|exact Hagain].
Defined.

(** Cancelling the repair with its usage: the usage and the stock stay. *)
Lemma cancel_scenario :
  fst (updateRepairStatus true (status_of_repair_1 "cancelled") shop_with_usage)
    = createSuccess "Repair status updated successfully" /\
  length (repair_parts
            (snd (updateRepairStatus true (status_of_repair_1 "cancelled")
                    shop_with_usage))) = 1%nat /\
  stock_of_part
    (snd (updateRepairStatus true (status_of_repair_1 "cancelled")
            shop_with_usage)) 1 = Some 8 /\
  status (fst (updateRepairStatus true (status_of_repair_1 "done")
                 shop_with_usage)) <> 200.
Proof.
  destruct (status_update_writes_status_only true
              (status_of_repair_1 "cancelled") shop_with_usage)
    as (_ & _ & Hok).
  destruct (status_update_writes_status_only true
              (status_of_repair_1 "done") shop_with_usage)
    as (_ & Hbad & _).
  destruct (Hok {["id" := 1]} 1
              {| repair_id := 1; repair_customer_id := 1;
                 repair_status := "completed" |})
    as [Hfst _];
    [reflexivity | reflexivity | left; reflexivity | reflexivity
     | right; right; right; left; reflexivity |].
  split; [exact Hfst|]. split; [reflexivity|]. split; [reflexivity|].
  apply Hbad. vm_compute. intros [H|[H|[H|[H|[]]]]]; discriminate H.
Defined.

(** The repair set back to in_progress is not billed. *)
Lemma reopened_repair_scenario :
  generateBillFromRepair true "BILL-1" bill_repair_1
    (snd (updateRepairStatus true (status_of_repair_1 "in_progress")
            shop_with_usage))
  = (createError "Cannot generate bill for incomplete repair" 400,
     snd (updateRepairStatus true (status_of_repair_1 "in_progress")
            shop_with_usage)).
Proof.
  destruct (incomplete_repair_is_not_billed true "BILL-1"
              (status_of_repair_1 "in_progress") bill_repair_1 shop_with_usage
              {["id" := 1]} {["id" := 1]} 1 "in_progress")
    as (Hdb & _ & Hmsg);
    [reflexivity | reflexivity | reflexivity | discriminate | reflexivity
     | reflexivity | reflexivity |].
  rewrite (surjective_pairing (generateBillFromRepair _ _ _ _)).
  rewrite Hdb, (Hmsg {| repair_id := 1; repair_customer_id := 1;
                        repair_status := "in_progress" |} eq_refl).
  reflexivity.
Defined.

(** After a sale of accessory 1 the accessory cannot be deleted, after a
    usage of part 1 the part cannot, and the customer of the repair
    cannot. *)
Lemma history_scenario :
  status (fst (deleteAccessory true (deletion "/accessories/1" 1)
                 (snd (sellAccessory true (sale_of 2) shop)))) = 400 /\
  status (fst (deletePart true (deletion "/parts/1" 1) shop_with_usage)) = 400 /\
  deleteCustomer true (deletion "/customers/1" 1) shop
  = (createError "Cannot delete customer with repair or billing history" 400,
     shop).
Proof.
  destruct (rows_with_history_are_not_deleted true
              (deletion "/accessories/1" 1)
              (snd (sellAccessory true (sale_of 2) shop)) {["id" := 1]} 1)
    as (Hacc & _ & _); [reflexivity | reflexivity |].
  destruct (rows_with_history_are_not_deleted true (deletion "/parts/1" 1)
              shop_with_usage {["id" := 1]} 1)
    as (_ & Hpart & _); [reflexivity | reflexivity |].
  destruct (rows_with_history_are_not_deleted true (deletion "/customers/1" 1)
              shop {["id" := 1]} 1)
    as (_ & _ & Hcust); [reflexivity | reflexivity |].
  split; [|split].
  - rewrite Hacc; [reflexivity|].
    eexists. split; [left; reflexivity|reflexivity].
  - rewrite Hpart; [reflexivity|].
    eexists. split; [left; reflexivity|reflexivity].
  - apply Hcust. left. eexists. split; [left; reflexivity|reflexivity].
Defined.

(** Nothing of the shop has the id 9: four deletions answer 200, the
    deletion of a bill 404. *)
Lemma absent_row_scenario :
  deleteAccessory true (deletion "/accessories/9" 9) shop
    = (createSuccess "Accessory deleted successfully", shop) /\
  deleteRepair true (deletion "/repairs/9" 9) shop
    = (createSuccess "Repair deleted successfully", shop) /\
  deleteBill true (deletion "/bills/9" 9) shop
    = (createError "Bill not found" 404, shop).
Proof.
  destruct (deleting_an_absent_row true (deletion "/accessories/9" 9) shop
              {["id" := 9]} 9)
    as (Hacc & _ & _ & Hrep & Hbill); [reflexivity | reflexivity |].
  split; [|split].
  - apply Hacc; [|intros s []].
    intros a [<-|[<-|[]]]; discriminate.
  - apply Hrep; [|intros u []|intros b []].
    intros r [<-|[]]. discriminate.
  - apply Hbill. intros b [].
Defined.


(** Stock 20: adding 5 and then asking to subtract 5 leaves 25, and so
    does asking first; adding 5 and then adding -5 leaves 20. *)
Lemma add_subtract_scenario :
  stock_of_accessory
    (snd (adjustAccessoryQuantity true (adjustment "subtract" 5)
            (snd (adjustAccessoryQuantity true (adjustment "add" 5) shop)))) 1
    = Some 25 /\
  stock_of_accessory
    (snd (adjustAccessoryQuantity true (adjustment "add" 5)
            (snd (adjustAccessoryQuantity true (adjustment "subtract" 5) shop)))) 1
    = Some 25 /\
  stock_of_accessory
    (snd (adjustAccessoryQuantity true (adjustment "add" (-5))
            (snd (adjustAccessoryQuantity true (adjustment "add" 5) shop)))) 1
    = Some 20.
Proof.
  destruct (subtract_does_not_undo_add true (adjustment "add" 5)
              (adjustment "subtract" 5) (adjustment "add" (-5))
              shop {["id" := 1]} {["id" := 1]} 1 5 20)
    as [Hacc _];
    [reflexivity | reflexivity | reflexivity | reflexivity | reflexivity
     | reflexivity | reflexivity | reflexivity | reflexivity | discriminate |].
  exact (Hacc eq_refl).
Defined.

(** The sale request as the router delivers it. *)
Lemma unrouted_sale_scenario :
  sellAccessory true
    (sent "POST" "/accessories/1/sell" None
       {| sb_quantity := Some 2; sb_unit_price := Some 15%Q |}) shop
  = (createError "Failed to sell accessory" 500, shop).
Proof.
  destruct (unbound_params_answer_500 true shop) as (_ & Hsell & _).
  apply Hsell. reflexivity.
Defined.

(** A cart of two cases and one charger. *)
Lemma cart_scenario :
  exists its sales,
    bill_items
      (snd (generateAccessoryBill true "BILL-1"
              (cart [{| ci_accessory_id := 1; ci_quantity := 2 |};
                     {| ci_accessory_id := 2; ci_quantity := 1 |}] 0) shop))
      = its /\
    accessory_sales
      (snd (generateAccessoryBill true "BILL-1"
              (cart [{| ci_accessory_id := 1; ci_quantity := 2 |};
                     {| ci_accessory_id := 2; ci_quantity := 1 |}] 0) shop))
      = sales /\
    map (fun i => (bi_item_id i, bi_quantity i, bi_unit_price i,
                   bi_total_price i)) its
    = map (fun s => (sale_accessory_id s, sale_quantity_sold s,
                     sale_unit_price s, sale_total_price s)) sales /\
    length its = 2%nat.
Proof.
  destruct (cart_bill_records_its_lines true "BILL-1"
              (cart [{| ci_accessory_id := 1; ci_quantity := 2 |};
                     {| ci_accessory_id := 2; ci_quantity := 1 |}] 0) shop
              eq_refl)
    as (items & u & its & sales & Hitems & _ & Hi & Hs & Hlines & Hagree & _).
  injection Hitems as <-.
  exists its, sales. split; [exact Hi|]. split; [exact Hs|].
  split; [exact Hagree|].
  apply (f_equal (@length _)) in Hlines. rewrite !length_map in Hlines.
  exact Hlines.
Defined.

(** /parts/7/ is matched by /parts/:id as /parts/7 is; // is not matched
    by the root route. *)
Lemma slashes_scenario :
  Router.matchPath "/parts/:id" "/parts/7/" = true /\
  Router.matchPath "" "//" = false.
Proof.
  destruct (extra_slashes_are_ignored "/parts/:id" "/parts/7" "")
    as (Htrail & _ & _ & _ & Hroot); [discriminate|].
  split; [|exact Hroot].
  change "/parts/7/" with ("/parts/7" +:+ "/"). rewrite Htrail. reflexivity.
Defined.

(** The sale route as the accessories router registers it, asked by the
    administrator: "No response". *)
Lemma guarded_sale_scenario :
  Router.handle
    (Router.post "/:id/sell" Router.requireCashier Router.new)
    (sent "POST" "/1/sell" None
       {| sb_quantity := Some 2; sb_unit_price := Some 15%Q |}) shop
  = (createError "No response" 500, shop).
Proof.
  destruct (guarded_route_runs_the_guard_only Router.post "/:id/sell"
              ["admin"; "cashier"]
              (sent "POST" "/1/sell" None
                 {| sb_quantity := Some 2; sb_unit_price := Some 15%Q |}) shop)
    as [H|H]; [right; left; reflexivity | |exact H].
  reflexivity.
Defined.

(** GET /bills/1 on the router of index.js, with middleware that lets the
    request pass: 404. *)
Lemma mounted_bills_scenario :
  Router.handle
    (Router.index Router.errorHandler Router.errorHandler
       Router.not_a_function Router.not_a_function Router.not_a_function
       Router.not_a_function Router.not_a_function)
    (received "GET" "/bills/1") shop
  = (createError "Route GET /bills/1 not found" 404, shop).
Proof.
  apply (mounted_routers_are_unreachable Router.errorHandler Router.errorHandler
           Router.not_a_function Router.not_a_function Router.not_a_function
           Router.not_a_function Router.not_a_function
           (received "GET" "/bills/1") shop "bills" ["1"]);
    [reflexivity | right; right; left; reflexivity | reflexivity].
Defined.

(** POST /accessories/1/sell on the router of index.js, with middleware
    that lets the request pass: "No response". *)
Lemma flattened_sale_scenario :
  Router.handle
    (Router.index Router.errorHandler Router.errorHandler
       Router.not_a_function Router.not_a_function Router.not_a_function
       Router.not_a_function Router.not_a_function)
    (received "POST" "/accessories/1/sell") shop
  = (createError "No response" 500, shop).
Proof.
  destruct (flattened_routes_run_authMiddleware_only
              Router.errorHandler Router.errorHandler
              Router.not_a_function Router.not_a_function Router.not_a_function
              Router.not_a_function Router.not_a_function
              (received "POST" "/accessories/1/sell") shop "accessories"
              ["1"; "sell"])
    as [H|H];
    [reflexivity | right; left; reflexivity | reflexivity | |].
  - reflexivity.
  - reflexivity.
Defined.

(** The bill of the scenario has one item, which copies the usage. *)
Lemma repair_bill_items_scenario :
  exists i u,
    bill_items billed_shop = [i] /\ repair_parts shop_with_usage = [u] /\
    bi_item_id i = rp_part_id u /\ bi_quantity i = rp_quantity_used u /\
    bi_total_price i = rp_total_price u /\
    parts billed_shop = parts shop_with_usage.
Proof.
  destruct (repair_bill_records_its_usages true "BILL-1" bill_repair_1
              shop_with_usage {["id" := 1]} 1)
    as (_ & _ & Hparts & _); [reflexivity | reflexivity | reflexivity |].
  eexists _, _. repeat (split; [reflexivity|]). exact Hparts.
Defined.

(** Selling -5 is refused; recording -5 units of the part raises its stock
    from 10 to 15. *)
Lemma negative_quantity_scenario :
  status (fst (sellAccessory true (sale_of (-5)) shop)) = 400 /\
  stock_of_part (snd (addPart true 100 (usage_of (-5)) shop)) 1 = Some 15.
Proof.
  destruct (negative_quantities true 100 (sale_of (-5)) (usage_of (-5)) shop
              {["id" := 1]} 1 1 (-5) "repair"
              {| repair_id := 1; repair_customer_id := 1;
                 repair_status := "completed" |}
              {| part_id := 1; part_quantity := 10;
                 part_repair_price := 50; part_sealing_price := 80 |})
    as [Hsell Hadd]; [lia|].
  split.
  - rewrite Hsell; reflexivity.
  - destruct Hadd as (_ & _ & Hstock & _);
      [lia | reflexivity | reflexivity | reflexivity | discriminate
       | reflexivity | reflexivity | left; reflexivity | reflexivity
       | reflexivity | simpl; lia |].
    exact Hstock.
Defined.

Lemma shop_stock_nonnegative : stock_nonnegative shop.
Proof.
  split; intros id q.
  - unfold stock_of_accessory, shop. cbn [accessories List.find accessory_id].
    destruct (1 =? id); [simpl; intros H; injection H as <-; lia|].
    destruct (2 =? id); [simpl; intros H; injection H as <-; lia|discriminate].
  - unfold stock_of_part, shop. cbn [parts List.find part_id].
    destruct (1 =? id); [simpl; intros H; injection H as <-; lia|discriminate].
Qed.

(** Two sales, a cart and a usage at the shop: no quantity is negative. *)
Lemma checked_debits_scenario :
  stock_nonnegative
    (serve_all true
       [Core (SellAccessory (sale_of 18)); Core (SellAccessory (sale_of 5));
        Core (GenerateAccessoryBill "BILL-1"
                (cart [{| ci_accessory_id := 1; ci_quantity := 2 |};
                       {| ci_accessory_id := 2; ci_quantity := 3 |}] 0));
        Core (AddPart 100 (usage_of 10))] shop).
Proof.
  apply (checked_debits_keep_stock_nonnegative true).
  - apply Forall_cons. split; [exact I|].
    apply Forall_cons. split; [exact I|].
    apply Forall_cons. split;
      [|apply Forall_cons; split; [exact I|apply Forall_nil; exact I]].
    simpl. apply NoDup_cons. split; [|apply NoDup_singleton].
    intros H. apply list_elem_of_In in H. destruct H as [H|[]]. discriminate H.
  - exact shop_stock_nonnegative.
Defined.

(** GET /parts/boxes finds the boxes route also after /parts/:id was
    registered. *)
Lemma precedence_scenario :
  Router.findRoute
    (Router.get "/parts/:id" Router.requireAdmin
       (Router.get "/parts/boxes" (@Router.requireCashier unit) Router.new))
    "GET" "/parts/boxes"
  = Router.findRoute
      (Router.get "/parts/boxes" (@Router.requireCashier unit) Router.new)
      "GET" "/parts/boxes".
Proof.
  destruct (earlier_route_wins
              (Router.get "/parts/boxes" (@Router.requireCashier unit) Router.new)
              "GET" "/parts/:id" Router.requireAdmin "GET" "/parts/boxes")
    as [Hfirst _].
  exact (Hfirst _ eq_refl).
Defined.

